(** * NetBox SDN controller plugin: the reconciliation engine

    A shallow embedding of [netbox_sdn_controller/utils.py] and of
    [netbox_sdn_controller/sdnmanager/sdn_manager.py], and the properties of
    the engine stated over it.

    Conventions.  Python [str] is [string] (a sequence of bytes; the case and
    digit tests are the ASCII ones).  [None] is [option]'s [None].  A Django
    table is the list of its rows in query order, a foreign key is the [id]
    of the row it points to.  A Python exception is the [None] result of a
    function returning [option]. *)

From Stdlib Require Import ZArith Ascii String DecimalString Lia.
From stdpp Require Import base option list strings gmap.

Local Open Scope Z_scope.

(** ** Python strings *)

Module Py.

Definition chars (s : string) : list ascii := String.list_ascii_of_string s.
Definition str (l : list ascii) : string := String.string_of_list_ascii l.

Definition is_digit (c : ascii) : bool :=
    let n := N_of_ascii c in (N.leb 48 n && N.leb n 57)%bool.
Definition is_upper (c : ascii) : bool :=
    let n := N_of_ascii c in (N.leb 65 n && N.leb n 90)%bool.
Definition is_lower (c : ascii) : bool :=
    let n := N_of_ascii c in (N.leb 97 n && N.leb n 122)%bool.
Definition is_alpha (c : ascii) : bool := (is_upper c || is_lower c)%bool.
  (** [\w] *)
Definition is_word (c : ascii) : bool :=
    (is_alpha c || is_digit c || bool_decide (c = "_"%char))%bool.
  (** The characters [str.strip()] removes. *)
Definition is_space (c : ascii) : bool :=
    let n := N_of_ascii c in
    ((N.leb 9 n && N.leb n 13) || (N.leb 28 n && N.leb n 32))%bool.

Definition lower_char (c : ascii) : ascii :=
    if is_upper c then ascii_of_N (N_of_ascii c + 32) else c.

Definition upper_char (c : ascii) : ascii :=
    if is_lower c then ascii_of_N (N_of_ascii c - 32) else c.

  (** [s.lower()] *)
Definition lower (s : string) : string := str (lower_char <$> chars s).

  (** [s.capitalize()] *)
Definition capitalize (s : string) : string :=
    match chars s with
    | c :: l => str (upper_char c :: (lower_char <$> l))
    | [] => ""
    end.

Fixpoint starts_with (p s : list ascii) : bool :=
    match p, s with
    | [], _ => true
    | a :: p', b :: s' => (bool_decide (a = b) && starts_with p' s')%bool
    | _ :: _, [] => false
    end.

Fixpoint contains_chars (sub s : list ascii) : bool :=
    (starts_with sub s ||
     match s with [] => false | _ :: s' => contains_chars sub s' end)%bool.

  (** [sub in s] *)
Definition contains (sub s : string) : bool :=
    contains_chars (chars sub) (chars s).

  (** [s.split(sep)] for a one-character separator: the pieces between the
      separators, at least one piece. *)
Fixpoint split_chars (sep : ascii) (s : list ascii) : list (list ascii) :=
    match s with
    | [] => [[]]
    | c :: s' =>
        if bool_decide (c = sep) then [] :: split_chars sep s'
        else match split_chars sep s' with
             | piece :: rest => (c :: piece) :: rest
             | [] => [[c]]
             end
    end.
Definition split (sep : ascii) (s : string) : list string :=
    str <$> split_chars sep (chars s).

Fixpoint lstrip_chars (s : list ascii) : list ascii :=
    match s with
    | c :: s' => if is_space c then lstrip_chars s' else s
    | [] => []
    end.

  (** [s.strip()] *)
Definition strip (s : string) : string :=
    str (reverse (lstrip_chars (reverse (lstrip_chars (chars s))))).

  (** [str(n)] for an integer. *)
Definition str_of_Z (n : Z) : string := NilZero.string_of_int (Z.to_int n).

Definition digit_value (c : ascii) : Z := Z.of_N (N_of_ascii c) - 48.

  (** The value of a run of decimal digits, most significant first. *)
Definition digits_value (l : list ascii) : Z :=
    foldl (fun acc c => 10 * acc + digit_value c) 0 l.

  (** The digits of an integer literal, underscores between digits allowed. *)
Fixpoint literal_digits (prev_digit : bool) (l : list ascii) : option (list ascii) :=
    match l with
    | [] => if prev_digit then Some [] else None
    | c :: l' =>
        if is_digit c then cons c <$> literal_digits true l'
        else if (bool_decide (c = "_"%char) && prev_digit)%bool
             then literal_digits false l'
             else None
    end.

  (** [int(s)]: surrounding white space, an optional sign, decimal digits.
      [None] is the [ValueError]. *)
Definition int (s : string) : option Z :=
    match chars (strip s) with
    | "-"%char :: l => (fun d => - digits_value d) <$> literal_digits false l
    | "+"%char :: l => digits_value <$> literal_digits false l
    | l => digits_value <$> literal_digits false l
    end.

  (** The longest prefix of [l] in the class [p]. *)
Fixpoint take_while (p : ascii → bool) (l : list ascii) : list ascii :=
    match l with
    | c :: l' => if p c then c :: take_while p l' else []
    | [] => []
    end.

  (** [all(p(c) for c in s)] *)
Definition all (p : ascii → bool) (s : string) : bool := forallb p (chars s).

  (** Whether [s] begins with a character of the class [p]. *)
Definition head_in (p : ascii → bool) (s : string) : bool :=
    match chars s with
    | c :: _ => p c
    | [] => false
    end.

  (** [s[-2:]] *)
Definition last2 (s : string) : string :=
    let l := chars s in str (drop (length l - 2) l).

  (** Truth value of an optional string: [None] and [""] are false. *)
Definition truthy (s : option string) : bool :=
    match s with
    | Some s' => negb (bool_decide (s' = ""))
    | None => false
    end.

End Py.

(** ** The fragment of Python's [re] the engine uses

    A backtracking matcher in continuation-passing style: alternatives are
    tried left to right, a greedy repetition tries the longest run first and
    a lazy one the shortest, and the first complete match wins.  Repetition
    is over a character class, which is all the patterns of the source
    need. *)

Module Re.

Inductive regex : Type :=
  | Eps
  | Lit (c : ascii)
  | Class (p : ascii → bool)
  | Seq (r1 r2 : regex)
  | Alt (r1 r2 : regex)
  | Star (greedy : bool) (p : ascii → bool)
  | Plus (greedy : bool) (p : ascii → bool)
  | Opt (r : regex)
  | Group (n : nat) (r : regex).

  (** A literal string. *)
Definition Str (s : string) : regex :=
    foldr (fun c r => Seq (Lit c) r) Eps (Py.chars s).

  (** Numbered groups, the most recent capture first. *)
Definition captures := list (nat * string).

  (** [match.group(n)] *)
Fixpoint group (n : nat) (cs : captures) : option string :=
    match cs with
    | (i, s) :: cs' => if bool_decide (i = n) then Some s else group n cs'
    | [] => None
    end.

  Section Matcher.
    Context {A : Type}.
    (** [re.IGNORECASE] *)
    Variable ignorecase : bool.

Definition lit_eq (c x : ascii) : bool :=
      if ignorecase then bool_decide (Py.lower_char c = Py.lower_char x)
      else bool_decide (c = x).

    (** [p*] then the continuation [k]. *)
Fixpoint star (greedy : bool) (p : ascii → bool) (s : list ascii)
        (k : list ascii → option A) : option A :=
      match s with
      | c :: s' =>
          if p c then
            if greedy then
              match star greedy p s' k with
              | Some r => Some r
              | None => k s
              end
            else
              match k s with
              | Some r => Some r
              | None => star greedy p s' k
              end
          else k s
      | [] => k []
      end.

Fixpoint go (r : regex) (s : list ascii) (cs : captures)
        (k : list ascii → captures → option A) : option A :=
      match r with
      | Eps => k s cs
      | Lit c =>
          match s with
          | x :: s' => if lit_eq c x then k s' cs else None
          | [] => None
          end
      | Class p =>
          match s with
          | x :: s' => if p x then k s' cs else None
          | [] => None
          end
      | Seq r1 r2 => go r1 s cs (fun s' cs' => go r2 s' cs' k)
      | Alt r1 r2 =>
          match go r1 s cs k with
          | Some res => Some res
          | None => go r2 s cs k
          end
      | Star g p => star g p s (fun s' => k s' cs)
      | Plus g p =>
          match s with
          | x :: s' => if p x then star g p s' (fun s'' => k s'' cs) else None
          | [] => None
          end
      | Opt r1 =>
          match go r1 s cs k with
          | Some res => Some res
          | None => k s cs
          end
      | Group n r1 =>
          go r1 s cs (fun s' cs' =>
            k s' ((n, Py.str (take (length s - length s') s)) :: cs'))
      end.
  End Matcher.

  (** [re.match(pattern, s)]: at the start of [s] only. *)
Definition match_chars (ic : bool) (r : regex) (s : list ascii) : option captures :=
    go ic r s [] (fun _ cs => Some cs).

  (** [re.search(pattern, s)]: the leftmost position with a match. *)
Fixpoint search_chars (ic : bool) (r : regex) (s : list ascii) : option captures :=
    match match_chars ic r s with
    | Some cs => Some cs
    | None =>
        match s with
        | _ :: s' => search_chars ic r s'
        | [] => None
        end
    end.

Definition rmatch (ic : bool) (r : regex) (s : string) : option captures :=
    match_chars ic r (Py.chars s).
Definition search (ic : bool) (r : regex) (s : string) : option captures :=
    search_chars ic r (Py.chars s).

  (** [\d] and [\D] *)
Definition d : ascii → bool := Py.is_digit.
Definition D (c : ascii) : bool := negb (Py.is_digit c).

End Re.

(** ** [utils.py] *)

Module Utils.

  (** [int(match.group(n))] for a group of digits. *)
Definition int_group (n : nat) (m : Re.captures) : Z :=
    Py.digits_value (Py.chars (default "" (Re.group n m))).

  (** The number of ['1'] in [bin(n)]. *)
Fixpoint popcount_pos (p : positive) : Z :=
    match p with
    | xH => 1
    | xO p' => popcount_pos p'
    | xI p' => 1 + popcount_pos p'
    end.
Definition popcount (n : Z) : Z :=
    match n with
    | Z0 => 0
    | Zpos p | Zneg p => popcount_pos p
    end.

  (** [mask_to_cidr]; [None] when an octet is not an integer literal. *)
Definition mask_to_cidr (ipv4_mask : string) : option string :=
    octets ← mapM Py.int (Py.split "." ipv4_mask);
    let cidr := foldl Z.add 0 (popcount <$> octets) in
    Some ("/" +:+ Py.str_of_Z cidr).

  (** [(Switch|Chassis) (\d+)] *)
Definition chassis_pattern : Re.regex :=
    Re.Seq (Re.Group 1 (Re.Alt (Re.Str "Switch") (Re.Str "Chassis")))
      (Re.Seq (Re.Lit " ") (Re.Group 2 (Re.Plus true Re.d))).

  (** The result of the two extractors: the number, or its digits when
      [display_as_string] is set. *)
Inductive number : Type :=
  | AsInt (n : Z)
  | AsStr (s : string).

Definition as_number (display_as_string : bool) (m : Re.captures) (n : nat) : number :=
    if display_as_string then AsStr (default "" (Re.group n m))
    else AsInt (int_group n m).

Definition extract_chassis_number (name : string) (display_as_string : bool)
      : option number :=
    match Re.search true chassis_pattern name with
    | Some m => Some (as_number display_as_string m 2)
    | None => None
    end.

  (** [(Slot|Module) (\d+)] *)
Definition slot_pattern : Re.regex :=
    Re.Seq (Re.Group 1 (Re.Alt (Re.Str "Slot") (Re.Str "Module")))
      (Re.Seq (Re.Lit " ") (Re.Group 2 (Re.Plus true Re.d))).

  (** [\w+\d+/(\d+)/\d+(?:/\d+)?] *)
Definition port_pattern : Re.regex :=
    Re.Seq (Re.Plus true Py.is_word)
      (Re.Seq (Re.Plus true Re.d)
         (Re.Seq (Re.Lit "/")
            (Re.Seq (Re.Group 1 (Re.Plus true Re.d))
               (Re.Seq (Re.Lit "/")
                  (Re.Seq (Re.Plus true Re.d)
                     (Re.Opt (Re.Seq (Re.Lit "/") (Re.Plus true Re.d)))))))).

Definition extract_slot_or_module_number (name : string) (display_as_string : bool)
      : option number :=
    match Re.search true slot_pattern name with
    | Some m => Some (as_number display_as_string m 2)
    | None =>
        match Re.search false port_pattern name with
        | Some m => Some (as_number display_as_string m 1)
        | None => None
        end
    end.

  (** [\D+(\d+)/(\d+)] *)
Definition interface_pattern : Re.regex :=
    Re.Seq (Re.Plus true Re.D)
      (Re.Seq (Re.Group 1 (Re.Plus true Re.d))
         (Re.Seq (Re.Lit "/") (Re.Group 2 (Re.Plus true Re.d)))).

  (** [element_list_to_dict]: later elements replace earlier ones under the
      same key. *)
Definition element_list_to_dict {A : Type} (list_to_transform : list A)
      (selected_key : A → string) : gmap string A :=
    foldl (fun new_dict list_element =>
             <[selected_key list_element := list_element]> new_dict)
      ∅ list_to_transform.

  (** [extract_position]: the trailing digits of a module bay name. *)
Definition extract_position (module_bay_name : string) : string :=
    Py.str (reverse (Py.take_while Py.is_digit (reverse (Py.chars module_bay_name)))).

Definition is_valid_interface (interface_name : string) : bool :=
    if Py.contains "appgigabitethernet" (Py.lower interface_name) then false
    else
      match Re.search false interface_pattern interface_name with
      | Some m =>
          if int_group 1 m =? 0 then true
          else int_group 2 m =? 0
      | None => true
      end.

End Utils.


(** ** [choices.py] *)

Module Choices.

Inductive DevicePrototypeStatusChoices : Type :=
  | DISCOVERED
  | IMPORTED
  | DELETED.

#[global] Instance status_eq_dec : EqDecision DevicePrototypeStatusChoices.
  Proof. solve_decision. Defined.

End Choices.

(** ** The controller's read API

    The records the controller client returns, with the attributes the
    engine reads and the ones it adds while processing.  A list is what
    [offset_handler] has gathered over all pages. *)

Module Api.

Record StackSwitch : Type := {
    stack_serialNumber : string;
    stackMemberNumber : Z
  }.

  (** [get_stack_details_for_device(...).response] *)
Record StackDetails : Type := {
    stackSwitchInfo : list StackSwitch
  }.

  (** An entry of [get_chassis_details_for_device(...).response]. *)
Record Chassis : Type := {
    chassis_serialNumber : string;
    chassis_name : string
  }.

  (** A line card or supervisor card. *)
Record Card : Type := {
    serialno : string;
    switchno : option string;
    slotno : option string
  }.

  (** An entry of [get_modules(...).response]; the last three attributes are
      the ones [extract_module_positions] adds. *)
Record Module : Type := {
    module_name : string;
    module_serialNumber : string;
    module_description : option string;
    partNumber : option string;
    dnac_name : option string;
    slotnumber : option string;
    switchnumber : option string
  }.

Record Vlan : Type := {
    vlanNumber : Z;
    vlanType : option string
  }.

Record Interface : Type := {
    portName : string;
    interfaceType : option string;
    ipv4Address : option string;
    ipv4Mask : option string;
    vlanId : option string;
    vlan : option Vlan;
    speed : option string;
    description : option string;
    duplex : option string;
    macAddress : option string;
    portMode : option string
  }.

#[global] Instance vlan_eq_dec : EqDecision Vlan.
  Proof. solve_decision. Defined.
#[global] Instance interface_eq_dec : EqDecision Interface.
  Proof. solve_decision. Defined.

  (** A device record of [get_device_list], and each unit the splitter makes
      of it.  From [rank] on, the attributes are added by the engine. *)
Record Device : Type := {
    id : string;
    type : string;
    hostname : string;
    serialNumber : option string;
    platformId : string;
    managementIpAddress : option string;
    instanceUuid : string;
    family : option string;
    role : option string;
    errorCode : option string;
    errorDescription : option string;
    rank : Z;
    total_serial : nat;
    is_multiple : bool;
    stack_info : gmap string Z;
    has_modules : bool;
    all_cards : gmap string Card;
    modules : gmap string Module;
    interfaces : gmap string Interface;
    vlans : list Vlan;
    managementIpAddressInterface : option Interface
  }.

Record Client : Type := {
    get_device_list : list Device;
    get_stack_details_for_device : string → option StackDetails;
    get_chassis_details_for_device : string → list Chassis;
    get_modules : string → list Module;
    get_linecard_details_v1 : string → list Card;
    get_supervisor_card_detail_v1 : string → list Card;
    get_interface_info_by_id : string → list Interface;
    get_device_interface_vlans : string → list Vlan
  }.

End Api.

(** ** The device splitter: [SdnManager.split_device_list] *)

Module Splitter.

  Import Api.

  Section Split.
    (** [self.api] and [self.prototype_uuid_list] *)
    Variable api : Client.
    Variable prototype_uuid_list : option (list string).

    (** [int(''.join(filter(str.isdigit, name)))]; [None] is the
        [ValueError] of a name without a digit. *)
Definition digits_of_name (name : string) : option Z :=
      match filter (fun c => Py.is_digit c = true) (Py.chars name) with
      | [] => None
      | ds => Some (Py.digits_value ds)
      end.

Definition get_chassis_index (prototype_id : string) : option (gmap string Z) :=
      let from_chassis :=
        foldl (fun acc switch =>
                 chassis_index ← acc;
                 n ← digits_of_name (chassis_name switch);
                 Some (<[Py.strip (chassis_serialNumber switch) := n]> chassis_index))
          (Some ∅) (get_chassis_details_for_device api prototype_id) in
      match get_stack_details_for_device api prototype_id with
      | None => from_chassis
      | Some stack_list =>
          match stackSwitchInfo stack_list with
          | [] => from_chassis
          | switches =>
              Some (foldl (fun chassis_index switch =>
                             <[Py.strip (stack_serialNumber switch) :=
                                 stackMemberNumber switch]> chassis_index)
                      ∅ switches)
          end
      end.

    (** [list(range(1, max_value + 1))]; [None] when the controller reports
        no stack detail object at all. *)
Definition no_serial_indexes (prototype_id : string) : option (list Z) :=
      all_stack ← get_stack_details_for_device api prototype_id;
      let stack_length := length (stackSwitchInfo all_stack) in
      let chassis_length := length (get_chassis_details_for_device api prototype_id) in
      let max_value := Nat.max (Nat.max stack_length chassis_length) 1 in
      Some ((fun i => Z.of_nat (S i)) <$> seq 0 max_value).

    (** The unit made for the [serial_counter]-th serial of the list. *)
Definition unit_of_serial (prototype_device : Device) (serials platform_ids : list string)
        (chassis_index : gmap string Z) (serial_counter : nat) (serial : string)
        : option Device :=
      stack_number ← chassis_index !! Py.strip serial;
      platform_id ← platform_ids !! serial_counter;
      Some {|
        id := id prototype_device;
        type := type prototype_device;
        hostname :=
          if decide (1 < length serials)%nat
          then hostname prototype_device +:+ "-" +:+ Py.str_of_Z stack_number
          else hostname prototype_device;
        serialNumber := Some (Py.strip serial);
        platformId := Py.strip platform_id;
        managementIpAddress :=
          if decide (1 < stack_number) then None
          else managementIpAddress prototype_device;
        instanceUuid := instanceUuid prototype_device;
        family := family prototype_device;
        role := role prototype_device;
        errorCode := errorCode prototype_device;
        errorDescription := errorDescription prototype_device;
        rank := stack_number;
        total_serial := length serials;
        is_multiple := is_multiple prototype_device;
        stack_info := stack_info prototype_device;
        has_modules := has_modules prototype_device;
        all_cards := all_cards prototype_device;
        modules := modules prototype_device;
        interfaces := interfaces prototype_device;
        vlans := vlans prototype_device;
        managementIpAddressInterface := managementIpAddressInterface prototype_device
      |}.

    (** The unit made for one index of a device without serial. *)
Definition unit_of_index (prototype_device : Device) (switch_indexes : list Z)
        (switch_index : Z) : Device :=
      let several := bool_decide (1 < length switch_indexes)%nat in
      {|
        id := id prototype_device;
        type := type prototype_device;
        hostname :=
          if several
          then hostname prototype_device +:+ "-" +:+ Py.str_of_Z switch_index
          else hostname prototype_device;
        serialNumber := serialNumber prototype_device;
        platformId := platformId prototype_device;
        managementIpAddress :=
          if decide (1 < switch_index) then None
          else managementIpAddress prototype_device;
        instanceUuid := instanceUuid prototype_device;
        family := family prototype_device;
        role := role prototype_device;
        errorCode := errorCode prototype_device;
        errorDescription := errorDescription prototype_device;
        rank := if several then switch_index else rank prototype_device;
        total_serial :=
          if several then length switch_indexes else total_serial prototype_device;
        is_multiple := if several then true else is_multiple prototype_device;
        stack_info := stack_info prototype_device;
        has_modules := has_modules prototype_device;
        all_cards := all_cards prototype_device;
        modules := modules prototype_device;
        interfaces := interfaces prototype_device;
        vlans := vlans prototype_device;
        managementIpAddressInterface := managementIpAddressInterface prototype_device
      |}.

    (** The parent record once the loop body has reset its working
        attributes; [chassis_index] is [None] before the serials are read. *)
Definition prepared (prototype_device : Device) (multiple : bool)
        (chassis_index : gmap string Z) : Device :=
      {|
        id := id prototype_device;
        type := type prototype_device;
        hostname := default "" (head (Py.split "." (hostname prototype_device)));
        serialNumber := serialNumber prototype_device;
        platformId := platformId prototype_device;
        managementIpAddress := managementIpAddress prototype_device;
        instanceUuid := instanceUuid prototype_device;
        family := family prototype_device;
        role := role prototype_device;
        errorCode := errorCode prototype_device;
        errorDescription := errorDescription prototype_device;
        rank := 1;
        total_serial := 1;
        is_multiple := multiple;
        stack_info := chassis_index;
        has_modules := has_modules prototype_device;
        all_cards := all_cards prototype_device;
        modules := modules prototype_device;
        interfaces := interfaces prototype_device;
        vlans := vlans prototype_device;
        managementIpAddressInterface := managementIpAddressInterface prototype_device
      |}.

    (** Whether the loop skips the record: the two [continue] guards. *)
Definition skipped (prototype_device : Device) : bool :=
      if Py.contains "nexus" (Py.lower (type prototype_device)) then true
      else
        match prototype_uuid_list with
        | Some ((_ :: _) as uuids) =>
            negb (bool_decide (id prototype_device ∈ uuids))
        | _ => false
        end.

    (** The rank of each serial: rank 1 for a single serial, else the stack
        or chassis enumeration. *)
Definition enumeration (prototype_device : Device) (serials : list string)
        : option (gmap string Z) :=
      if decide (1 < length serials)%nat
      then get_chassis_index (id prototype_device)
      else Some {[ Py.strip (default "" (head serials)) := 1 ]}.

    (** One turn of the loop over [self.device_list]: the units appended for
        one record.  [None] is an exception ([KeyError] for a serial that the
        enumeration does not list, [IndexError] for a missing platform id,
        [ValueError] for a chassis name without digits). *)
Definition split_device (prototype_device : Device) : option (list Device) :=
      if skipped prototype_device then Some []
      else if Py.truthy (serialNumber prototype_device) then
        let serials := Py.split "," (default "" (serialNumber prototype_device)) in
        chassis_index ← enumeration prototype_device serials;
        let parent :=
          prepared prototype_device (bool_decide (1 < length serials)%nat) chassis_index in
        let platform_ids := Py.split "," (platformId parent) in
        mapM (fun '(serial_counter, serial) =>
                unit_of_serial parent serials platform_ids chassis_index
                  serial_counter serial)
          (imap (fun i serial => (i, serial)) serials)
      else
        let parent := prepared prototype_device false ∅ in
        switch_indexes ← no_serial_indexes (id parent);
        Some (unit_of_index parent switch_indexes <$> switch_indexes).

Definition split_device_list (device_list : list Device) : option (list Device) :=
      mjoin <$> mapM split_device device_list.

  End Split.

End Splitter.

(** ** The module position resolver: [SdnManager.extract_module_positions] *)

Module Resolver.

  Import Api.

  (** The pattern of the SPA names: ["SPA subslot "], a group of digits,
      ["/"], and a group made of a digit from 1 to 9 and any further
      digits. *)
Definition spa_pattern : Re.regex :=
    Re.Seq (Re.Str "SPA subslot ")
      (Re.Seq (Re.Group 1 (Re.Plus true Re.d))
         (Re.Seq (Re.Lit "/")
            (Re.Group 2
               (Re.Seq (Re.Class (fun c => Py.is_digit c && negb (bool_decide (c = "0"%char))))
                  (Re.Star true Re.d))))).

  (** [s and s.isdigit()] *)
Definition is_number (s : option string) : bool :=
    match s with
    | Some s' => negb (bool_decide (s' = "")) && Py.all Py.is_digit s'
    | None => false
    end.

  (** The digits of an extractor called with [display_as_string=True]. *)
Definition number_text (n : option Utils.number) : option string :=
    match n with
    | Some (Utils.AsStr s) => Some s
    | Some (Utils.AsInt z) => Some (Py.str_of_Z z)
    | None => None
    end.

  (** The switch and slot numbers the loop body works out for one module. *)
Definition module_position (prototype_device : Device) (allcardsdict : gmap string Card)
      (modules : list Module) (dnacmodule : Module) : option string * option string :=
    match allcardsdict !! module_serialNumber dnacmodule with
    | Some card =>
        let switchnumber :=
          if is_number (switchno card) then switchno card else Some "1" in
        if is_number (slotno card) then (switchnumber, slotno card)
        else if Py.contains "SPA subslot " (module_name dnacmodule) then
          match Re.search false spa_pattern (module_name dnacmodule) with
          | Some m => (Re.group 1 m, Re.group 2 m)
          | None => (switchnumber, None)
          end
        else (switchnumber, None)
    | None =>
        let switchnumber :=
          if negb (is_multiple prototype_device) then Some "1"
          else number_text (Utils.extract_chassis_number (module_name dnacmodule) true) in
        let slotnumber :=
          number_text (Utils.extract_slot_or_module_number (module_name dnacmodule) true) in
        if Py.truthy switchnumber && negb (Py.truthy slotnumber) then
          if decide (total_serial prototype_device = length modules)
          then (switchnumber, Some "1")
          else (switchnumber, slotnumber)
        else (switchnumber, slotnumber)
    end.

  (** The module as the loop body leaves it. *)
Definition positioned (dnacmodule : Module) (switchnumber slotnumber : option string)
      : Module :=
    {|
      module_name :=
        if Py.truthy switchnumber && Py.truthy slotnumber
        then "Switch " +:+ default "" switchnumber +:+ " Module " +:+ default "" slotnumber
        else module_name dnacmodule;
      module_serialNumber := module_serialNumber dnacmodule;
      module_description := module_description dnacmodule;
      partNumber := partNumber dnacmodule;
      dnac_name := Some (module_name dnacmodule);
      slotnumber := if Py.truthy slotnumber then slotnumber else Api.slotnumber dnacmodule;
      switchnumber := if Py.truthy switchnumber then switchnumber else Api.switchnumber dnacmodule
    |}.

  Section Resolve.
    Variable api : Client.

    (** The merged card index, the attribute [all_cards] the function sets. *)
Definition card_index (prototype_device : Device) : gmap string Card :=
      let linecards := get_linecard_details_v1 api (id prototype_device) in
      let supervisorcards := get_supervisor_card_detail_v1 api (id prototype_device) in
      Utils.element_list_to_dict (linecards ++ supervisorcards) serialno.

    (** The modules kept: those with a serial longer than three characters. *)
Definition kept_modules (prototype_device : Device) : list Module :=
      filter (fun apimodule => (3 < length (Py.chars (module_serialNumber apimodule)))%nat)
        (get_modules api (id prototype_device)).

Definition extract_module_positions (prototype_device : Device) : list Module :=
      let allcardsdict := card_index prototype_device in
      let modules := kept_modules prototype_device in
      (fun dnacmodule =>
         let '(switchnumber, slotnumber) :=
           module_position prototype_device allcardsdict modules dnacmodule in
         positioned dnacmodule switchnumber slotnumber) <$> modules.

  End Resolve.

End Resolver.

(** ** The inventory and the prototype table: [models.py]

    The rows of the NetBox tables the engine reads and writes, with the
    columns it uses.  A foreign key holds the [id] of the row it refers
    to. *)

Module Inventory.

Record Device : Type := {
    d_id : Z;
    d_name : string;
    d_serial : string;
    d_site : option Z;
    d_tenant : option Z;
    d_role : option Z;
    d_device_type : option Z;
    d_primary_ip4 : option Z
  }.

Record DeviceType : Type := {
    dt_id : Z;
    dt_model : string;
    dt_part_number : string;
    dt_manufacturer_name : string
  }.

Record IPAddress : Type := {
    ip_id : Z;
    ip_address : string;
    ip_status : string;
    ip_tenant : option Z
  }.

  (** [pf_scope] is the scope's content type and id. *)
Record Prefix : Type := {
    pf_prefix : string;
    pf_scope : option (string * Z)
  }.

Record Site : Type := {
    site_id : Z;
    site_facility : string
  }.

  (** [role_facility] is [custom_field_data["facility"]]. *)
Record DeviceRole : Type := {
    role_id : Z;
    role_facility : option string
  }.

Record Interface : Type := {
    if_id : Z;
    if_device : Z;
    if_name : string;
    if_type : string;
    if_cable : option Z;
    if_module : option Z
  }.

Record ModuleBay : Type := {
    mb_id : Z;
    mb_device : Z;
    mb_name : string
  }.

Record InterfaceTemplate : Type := {
    it_device_type : option Z;
    it_name : string
  }.

  (** [SdnController] *)
Record SdnController : Type := {
    sc_id : Z;
    sdn_type : string;
    default_tenant : option Z;
    regex_template : option (gmap string string)
  }.

  (** [SdnControllerDevicePrototype]; [id] is [None] until the first
      [save()]. *)
Record Prototype : Type := {
    id : option Z;
    serial : option string;
    sdn_hostname : option string;
    sdn_management_ip : option string;
    primary_ip4 : option Z;
    matching_netbox_device : option Z;
    related_netbox_device : option Z;
    sdn_device_type : option string;
    device_type : option Z;
    sdn_role : option string;
    stack_info : gmap string Z;
    stack_index : string;
    role : option Z;
    raw_data : Api.Device;
    sdn_controller : Z;
    instance_uuid : string;
    family : option string;
    site : option Z;
    tenant : option Z;
    score : Z;
    sync_status : Choices.DevicePrototypeStatusChoices
  }.

  (** [core.choices.ObjectChangeActionChoices] *)
Inductive Action : Type :=
  | ACTION_CREATE
  | ACTION_UPDATE
  | ACTION_DELETE.

  (** The object of a change-log entry or of a log message. *)
Inductive Object : Type :=
  | OPrototype (id : Z)
  | ODevice (id : Z)
  | OIPAddress (id : Z)
  | OInterface (id : Z)
  | OModuleBay (id : Z).

  (** What a log message says; the objects stand for their links. *)
Inductive Message : Type :=
  | ControllerError (prototype : Z) (code description : option string)
  | RelatedNotMatching (prototype related : Z) (related_serial : string)
      (prototype_serial : option string)
  | MissingRequiredField (prototype : Z) (field : string)
  | StackIndexMismatch (prototype device : Z)
  | AddressMismatch (prototype : Z) (address device_address : Z)
  | InterfaceNotInPrototype (device interface prototype : Z)
  | InterfaceWithoutModule (device interface : Z)
  | ModuleBayNotInPrototype (bay device : Z)
  | AttributeMismatch (attribute : string) (prototype device : Z)
  | PrototypeIs (prototype : Z) (status : Choices.DevicePrototypeStatusChoices)
  | DeviceCreated (device prototype : Z)
  | DeviceUpdated (device prototype : Z)
  | UnableToCreatePrototype (prototype : Z)
  | NoItemSelected
  | Collaborator (text : string).

#[global] Instance message_eq_dec : EqDecision Message.
  Proof. solve_decision. Defined.

Inductive Level : Type :=
  | Info
  | Warning
  | Failure.

Record World : Type := {
    prototypes : list Prototype;
    devices : list Device;
    device_types : list DeviceType;
    ip_addresses : list IPAddress;
    prefixes : list Prefix;
    sites : list Site;
    device_roles : list DeviceRole;
    tenants : list Z;
    interfaces : list Interface;
    module_bays : list ModuleBay;
    interface_templates : list InterfaceTemplate;
    changelog : list (Action * Object);
    log : list (Level * Message)
  }.

  (** *** Writes to one table *)

Definition with_prototypes (ps : list Prototype) (w : World) : World :=
    {| prototypes := ps; devices := devices w; device_types := device_types w;
       ip_addresses := ip_addresses w; prefixes := prefixes w; sites := sites w;
       device_roles := device_roles w; tenants := tenants w;
       interfaces := interfaces w; module_bays := module_bays w;
       interface_templates := interface_templates w;
       changelog := changelog w; log := log w |}.

Definition with_devices (ds : list Device) (w : World) : World :=
    {| prototypes := prototypes w; devices := ds; device_types := device_types w;
       ip_addresses := ip_addresses w; prefixes := prefixes w; sites := sites w;
       device_roles := device_roles w; tenants := tenants w;
       interfaces := interfaces w; module_bays := module_bays w;
       interface_templates := interface_templates w;
       changelog := changelog w; log := log w |}.

Definition with_ip_addresses (ips : list IPAddress) (w : World) : World :=
    {| prototypes := prototypes w; devices := devices w; device_types := device_types w;
       ip_addresses := ips; prefixes := prefixes w; sites := sites w;
       device_roles := device_roles w; tenants := tenants w;
       interfaces := interfaces w; module_bays := module_bays w;
       interface_templates := interface_templates w;
       changelog := changelog w; log := log w |}.

Definition with_interfaces (ifs : list Interface) (w : World) : World :=
    {| prototypes := prototypes w; devices := devices w; device_types := device_types w;
       ip_addresses := ip_addresses w; prefixes := prefixes w; sites := sites w;
       device_roles := device_roles w; tenants := tenants w;
       interfaces := ifs; module_bays := module_bays w;
       interface_templates := interface_templates w;
       changelog := changelog w; log := log w |}.

Definition with_module_bays (bays : list ModuleBay) (w : World) : World :=
    {| prototypes := prototypes w; devices := devices w; device_types := device_types w;
       ip_addresses := ip_addresses w; prefixes := prefixes w; sites := sites w;
       device_roles := device_roles w; tenants := tenants w;
       interfaces := interfaces w; module_bays := bays;
       interface_templates := interface_templates w;
       changelog := changelog w; log := log w |}.

Definition with_changelog (cl : list (Action * Object)) (w : World) : World :=
    {| prototypes := prototypes w; devices := devices w; device_types := device_types w;
       ip_addresses := ip_addresses w; prefixes := prefixes w; sites := sites w;
       device_roles := device_roles w; tenants := tenants w;
       interfaces := interfaces w; module_bays := module_bays w;
       interface_templates := interface_templates w;
       changelog := cl; log := log w |}.

Definition with_log (l : list (Level * Message)) (w : World) : World :=
    {| prototypes := prototypes w; devices := devices w; device_types := device_types w;
       ip_addresses := ip_addresses w; prefixes := prefixes w; sites := sites w;
       device_roles := device_roles w; tenants := tenants w;
       interfaces := interfaces w; module_bays := module_bays w;
       interface_templates := interface_templates w;
       changelog := changelog w; log := l |}.

  (** [script.log_info], [script.log_warning], [script.log_failure] *)
Definition log_message (level : Level) (m : Message) (w : World) : World :=
    with_log (log w ++ [(level, m)]) w.

  (** A primary key no row of the table has. *)
Definition fresh_id (ids : list Z) : Z := 1 + foldr Z.max 0 ids.

  (** [prototype.save()] of a stored row: the row of that [id] is
      replaced. *)
Definition update_prototype (p : Prototype) (w : World) : World :=
    with_prototypes
      ((fun q => if decide (id q = id p) then p else q) <$> prototypes w) w.

  (** [device.save()] of a stored row. *)
Definition update_device (d : Device) (w : World) : World :=
    with_devices
      ((fun e => if decide (d_id e = d_id d) then d else e) <$> devices w) w.

  (** [Model.objects.filter(...).first()] *)
Definition first {A : Type} (p : A → bool) (rows : list A) : option A :=
    List.find p rows.

  (** [prototype.refresh_from_db()] and the dereference of a foreign key. *)
Definition prototype_by_id (w : World) (i : Z) : option Prototype :=
    first (fun p => bool_decide (id p = Some i)) (prototypes w).
Definition device_by_id (w : World) (i : Z) : option Device :=
    first (fun d => bool_decide (d_id d = i)) (devices w).

Definition set_sync_status (s : Choices.DevicePrototypeStatusChoices) (p : Prototype)
      : Prototype :=
    {| id := id p; serial := serial p; sdn_hostname := sdn_hostname p;
       sdn_management_ip := sdn_management_ip p; primary_ip4 := primary_ip4 p;
       matching_netbox_device := matching_netbox_device p;
       related_netbox_device := related_netbox_device p;
       sdn_device_type := sdn_device_type p; device_type := device_type p;
       sdn_role := sdn_role p; stack_info := stack_info p;
       stack_index := stack_index p; role := role p; raw_data := raw_data p;
       sdn_controller := sdn_controller p; instance_uuid := instance_uuid p;
       family := family p; site := site p; tenant := tenant p; score := score p;
       sync_status := s |}.

Definition set_matching_netbox_device (d : option Z) (p : Prototype) : Prototype :=
    {| id := id p; serial := serial p; sdn_hostname := sdn_hostname p;
       sdn_management_ip := sdn_management_ip p; primary_ip4 := primary_ip4 p;
       matching_netbox_device := d;
       related_netbox_device := related_netbox_device p;
       sdn_device_type := sdn_device_type p; device_type := device_type p;
       sdn_role := sdn_role p; stack_info := stack_info p;
       stack_index := stack_index p; role := role p; raw_data := raw_data p;
       sdn_controller := sdn_controller p; instance_uuid := instance_uuid p;
       family := family p; site := site p; tenant := tenant p; score := score p;
       sync_status := sync_status p |}.

Definition set_id (i : option Z) (p : Prototype) : Prototype :=
    {| id := i; serial := serial p; sdn_hostname := sdn_hostname p;
       sdn_management_ip := sdn_management_ip p; primary_ip4 := primary_ip4 p;
       matching_netbox_device := matching_netbox_device p;
       related_netbox_device := related_netbox_device p;
       sdn_device_type := sdn_device_type p; device_type := device_type p;
       sdn_role := sdn_role p; stack_info := stack_info p;
       stack_index := stack_index p; role := role p; raw_data := raw_data p;
       sdn_controller := sdn_controller p; instance_uuid := instance_uuid p;
       family := family p; site := site p; tenant := tenant p; score := score p;
       sync_status := sync_status p |}.

End Inventory.

(** ** The fetch pass: [SdnManager.process_prototype],
    [sync_sdn_controller_devices] and [check_for_deleted_devices] *)

Module Fetch.

  Import Inventory Choices.

  Section Fetch.
    (** [self.api], [self.sdn_controller], [self.user] and
        [self.prototype_uuid_list] *)
    Variable api : Api.Client.
    Variable controller : SdnController.
    Variable user : option Z.
    Variable prototype_uuid_list : option (list string).
    (** [prefix__net_contains_or_equals]: whether the prefix contains the
        address. *)
    Variable net_contains_or_equals : string → string → bool.
    (** [re.search(pattern, hostname)] for a pattern of the controller's
        regex template: the stripped text of group 1 of the first match. *)
    Variable hostname_group : string → string → option string.

    (** [self.object_changelog] *)
Definition object_changelog (action : Action) (instance : Object) (w : World) : World :=
      match user with
      | Some _ => with_changelog (changelog w ++ [(action, instance)]) w
      | None => w
      end.

    (** [utils.get_site_from_prefix] *)
Definition get_site_from_prefix (w : World) (primary_ip4 : string) : option Z :=
      let parent_prefixes :=
        List.filter (fun p => net_contains_or_equals (pf_prefix p) primary_ip4)
          (prefixes w) in
      head (omap (fun parent_prefix =>
                    match pf_scope parent_prefix with
                    | Some (scope_type, site) =>
                        if bool_decide (scope_type = "site") then Some site else None
                    | None => None
                    end) parent_prefixes).

Definition with_name (name : string) (d : Device) : Device :=
      {| d_id := d_id d; d_name := name; d_serial := d_serial d; d_site := d_site d;
         d_tenant := d_tenant d; d_role := d_role d;
         d_device_type := d_device_type d; d_primary_ip4 := d_primary_ip4 d |}.

Definition with_serial (serial : string) (d : Device) : Device :=
      {| d_id := d_id d; d_name := d_name d; d_serial := serial; d_site := d_site d;
         d_tenant := d_tenant d; d_role := d_role d;
         d_device_type := d_device_type d; d_primary_ip4 := d_primary_ip4 d |}.

    (** The rename of a matching device whose name lacks the ["-1"] the
        controller's hostname has. *)
Definition rename_matching (w : World) (hostname : string) (matching : Device)
        : World * Device :=
      if bool_decide (Py.last2 hostname = "-1")
         && negb (bool_decide (Py.last2 (d_name matching) = "-1"))
      then
        let rename := d_name matching +:+ "-1" in
        match first (fun d => bool_decide (d_name d = rename)) (devices w) with
        | Some _ => (w, matching)
        | None =>
            let renamed := with_name rename matching in
            (object_changelog ACTION_UPDATE (ODevice (d_id renamed))
               (update_device renamed w), renamed)
        end
      else (w, matching).

    (** The lookup of the management address, created when absent. *)
Definition resolve_primary_ip4 (w : World) (sdn_management_ip : string)
        (tenant : option Z) : World * IPAddress :=
      match first (fun ip =>
                     Py.starts_with (Py.chars (Py.lower sdn_management_ip))
                       (Py.chars (Py.lower (ip_address ip))))
              (ip_addresses w) with
      | Some ip => (w, ip)
      | None =>
          let ip := {| ip_id := fresh_id (ip_id <$> ip_addresses w);
                       ip_address := sdn_management_ip;
                       ip_status := "active";
                       ip_tenant := tenant |} in
          (object_changelog ACTION_CREATE (OIPAddress (ip_id ip))
             (with_ip_addresses (ip_addresses w ++ [ip]) w), ip)
      end.

    (** The related device: by name, else by primary address, else by a name
        that contains the hostname. *)
Definition find_related (w : World) (hostname : string) (matching : option Device)
        (primary_ip4 : option IPAddress) : option Device :=
      let related :=
        if negb (bool_decide (is_Some matching)) && negb (bool_decide (hostname = ""))
        then first (fun d => bool_decide (d_name d = hostname)) (devices w)
        else None in
      let related :=
        match related, primary_ip4 with
        | None, Some ip =>
            first (fun d => bool_decide (d_primary_ip4 d = Some (ip_id ip))) (devices w)
        | _, _ => related
        end in
      match related with
      | None =>
          first (fun d => Py.contains (Py.lower hostname) (Py.lower (d_name d)))
            (devices w)
      | Some _ => related
      end.

    (** Whether the manufacturer of the device's type is Cisco; [None] is
        the [AttributeError] of a device without type. *)
Definition is_cisco (w : World) (possible_device : Device) : option bool :=
      dt ← d_device_type possible_device;
      row ← first (fun t => bool_decide (dt_id t = dt)) (device_types w);
      Some (bool_decide (Py.lower (dt_manufacturer_name row) = "cisco")).

Fixpoint any_cisco (w : World) (all_devices : list Device) : option bool :=
      match all_devices with
      | [] => Some false
      | possible_device :: rest =>
          c ← is_cisco w possible_device;
          if c : bool then Some true else any_cisco w rest
      end.

    (** The first role of the facility that a Cisco device has. *)
Fixpoint role_of_facility (w : World) (possible_roles : list DeviceRole)
        : option (option Z) :=
      match possible_roles with
      | [] => Some None
      | possible_role :: rest =>
          c ← any_cisco w
                 (filter (fun d => d_role d = Some (role_id possible_role)) (devices w));
          if c : bool then Some (Some (role_id possible_role))
          else role_of_facility w rest
      end.

    (** [extract_facility_from_hostname] *)
Definition extract_facility_from_hostname (hostname field : string) : option string :=
      template ← regex_template controller;
      pattern ← template !! field;
      if negb (bool_decide (hostname = "")) && negb (bool_decide (pattern = ""))
      then hostname_group pattern hostname
      else None.

    (** [bool(self.sdn_controller.regex_template)] *)
Definition has_regex_template : bool :=
      match regex_template controller with
      | Some template => negb (bool_decide (template = ∅))
      | None => false
      end.

    (** The management address, with the prefix length of its interface
        when the interface reports a mask. *)
Definition management_ip (prototype : Api.Device) : option (option string) :=
      if Py.truthy (Api.managementIpAddress prototype) then
        match Api.managementIpAddressInterface prototype with
        | Some sdn_management_ip_address_interface =>
            let ipv4_mask := Api.ipv4Mask sdn_management_ip_address_interface in
            if Py.truthy ipv4_mask then
              cidr ← Utils.mask_to_cidr (default "" ipv4_mask);
              Some (Some (default "" (Api.managementIpAddress prototype) +:+ cidr))
            else Some (Api.managementIpAddress prototype)
        | None => Some (Api.managementIpAddress prototype)
        end
      else Some None.

    (** The serial adoption: a related device without serial takes the
        prototype's and becomes the matching device. *)
Definition adopt_serial (w : World) (serial : option string)
        (matching related : option Device) : World * option Device * option Device :=
      match related, matching with
      | Some related_netbox_device, None =>
          if Py.truthy serial && bool_decide (d_serial related_netbox_device = "") then
            let adopted := with_serial (default "" serial) related_netbox_device in
            (object_changelog ACTION_UPDATE (ODevice (d_id adopted))
               (update_device adopted w), Some adopted, Some adopted)
          else (w, matching, related)
      | _, _ => (w, matching, related)
      end.

    (** [process_prototype] up to the construction of the candidate
        [sdn_controller_device_prototype].  [None] is an exception. *)
Definition build_candidate (w : World) (prototype : Api.Device)
        : option (World * Prototype) :=
      let tenant :=
        default_tenant controller ≫= (fun t => first (Z.eqb t) (tenants w)) in
      let hostname := default "" (head (Py.split "." (Api.hostname prototype))) in
      let serial := Api.serialNumber prototype in
      sdn_management_ip ← management_ip prototype;
      let sdn_device_type := Api.platformId prototype in
      let stack_index := Py.strip (Py.str_of_Z (Api.rank prototype)) in
      let matching_netbox_device :=
        serial ≫= (fun s => first (fun d => bool_decide (d_serial d = s)) (devices w)) in
      let '(w, matching_netbox_device) :=
        match matching_netbox_device with
        | Some m => let '(w', m') := rename_matching w hostname m in (w', Some m')
        | None => (w, None)
        end in
      let device_type :=
        match first (fun t => bool_decide (dt_model t = sdn_device_type)) (device_types w) with
        | Some t => Some t
        | None =>
            first (fun t => bool_decide (dt_part_number t = sdn_device_type)) (device_types w)
        end in
      let '(w, primary_ip4, site) :=
        if Py.truthy sdn_management_ip then
          let '(w', ip) := resolve_primary_ip4 w (default "" sdn_management_ip) tenant in
          (w', Some ip, get_site_from_prefix w' (ip_address ip))
        else (w, None, None) in
      let related_netbox_device :=
        find_related w hostname matching_netbox_device primary_ip4 in
      let '(w, matching_netbox_device, related_netbox_device) :=
        adopt_serial w serial matching_netbox_device related_netbox_device in
      let sync_status := DISCOVERED in
      let site :=
        match matching_netbox_device with Some m => d_site m | None => site end in
      let tenant :=
        match matching_netbox_device with
        | Some m => if bool_decide (is_Some (d_tenant m)) then d_tenant m else tenant
        | None => tenant
        end in
      let role :=
        match matching_netbox_device with Some m => d_role m | None => None end in
      let score := 0 in
      let score :=
        match matching_netbox_device with
        | Some m =>
            let score := score + 5 in
            let score := if bool_decide (serial = Some (d_serial m)) then score + 1 else score in
            if bool_decide (hostname = d_name m) then score + 1 else score
        | None => score
        end in
      let site :=
        if negb (bool_decide (is_Some site)) && has_regex_template then
          match extract_facility_from_hostname hostname "site" with
          | Some site_facility =>
              if bool_decide (site_facility = "") then site
              else site_id <$>
                     first (fun s => bool_decide
                              (Py.lower (Inventory.site_facility s)
                               = Py.lower site_facility))
                       (sites w)
          | None => site
          end
        else site in
      role ←
        (if negb (bool_decide (is_Some role)) && has_regex_template then
           match extract_facility_from_hostname hostname "role" with
           | Some role_facility =>
               if bool_decide (role_facility = "") then Some role
               else role_of_facility w
                      (List.filter (fun r => bool_decide
                                      (Inventory.role_facility r = Some role_facility))
                         (device_roles w))
           | None => Some role
           end
         else Some role);
      let score := if bool_decide (is_Some primary_ip4) then score + 1 else score in
      let score := if bool_decide (is_Some device_type) then score + 1 else score in
      let score := if bool_decide (is_Some site) then score + 1 else score in
      Some (w,
        {| id := None;
           serial := serial;
           sdn_hostname := Some hostname;
           sdn_management_ip := sdn_management_ip;
           primary_ip4 := ip_id <$> primary_ip4;
           matching_netbox_device := d_id <$> matching_netbox_device;
           related_netbox_device := d_id <$> related_netbox_device;
           sdn_device_type := Some sdn_device_type;
           device_type := dt_id <$> device_type;
           sdn_role := Api.role prototype;
           stack_info := Api.stack_info prototype;
           stack_index := stack_index;
           role := role;
           raw_data := prototype;
           sdn_controller := sc_id controller;
           instance_uuid := Api.instanceUuid prototype;
           family := Api.family prototype;
           site := site;
           tenant := tenant;
           score := score;
           sync_status := sync_status |}).

    (** The stored row after the loop over [_meta.fields]: every field of the
        candidate but [id], [device_type], [primary_ip4], [site], [tenant]
        and [role]. *)
Definition overwrite (existing_device_prototype candidate : Prototype) : Prototype :=
      {| id := id existing_device_prototype;
         serial := serial candidate;
         sdn_hostname := sdn_hostname candidate;
         sdn_management_ip := sdn_management_ip candidate;
         primary_ip4 := primary_ip4 existing_device_prototype;
         matching_netbox_device := matching_netbox_device candidate;
         related_netbox_device := related_netbox_device candidate;
         sdn_device_type := sdn_device_type candidate;
         device_type := device_type existing_device_prototype;
         sdn_role := sdn_role candidate;
         stack_info := stack_info candidate;
         stack_index := stack_index candidate;
         role := role existing_device_prototype;
         raw_data := raw_data candidate;
         sdn_controller := sdn_controller candidate;
         instance_uuid := instance_uuid candidate;
         family := family candidate;
         site := site existing_device_prototype;
         tenant := tenant existing_device_prototype;
         score := score candidate;
         sync_status := sync_status candidate |}.

    (** The stored prototype of the candidate's key, if any. *)
Definition find_existing (w : World) (candidate : Prototype) : option Prototype :=
      first (fun p => bool_decide (instance_uuid p = instance_uuid candidate)
                      && bool_decide (serial p = serial candidate))
        (prototypes w).

    (** The end of [process_prototype]: insert or overwrite, save, log the
        change. *)
Definition upsert (w : World) (candidate : Prototype) : World * Prototype :=
      match find_existing w candidate with
      | None =>
          let new_id := fresh_id (omap id (prototypes w)) in
          let created := set_id (Some new_id) candidate in
          (object_changelog ACTION_CREATE (OPrototype new_id)
             (with_prototypes (prototypes w ++ [created]) w), created)
      | Some existing_device_prototype =>
          let saved := overwrite existing_device_prototype candidate in
          (object_changelog ACTION_UPDATE (OPrototype (default 0 (id saved)))
             (update_prototype saved w), saved)
      end.

Definition process_prototype (w : World) (prototype : Api.Device)
        : option (World * Prototype) :=
      '(w, candidate) ← build_candidate w prototype;
      let '(w, existing_device_prototype) := upsert w candidate in
      let w :=
        if Py.truthy (Api.errorCode prototype) then
          log_message Failure
            (ControllerError (default 0 (id existing_device_prototype))
               (Api.errorCode prototype) (Api.errorDescription prototype)) w
        else w in
      Some (w, existing_device_prototype).

    (** *** [sync_sdn_controller_devices] *)

    (** The pattern of [extract_interface_number]: as few characters as
        possible, a group of digits, ["/"]. *)
Definition interface_number_pattern : Re.regex :=
      Re.Seq (Re.Star false (fun c => negb (bool_decide (c = "010"%char))))
        (Re.Seq (Re.Group 1 (Re.Plus true Re.d)) (Re.Lit "/")).

Definition extract_interface_number (interface_name : string) : option Z :=
      Utils.int_group 1 <$> Re.rmatch false interface_number_pattern interface_name.

Definition should_include_interface (rank : Z) (interface : Api.Interface) : bool :=
      if Py.contains "appgigabitethernet" (Py.lower (Api.portName interface)) then false
      else
        let interface_number := extract_interface_number (Api.portName interface) in
        if rank =? 1 then
          match interface_number with
          | None => true
          | Some n => n <? 2
          end
        else
          match interface_number with
          | Some n => if n =? 0 then false else n =? rank
          | None => false
          end.

    (** [None] is the [ValueError] of a switch number that is no integer. *)
Definition should_include_module (rank : Z) (module : Api.Module) : option bool :=
      if Py.truthy (Api.switchnumber module) then
        n ← Py.int (default "" (Api.switchnumber module));
        Some (n =? rank)
      else Some false.

Definition with_vlan (v : option Api.Vlan) (i : Api.Interface) : Api.Interface :=
      {| Api.portName := Api.portName i; Api.interfaceType := Api.interfaceType i;
         Api.ipv4Address := Api.ipv4Address i; Api.ipv4Mask := Api.ipv4Mask i;
         Api.vlanId := Api.vlanId i; Api.vlan := v; Api.speed := Api.speed i;
         Api.description := Api.description i; Api.duplex := Api.duplex i;
         Api.macAddress := Api.macAddress i; Api.portMode := Api.portMode i |}.

Definition with_ipv4Address (a : option string) (i : Api.Interface) : Api.Interface :=
      {| Api.portName := Api.portName i; Api.interfaceType := Api.interfaceType i;
         Api.ipv4Address := a; Api.ipv4Mask := Api.ipv4Mask i;
         Api.vlanId := Api.vlanId i; Api.vlan := Api.vlan i; Api.speed := Api.speed i;
         Api.description := Api.description i; Api.duplex := Api.duplex i;
         Api.macAddress := Api.macAddress i; Api.portMode := Api.portMode i |}.

    (** Step 1: for each address the position of the interface that keeps
        it, a physical interface replacing an earlier one. *)
Definition filtered_interfaces (interfaces : list Api.Interface) : gmap string nat :=
      foldl (fun filtered '(i, interface) =>
               match Api.ipv4Address interface with
               | Some ipv4 =>
                   if negb (bool_decide (ipv4 = ""))
                      && (bool_decide (filtered !! ipv4 = None)
                          || bool_decide (Api.interfaceType interface = Some "Physical"))
                   then <[ipv4 := i]> filtered
                   else filtered
               | None => filtered
               end)
        ∅ (imap (fun i interface => (i, interface)) interfaces).

    (** Step 2, one turn: the interface gets its VLAN, loses an address
        another interface keeps, and becomes the management interface when
        its address is the unit's.  The interfaces are objects changed in
        place: the state is their list and the management interface. *)
Definition prioritize (vlan_dict : gmap string Api.Vlan) (filtered : gmap string nat)
        (management : option string)
        (state : list Api.Interface * option Api.Interface) (i : nat)
        : list Api.Interface * option Api.Interface :=
      let '(interfaces, management_interface) := state in
      match interfaces !! i with
      | None => state
      | Some interface =>
          let interface := with_vlan (Api.vlanId interface ≫= (vlan_dict !!.)) interface in
          let interfaces := <[i := interface]> interfaces in
          if negb (Py.truthy (Api.ipv4Address interface)) then
            (interfaces, management_interface)
          else
            let kept :=
              filtered !! default "" (Api.ipv4Address interface) ≫= (interfaces !!.) in
            let interface :=
              if bool_decide (kept = Some interface) then interface
              else with_ipv4Address None interface in
            (<[i := interface]> interfaces,
             if bool_decide (Api.ipv4Address interface = management)
             then Some interface else management_interface)
      end.

    (** The unit with its modules, interfaces and VLANs attached, as it is
        handed to [process_prototype].  The controller's answers are taken
        as given: the [ApiError] branch is not modelled. *)
Definition enrich (prototype_device : Api.Device) : option Api.Device :=
      let modules := Resolver.extract_module_positions api prototype_device in
      let has_modules := bool_decide (0 < length modules)%nat in
      let interfaces := Api.get_interface_info_by_id api (Api.id prototype_device) in
      let rank := Api.rank prototype_device in
      let interfaces :=
        if Api.is_multiple prototype_device
        then List.filter (should_include_interface rank) interfaces
        else interfaces in
      modules ←
        (if Api.is_multiple prototype_device then
           flags ← mapM (should_include_module rank) modules;
           Some (fst <$> List.filter snd (zip modules flags))
         else Some modules);
      let vlans := Api.get_device_interface_vlans api (Api.id prototype_device) in
      let vlan_dict :=
        Utils.element_list_to_dict vlans (fun v => Py.str_of_Z (Api.vlanNumber v)) in
      let '(interfaces, management_interface) :=
        foldl (prioritize vlan_dict (filtered_interfaces interfaces)
                 (Api.managementIpAddress prototype_device))
          (interfaces, Api.managementIpAddressInterface prototype_device)
          (seq 0 (length interfaces)) in
      Some {|
        Api.id := Api.id prototype_device;
        Api.type := Api.type prototype_device;
        Api.hostname := Api.hostname prototype_device;
        Api.serialNumber := Api.serialNumber prototype_device;
        Api.platformId := Api.platformId prototype_device;
        Api.managementIpAddress := Api.managementIpAddress prototype_device;
        Api.instanceUuid := Api.instanceUuid prototype_device;
        Api.family := Api.family prototype_device;
        Api.role := Api.role prototype_device;
        Api.errorCode := Api.errorCode prototype_device;
        Api.errorDescription := Api.errorDescription prototype_device;
        Api.rank := rank;
        Api.total_serial := Api.total_serial prototype_device;
        Api.is_multiple := Api.is_multiple prototype_device;
        Api.stack_info := Api.stack_info prototype_device;
        Api.has_modules := has_modules;
        Api.all_cards := Resolver.card_index api prototype_device;
        Api.modules := Utils.element_list_to_dict modules Api.module_name;
        Api.interfaces := Utils.element_list_to_dict interfaces Api.portName;
        Api.vlans := vlans;
        Api.managementIpAddressInterface := management_interface
      |}.

    (** The loop over the split units: each is enriched and processed, and
        the saved prototypes are gathered in [self.prototype_list]. *)
Definition sync_units (w : World) (units : list Api.Device)
        : option (World * list Prototype) :=
      foldl (fun acc prototype_device =>
               '(w, prototype_list) ← acc;
               enriched ← enrich prototype_device;
               '(w, processed_prototype) ← process_prototype w enriched;
               Some (w, prototype_list ++ [processed_prototype]))
        (Some (w, [])) units.

    (** The pass over [self.device_list]. *)
Definition sync_device_list (w : World) (device_list : list Api.Device)
        : option (World * list Prototype) :=
      if bool_decide (sdn_type controller = "Catalyst Center") then
        splitted_device_list ←
          Splitter.split_device_list api prototype_uuid_list device_list;
        sync_units w splitted_device_list
      else Some (w, []).

    (** [self.device_list] is what [import_devices] fetched. *)
Definition sync_sdn_controller_devices (w : World) : option (World * list Prototype) :=
      sync_device_list w (Api.get_device_list api).

    (** *** [check_for_deleted_devices] *)

Definition key (p : Prototype) : string * option string :=
      (instance_uuid p, serial p).

    (** One turn of the loop over the controller's stored prototypes. *)
Definition mark_deleted (prototype_keys : list (string * option string))
        (w : World) (existing_device_prototype : Prototype) : World :=
      if bool_decide (key existing_device_prototype ∈ prototype_keys) then w
      else
        object_changelog ACTION_UPDATE
          (OPrototype (default 0 (id existing_device_prototype)))
          (update_prototype (set_sync_status DELETED existing_device_prototype) w).

    (** [self.prototype_list], fetched again when it is empty. *)
Definition fresh_pass (w : World) (prototype_list : list Prototype)
        : option (World * list Prototype) :=
      match prototype_list with
      | [] => sync_sdn_controller_devices w
      | _ => Some (w, prototype_list)
      end.

    (** The controller's stored prototype once the loop has looked at it:
        marked [DELETED] when its key is not among the keys of the pass. *)
Definition after_check (prototype_keys : list (string * option string)) (p : Prototype)
        : Prototype :=
      if bool_decide (sdn_controller p = sc_id controller)
         && negb (bool_decide (key p ∈ prototype_keys))
      then set_sync_status DELETED p
      else p.

Definition check_for_deleted_devices (w : World) (prototype_list : list Prototype)
        : option World :=
      '(w, prototype_list) ← fresh_pass w prototype_list;
      let prototype_keys := key <$> prototype_list in
      let existing_prototypes :=
        List.filter (fun p => bool_decide (sdn_controller p = sc_id controller))
          (prototypes w) in
      Some (foldl (mark_deleted prototype_keys) w existing_prototypes).

    (** The fetch job: the pass, then the deletion detector. *)
Definition fetch_and_check (w : World) : option World :=
      '(w, prototype_list) ← sync_sdn_controller_devices w;
      check_for_deleted_devices w prototype_list.

  End Fetch.

End Fetch.

(** ** The validator: [SdnManager.validate_prototype] and
    [clean_prototype_interfaces] *)

Module Validator.

  Import Inventory Choices.

  Section Validator.
    (** [netutils.interface.canonical_interface_name] *)
    Variable canonical_interface_name : string → string.

    (** The pattern of [extract_interface_type]: letters and hyphens. *)
Definition interface_type_pattern : Re.regex :=
      Re.Group 0
        (Re.Plus true (fun c => Py.is_alpha c || bool_decide (c = "-"%char))).

    (** [utils.extract_interface_type] *)
Definition extract_interface_type (name : string) : string :=
      match Re.rmatch false interface_type_pattern name with
      | Some m => default "" (Re.group 0 m)
      | None => ""
      end.

    (** [utils.is_device_type_template] *)
Definition is_device_type_template (w : World) (actual_interface : Interface) : bool :=
      match device_by_id w (if_device actual_interface) with
      | Some related_device =>
          let related_interface_templates :=
            List.filter (fun t => bool_decide (it_device_type t = d_device_type related_device))
              (interface_templates w) in
          let actual_prefix :=
            extract_interface_type (canonical_interface_name (if_name actual_interface)) in
          existsb (fun t =>
                     let template_prefix :=
                       extract_interface_type (canonical_interface_name (it_name t)) in
                     negb (bool_decide (actual_prefix = ""))
                     && bool_decide (actual_prefix = template_prefix))
            related_interface_templates
      | None => false
      end.

    (** The pattern of [netbox_stack_position]: any run of characters that
        are no digits, a group of digits, ["/"]. *)
Definition stack_position_pattern : Re.regex :=
      Re.Seq (Re.Star true Re.D) (Re.Seq (Re.Group 1 (Re.Plus true Re.d)) (Re.Lit "/")).

    (** [sorted(index_list, key=int)]: a stable insertion sort. *)
Fixpoint insert_by_int (x : string) (l : list string) : list string :=
      match l with
      | [] => [x]
      | y :: l' =>
          if Py.digits_value (Py.chars x) <? Py.digits_value (Py.chars y)
          then x :: y :: l'
          else y :: insert_by_int x l'
      end.
Definition sorted_by_int (l : list string) : list string :=
      foldl (fun acc x => insert_by_int x acc) [] l.

    (** [index_list.remove("0")] *)
Fixpoint remove_first (x : string) (l : list string) : list string :=
      match l with
      | [] => []
      | y :: l' => if bool_decide (x = y) then l' else y :: remove_first x l'
      end.

    (** [",".join(index_list)] *)
Fixpoint join_comma (l : list string) : string :=
      match l with
      | [] => ""
      | [x] => x
      | x :: l' => x +:+ "," +:+ join_comma l'
      end.

    (** [utils.netbox_stack_position] *)
Definition netbox_stack_position (w : World) (record : Device) : string :=
      let all_device_interfaces :=
        List.filter (fun i => bool_decide (if_device i = d_id record)) (interfaces w) in
      let index_list :=
        foldl (fun index_list interface =>
                 match Re.rmatch false stack_position_pattern (if_name interface) with
                 | Some m =>
                     let numeric_prefix := default "" (Re.group 1 m) in
                     if bool_decide (numeric_prefix ∈ index_list) then index_list
                     else index_list ++ [numeric_prefix]
                 | None => index_list
                 end)
          [] all_device_interfaces in
      let index_list := sorted_by_int index_list in
      if bool_decide (4 < length index_list)%nat then "1"
      else
        let index_list :=
          if bool_decide ("0" ∈ index_list) && bool_decide (1 < length index_list)%nat
          then remove_first "0" index_list
          else index_list in
        join_comma index_list.

    (** [NetBoxDevice.netbox_stack_index] *)
Definition netbox_stack_index (w : World) (device : Device) : string :=
      match first (fun p => bool_decide (matching_netbox_device p = Some (d_id device)))
              (prototypes w) with
      | Some related_prototype =>
          if bool_decide (1 < size (stack_info related_prototype))%nat
          then netbox_stack_position w device
          else "1"
      | None => netbox_stack_position w device
      end.

    (** [SdnManager.clean_prototype_interfaces]: the interfaces without
        cable and module whose name is neither a valid one nor a template's
        are deleted from the matching devices of the stack. *)
Definition clean_prototype_interfaces (w : World) (sdn_prototype : Prototype) : World :=
      let same_stack_prototypes :=
        List.filter (fun p => bool_decide (instance_uuid p = instance_uuid sdn_prototype))
          (prototypes w) in
      foldl (fun w same_stack_prototype =>
               match matching_netbox_device same_stack_prototype with
               | Some device =>
                   with_interfaces
                     (List.filter
                        (fun actual_interface =>
                           negb (bool_decide (if_device actual_interface = device)
                                 && negb (bool_decide (is_Some (if_cable actual_interface)))
                                 && negb (bool_decide (is_Some (if_module actual_interface)))
                                 && negb (Utils.is_valid_interface (if_name actual_interface))
                                 && negb (is_device_type_template w actual_interface)))
                        (interfaces w)) w
               | None => w
               end)
        w same_stack_prototypes.

    (** *** [validate_prototype]

        The state of a validation is the flag [prototype_is_ok], the
        [message_list] shared by the whole batch, and the script's log. *)

Definition validation : Type := bool * list Message * World.

    (** The inner [log_failure] followed by [prototype_is_ok = False]: a
        message already in the list is neither appended nor logged again. *)
Definition fail (with_logs : bool) (message : Message) (v : validation) : validation :=
      let '(_, message_list, w) := v in
      if bool_decide (message ∈ message_list) then (false, message_list, w)
      else
        (false, message_list ++ [message],
         if with_logs then log_message Failure message w else w).

Definition required_fields : list string :=
      ["sdn_hostname"; "role"; "device_type"; "tenant"; "site"; "serial"].

    (** [bool(getattr(prototype, field, None))] *)
Definition has_field (p : Prototype) (field : string) : bool :=
      if bool_decide (field = "sdn_hostname") then Py.truthy (sdn_hostname p)
      else if bool_decide (field = "role") then bool_decide (is_Some (role p))
      else if bool_decide (field = "device_type") then bool_decide (is_Some (device_type p))
      else if bool_decide (field = "tenant") then bool_decide (is_Some (tenant p))
      else if bool_decide (field = "site") then bool_decide (is_Some (site p))
      else if bool_decide (field = "serial") then Py.truthy (serial p)
      else false.

    (** "Validate Related and not matching" *)
Definition check_related (with_logs : bool) (w0 : World) (p : Prototype) (v : validation)
        : validation :=
      match matching_netbox_device p ≫= device_by_id w0,
            related_netbox_device p ≫= device_by_id w0 with
      | None, Some related =>
          let prototype_serial :=
            if bool_decide (d_serial related = "") then "NONE" else d_serial related in
          fail with_logs
            (RelatedNotMatching (default 0 (id p)) (d_id related) prototype_serial (serial p)) v
      | _, _ => v
      end.

    (** "Validate required fields" *)
Definition check_required (with_logs : bool) (p : Prototype) (v : validation) : validation :=
      foldl (fun v field =>
               if has_field p field then v
               else fail with_logs (MissingRequiredField (default 0 (id p)) field) v)
        v required_fields.

    (** "Validate stack index" *)
Definition check_stack_index (with_logs : bool) (w0 : World) (p : Prototype) (v : validation)
        : validation :=
      match matching_netbox_device p ≫= device_by_id w0 with
      | Some device =>
          let index := netbox_stack_index w0 device in
          if negb (bool_decide (index = "")) && negb (bool_decide (index = stack_index p))
          then fail with_logs (StackIndexMismatch (default 0 (id p)) (d_id device)) v
          else v
      | None => v
      end.

    (** "Validate primary IP address" *)
Definition check_primary_ip (with_logs : bool) (w0 : World) (p : Prototype) (v : validation)
        : validation :=
      match matching_netbox_device p ≫= device_by_id w0 with
      | Some device =>
          match d_primary_ip4 device, primary_ip4 p with
          | Some device_address, Some address =>
              if bool_decide (device_address = address) then v
              else fail with_logs
                     (AddressMismatch (default 0 (id p)) address device_address) v
          | _, _ => v
          end
      | None => v
      end.

    (** "Validate present interfaces", after the modules are written. *)
Definition check_interfaces (with_logs : bool) (w0 : World) (p : Prototype) (v : validation)
        : validation :=
      match matching_netbox_device p ≫= device_by_id w0 with
      | Some device =>
          let actual_interfaces :=
            List.filter (fun i => bool_decide (if_device i = d_id device)) (interfaces w0) in
          let all_prototype_interfaces := Api.interfaces (raw_data p) in
          let interface_lower_names :=
            Py.lower <$> (map_to_list all_prototype_interfaces).*1 in
          foldl (fun v actual_interface =>
                   let name := if_name actual_interface in
                   if bool_decide (Py.lower (if_type actual_interface) ∈ ["virtual"; "lag"])
                      && bool_decide (Py.lower name ∈ interface_lower_names)
                   then v
                   else if Py.contains "0/0" name || Py.contains ".100" name then v
                   else
                     let v :=
                       if bool_decide (all_prototype_interfaces !! name = None)
                       then fail with_logs
                              (InterfaceNotInPrototype (d_id device) (if_id actual_interface)
                                 (default 0 (id p))) v
                       else v in
                     if negb (Utils.is_valid_interface name)
                        && negb (bool_decide (is_Some (if_module actual_interface)))
                        && negb (is_device_type_template w0 actual_interface)
                     then fail with_logs
                            (InterfaceWithoutModule (d_id device) (if_id actual_interface)) v
                     else v)
            v actual_interfaces
      | None => v
      end.

    (** The module bays of the matching device, after the modules are
        written. *)
Definition check_module_bays (with_logs : bool) (w0 : World) (p : Prototype) (v : validation)
        : validation :=
      match matching_netbox_device p ≫= device_by_id w0 with
      | Some device =>
          let actual_module_bays :=
            List.filter (fun b => bool_decide (mb_device b = d_id device)) (module_bays w0) in
          let module_bay_lower_names :=
            Py.lower <$> (map_to_list (Api.modules (raw_data p))).*1 in
          foldl (fun v actual_module_bay =>
                   if bool_decide (Py.lower (mb_name actual_module_bay) ∈ module_bay_lower_names)
                   then v
                   else fail with_logs
                          (ModuleBayNotInPrototype (mb_id actual_module_bay) (d_id device)) v)
            v actual_module_bays
      | None => v
      end.

    (** The body of the loop over the prototypes of the stack. *)
Definition validate_one (with_logs after_modules : bool) (w0 : World)
        (v : validation) (same_stack_prototype : Prototype) : validation :=
      let v := check_related with_logs w0 same_stack_prototype v in
      let v := check_required with_logs same_stack_prototype v in
      let v := check_stack_index with_logs w0 same_stack_prototype v in
      let v := check_primary_ip with_logs w0 same_stack_prototype v in
      if after_modules then
        let v := check_interfaces with_logs w0 same_stack_prototype v in
        check_module_bays with_logs w0 same_stack_prototype v
      else v.

Definition validate_prototype (w : World) (sdn_prototype : Prototype)
        (message_list : list Message) (with_logs after_modules : bool) : validation :=
      let same_stack_prototypes :=
        List.filter (fun p => bool_decide (instance_uuid p = instance_uuid sdn_prototype))
          (prototypes w) in
      foldl (validate_one with_logs after_modules w) (true, message_list, w)
        same_stack_prototypes.

  End Validator.

  (** [w'] is [w] with another log: the tables are the same. *)
Definition logged (w w' : World) : Prop := ∃ l, w' = with_log l w.

  (** A state of a validation that comes after another one: the flag can
      only have gone down, the messages are still there, and only the log
      was written to. *)
Definition later (v v' : validation) : Prop :=
    (v.1.1 = false → v'.1.1 = false)
    ∧ (∀ m, m ∈ v.1.2 → m ∈ v'.1.2)
    ∧ logged v.2 v'.2.

End Validator.

(** ** The importer: [SdnManager.import_fetched_elements_in_netbox]

    The status logic and the writes to the device table are modelled; the
    writes of the sub-objects are collaborators of the section. *)

Module Importer.

  Import Inventory Choices.

  Section Importer.
    Variable canonical_interface_name : string → string.
    (** [self.user] and [self.log_all_errors] *)
    Variable user : option Z.
    Variable log_all_errors : bool.
    (** What [save()] of a new device adds to the inventory besides its row
        (the components of the templates of its type); [None] when it
        raises. *)
    Variable instantiate_components : World → Device → option World.
    (** [process_module_bays], [process_interfaces] and [remap_interfaces]
        for a prototype, its device and [map_interfaces]; [None] when one of
        them raises. *)
    Variable write_components : World → Prototype → Device → bool → option World.

Definition object_changelog := Fetch.object_changelog user.

    (** The device made of the prototype's fields when none matches. *)
Definition new_device_of (w : World) (selected_prototype : Prototype) : Device :=
      {| d_id := fresh_id (d_id <$> devices w);
         d_name := default "" (sdn_hostname selected_prototype);
         d_serial := default "" (serial selected_prototype);
         d_site := site selected_prototype;
         d_tenant := tenant selected_prototype;
         d_role := role selected_prototype;
         d_device_type := device_type selected_prototype;
         d_primary_ip4 := None |}.

    (** The branch without matching device: the device is created and the
        module bays its type's templates gave it are removed. *)
Definition create_device (w : World) (selected_prototype : Prototype)
        : option (World * Device) :=
      let new_device := new_device_of w selected_prototype in
      w ← instantiate_components (with_devices (devices w ++ [new_device]) w) new_device;
      let w := object_changelog ACTION_CREATE (ODevice (d_id new_device)) w in
      let w :=
        with_module_bays
          (List.filter (fun b => negb (bool_decide (mb_device b = d_id new_device)))
             (module_bays w)) w in
      Some (log_message Info
              (DeviceCreated (d_id new_device) (default 0 (id selected_prototype))) w,
            new_device).

    (** [log_mismatch] *)
Definition log_mismatch (attribute : string) (selected_prototype : Prototype)
        (netbox_device : Device) (w : World) : World :=
      log_message Warning
        (AttributeMismatch attribute (default 0 (id selected_prototype)) (d_id netbox_device)) w.

    (** [process_device_attributes] *)
Definition process_device_attributes (new_device : Device) (selected_prototype : Prototype)
        (w : World) : World :=
      let mismatched_attributes :=
        [ ("name", negb (bool_decide (Some (d_name new_device) = sdn_hostname selected_prototype)));
          ("role", negb (bool_decide (d_role new_device = role selected_prototype)));
          ("device_type",
           negb (bool_decide (d_device_type new_device = device_type selected_prototype)));
          ("tenant", negb (bool_decide (d_tenant new_device = tenant selected_prototype)));
          ("site", negb (bool_decide (d_site new_device = site selected_prototype)));
          ("serial", negb (bool_decide (Some (d_serial new_device) = serial selected_prototype))) ] in
      foldl (fun w '(attr, mismatch) =>
               if mismatch : bool
               then log_mismatch (Py.capitalize attr) selected_prototype new_device w
               else w)
        w mismatched_attributes.

    (** The branch with a matching device: its empty serial is filled, the
        other differences are only logged. *)
Definition update_matching (w : World) (selected_prototype : Prototype)
        (new_device : Device) : World * Device :=
      let '(w, new_device) :=
        if bool_decide (d_serial new_device = "") then
          let filled :=
            Fetch.with_serial (default "" (serial selected_prototype)) new_device in
          (object_changelog ACTION_UPDATE (ODevice (d_id filled)) (update_device filled w),
           filled)
        else if bool_decide (Some (d_serial new_device) = serial selected_prototype)
        then (w, new_device)
        else (log_mismatch "Serial" selected_prototype new_device w, new_device) in
      let w := process_device_attributes new_device selected_prototype w in
      (log_message Info
         (DeviceUpdated (d_id new_device) (default 0 (id selected_prototype))) w,
       new_device).

Definition with_device_type (t : option Z) (d : Device) : Device :=
      {| d_id := d_id d; d_name := d_name d; d_serial := d_serial d; d_site := d_site d;
         d_tenant := d_tenant d; d_role := d_role d;
         d_device_type := t; d_primary_ip4 := d_primary_ip4 d |}.

    (** The prototype goes back to [DISCOVERED]. *)
Definition mark_discovered (w : World) (selected_prototype : Prototype) : World :=
      let saved := set_sync_status DISCOVERED selected_prototype in
      log_message Info (PrototypeIs (default 0 (id saved)) DISCOVERED)
        (object_changelog ACTION_UPDATE (OPrototype (default 0 (id saved)))
           (update_prototype saved w)).

    (** The prototype is linked to its device and marked [IMPORTED]; the
        device takes the prototype's type. *)
Definition mark_imported (w : World) (selected_prototype : Prototype)
        (new_device : Device) : World * Prototype * Device :=
      let saved :=
        set_sync_status IMPORTED
          (set_matching_netbox_device (Some (d_id new_device)) selected_prototype) in
      let w :=
        object_changelog ACTION_UPDATE (OPrototype (default 0 (id saved)))
          (update_prototype saved w) in
      let new_device :=
        if bool_decide (is_Some (device_type saved))
        then with_device_type (device_type saved) new_device
        else new_device in
      (object_changelog ACTION_UPDATE (ODevice (d_id new_device))
         (update_device new_device w), saved, new_device).

    (** The [except] clause of the loop body. *)
Definition unable (w : World) (selected_id : Z) : World :=
      log_message Failure (UnableToCreatePrototype selected_id) w.

    (** The check after the writes: a failure takes the prototype back to
        [DISCOVERED]. *)
Definition post_check (w : World) (message_list : list Message) (selected_id : Z)
        : World * list Message :=
      match prototype_by_id w selected_id with
      | None => (unable w selected_id, message_list)
      | Some selected_prototype =>
          let '(is_valid, message_list, w) :=
            Validator.validate_prototype canonical_interface_name w selected_prototype
              message_list log_all_errors true in
          if is_valid : bool
          then (log_message Info (PrototypeIs selected_id IMPORTED) w, message_list)
          else (mark_discovered w selected_prototype, message_list)
      end.

    (** The writes for a prototype that passed the first check. *)
Definition materialize (w : World) (message_list : list Message) (selected_id : Z)
        (selected_prototype : Prototype) : World * list Message :=
      let made :=
        match matching_netbox_device selected_prototype ≫= device_by_id w with
        | Some new_device => Some (update_matching w selected_prototype new_device, true)
        | None =>
            created ← create_device w selected_prototype;
            Some (created, false)
        end in
      match made with
      | None => (unable w selected_id, message_list)
      | Some (w, new_device, map_interfaces) =>
          let '(w, selected_prototype, new_device) :=
            mark_imported w selected_prototype new_device in
          match write_components w selected_prototype new_device map_interfaces with
          | None => (unable w selected_id, message_list)
          | Some w => post_check w message_list selected_id
          end
      end.

    (** The writes of [materialize] alone: the world and the prototype, as
        saved, that the check after the writes is run on; [None] when a
        write raised. *)
Definition written (w : World) (selected_prototype : Prototype)
        : option (World * Prototype) :=
      made ←
        match matching_netbox_device selected_prototype ≫= device_by_id w with
        | Some new_device => Some (update_matching w selected_prototype new_device, true)
        | None =>
            created ← create_device w selected_prototype;
            Some (created, false)
        end;
      let '(w, new_device, map_interfaces) := made in
      let '(w, selected_prototype, new_device) :=
        mark_imported w selected_prototype new_device in
      w ← write_components w selected_prototype new_device map_interfaces;
      Some (w, selected_prototype).

    (** One turn of the loop over the selected prototypes. *)
Definition import_prototype (state : World * list Message) (selected_id : Z)
        : World * list Message :=
      let '(w, message_list) := state in
      match prototype_by_id w selected_id with
      | None => (unable w selected_id, message_list)
      | Some selected_prototype =>
          let w := Validator.clean_prototype_interfaces canonical_interface_name w
                     selected_prototype in
          let '(is_valid, message_list, w) :=
            Validator.validate_prototype canonical_interface_name w selected_prototype
              message_list log_all_errors false in
          if is_valid : bool
          then materialize w message_list selected_id selected_prototype
          else (mark_discovered w selected_prototype, message_list)
      end.

    (** [self.prototype_object_list]: the selected prototypes that are not
        [DELETED]. *)
Definition prototype_object_list (w : World) (prototype_id_list : list Z) : list Z :=
      omap id
        (List.filter (fun p => bool_decide (default 0 (id p) ∈ prototype_id_list)
                               && negb (bool_decide (sync_status p = DELETED)))
           (prototypes w)).

    (** [script.failed] *)
Definition failed (w : World) : bool :=
      existsb (fun e => match fst e with Failure => true | _ => false end) (log w).

Definition import_fetched_elements_in_netbox (w : World) (prototype_id_list : list Z)
        : World * bool :=
      match prototype_object_list w prototype_id_list with
      | [] => (log_message Failure NoItemSelected w, false)
      | selected =>
          let '(w, _) := foldl import_prototype (w, []) selected in
          (w, negb (failed w))
      end.

  End Importer.

End Importer.

(** ** The interface merge of [process_interfaces]

    The body of the loop over the reported interfaces, from the
    normalization of the duplex to the port mode: the object that is then
    saved and the warnings logged on the way.  The MAC address and the IP
    addresses, which follow, are not part of it. *)

Module Interfaces.

  (** A value of an attribute read with [getattr]. *)
Inductive value : Type :=
  | VNone
  | VInt (n : Z)
  | VStr (s : string).

#[global] Instance value_eq_dec : EqDecision value.
  Proof. solve_decision. Defined.

  (** [bool(v)] *)
Definition truthy (v : value) : bool :=
    match v with
    | VNone => false
    | VInt n => negb (n =? 0)
    | VStr s => negb (bool_decide (s = ""))
    end.

Definition of_option (s : option string) : value :=
    match s with
    | Some s' => VStr s'
    | None => VNone
    end.

  (** The interface object with the attributes the loop body touches. *)
Record InterfaceObject : Type := {
    name : string;
    type : string;
    speed : value;
    description : value;
    duplex : value;
    mode : option string
  }.

  (** [getattr(interface_object, attr, None)] *)
Definition getattr (o : InterfaceObject) (attr : string) : value :=
    if bool_decide (attr = "speed") then speed o
    else if bool_decide (attr = "description") then description o
    else if bool_decide (attr = "duplex") then duplex o
    else VNone.

  (** [setattr(interface_object, attr, v)] *)
Definition setattr (o : InterfaceObject) (attr : string) (v : value) : InterfaceObject :=
    {| name := name o; type := type o;
       speed := if bool_decide (attr = "speed") then v else speed o;
       description := if bool_decide (attr = "description") then v else description o;
       duplex := if bool_decide (attr = "duplex") then v else duplex o;
       mode := mode o |}.

Definition duplex_choices : list string := ["half"; "full"; "auto"].

  (** The keys of [iface_attrs]. *)
Definition merged_attributes : list string := ["speed"; "description"; "duplex"].

  (** [next((choice for choice in duplex_choices if choice in reported.lower()), None)] *)
Definition iface_duplex (reported : string) : option string :=
    List.find (fun choice => Py.contains choice (Py.lower reported)) duplex_choices.

  (** [iface_attrs], in the order of the dictionary.  [None] is the
      exception of a null duplex or of a speed that is no integer. *)
Definition iface_attrs (iface_data : Api.Interface) : option (list (string * value)) :=
    reported_duplex ← Api.duplex iface_data;
    speed ←
      (if Py.truthy (Api.speed iface_data)
       then VInt <$> Py.int (default "" (Api.speed iface_data))
       else Some VNone);
    Some [ ("speed", speed);
           ("description", of_option (Api.description iface_data));
           ("duplex", of_option (iface_duplex reported_duplex)) ].

  (** What the warning of a conflict names: the capitalized attribute and
      the interface. *)
Record Mismatch : Type := {
    attribute : string;
    interface : string
  }.

  (** One turn of the loop over [iface_attrs.items()]. *)
Definition merge_attr (iface_name : string) (state : InterfaceObject * list Mismatch)
      (item : string * value) : InterfaceObject * list Mismatch :=
    let '(interface_object, warnings) := state in
    let '(attr, v) := item in
    let existing_value := getattr interface_object attr in
    if truthy existing_value && negb (bool_decide (existing_value = v)) then
      (interface_object,
       warnings ++ [ {| attribute := Py.capitalize attr; interface := iface_name |} ])
    else if negb (truthy existing_value) then (setattr interface_object attr v, warnings)
    else (interface_object, warnings).

Definition merge_attrs (iface_name : string) (interface_object : InterfaceObject)
      (attrs : list (string * value)) : InterfaceObject * list Mismatch :=
    foldl (merge_attr iface_name) (interface_object, []) attrs.

  Section Entry.
    (** [utils.get_most_common_interface_type] *)
    Variable get_most_common_interface_type : string → option string.

    (** The type of an interface that is created. *)
Definition inferred_type (iface_name interface_type : string) : string :=
      let interface_type :=
        if bool_decide (Py.lower interface_type = "physical") then
          match get_most_common_interface_type iface_name with
          | Some most_common =>
              if bool_decide (most_common = "") then interface_type else most_common
          | None => interface_type
          end
        else interface_type in
      if bool_decide (Py.lower interface_type = "virtual")
         && Py.contains "port-channel" (Py.lower iface_name)
      then "lag"
      else interface_type.

    (** The interface of that name on the device, else a new one when the
        name is a valid one; [None] is the exception of a null type. *)
Definition interface_object_for (template_created_interfaces : list InterfaceObject)
        (iface_name : string) (iface_data : Api.Interface)
        : option (option (Inventory.Action * InterfaceObject)) :=
      match List.find (fun o => bool_decide (Py.lower (name o) = Py.lower iface_name))
              template_created_interfaces with
      | Some interface_object => Some (Some (Inventory.ACTION_UPDATE, interface_object))
      | None =>
          if Utils.is_valid_interface iface_name then
            interface_type ← Api.interfaceType iface_data;
            Some (Some (Inventory.ACTION_CREATE,
                        {| name := iface_name;
                           type := inferred_type iface_name interface_type;
                           speed := VNone; description := VStr ""; duplex := VNone;
                           mode := None |}))
          else Some None
      end.

Definition with_mode (m : option string) (o : InterfaceObject) : InterfaceObject :=
      {| name := name o; type := type o; speed := speed o;
         description := description o; duplex := duplex o; mode := m |}.

    (** The port mode of the controller on the interface. *)
Definition port_mode (iface_data : Api.Interface) (o : InterfaceObject) : InterfaceObject :=
      if bool_decide (Api.portMode iface_data = Some "access") then with_mode (Some "access") o
      else if bool_decide (Api.portMode iface_data = Some "trunk") then with_mode (Some "tagged") o
      else o.

    (** What one reported interface leaves to be saved. *)
Inductive outcome : Type :=
    | Raised
    | Nothing
    | Written (action : Inventory.Action) (interface_object : InterfaceObject)
        (warnings : list Mismatch).

Definition process_interface (template_created_interfaces : list InterfaceObject)
        (iface_name : string) (iface_data : Api.Interface) : outcome :=
      match iface_attrs iface_data with
      | None => Raised
      | Some attrs =>
          match interface_object_for template_created_interfaces iface_name iface_data with
          | None => Raised
          | Some None => Nothing
          | Some (Some (interface_action, interface_object)) =>
              let '(interface_object, warnings) :=
                merge_attrs iface_name interface_object attrs in
              Written interface_action (port_mode iface_data interface_object) warnings
          end
      end.

  End Entry.

End Interfaces.

(** ** The terms of the confidence score *)

Module Scoring.

  Import Inventory.

  (** 1 when the condition holds, else 0. *)
Definition indicator (b : bool) : Z := if b then 1 else 0.

  (** The candidate's serial is the matching device's. *)
Definition serials_equal (c : Prototype) (matching : option Device) : bool :=
    match matching with
    | Some m => bool_decide (serial c = Some (d_serial m))
    | None => false
    end.

  (** The candidate's hostname is the matching device's name. *)
Definition hostnames_equal (c : Prototype) (matching : option Device) : bool :=
    match matching with
    | Some m => bool_decide (sdn_hostname c = Some (d_name m))
    | None => false
    end.

  (** The sum of the six terms for a candidate and its matching device. *)
Definition additive_score (c : Prototype) (matching : option Device) : Z :=
    5 * indicator (bool_decide (is_Some matching))
    + indicator (serials_equal c matching)
    + indicator (hostnames_equal c matching)
    + indicator (bool_decide (is_Some (primary_ip4 c)))
    + indicator (bool_decide (is_Some (device_type c)))
    + indicator (bool_decide (is_Some (site c))).

End Scoring.

(** ** Concrete controllers and inventories *)

Module Examples.

  Import Api.

  (** A single switch with a management address. *)
Definition edge_unit : Device := {|
    id := "d3"; type := "Cisco Catalyst 9300 Switch"; hostname := "edge.example.org";
    serialNumber := Some "SN1"; platformId := "C9300-24P";
    managementIpAddress := Some "10.0.0.1"; instanceUuid := "U3";
    family := None; role := None; errorCode := None; errorDescription := None;
    rank := 1; total_serial := 1%nat; is_multiple := false;
    stack_info := {[ "SN1" := 1 ]};
    has_modules := false; all_cards := ∅; modules := ∅; interfaces := ∅;
    vlans := []; managementIpAddressInterface := None |}.

  (** A switch about which the controller knows next to nothing. *)
Definition bare_unit : Device := {|
    id := "d4"; type := "Cisco Catalyst 9300 Switch"; hostname := "lonely";
    serialNumber := Some "SN9"; platformId := "UNKNOWN";
    managementIpAddress := None; instanceUuid := "U4";
    family := None; role := None; errorCode := None; errorDescription := None;
    rank := 1; total_serial := 1%nat; is_multiple := false;
    stack_info := {[ "SN9" := 1 ]};
    has_modules := false; all_cards := ∅; modules := ∅; interfaces := ∅;
    vlans := []; managementIpAddressInterface := None |}.

  (** An inventory that knows [edge_unit]: its device, type and address. *)
Definition edge_world : Inventory.World := {|
    Inventory.prototypes := [];
    Inventory.devices :=
      [ {| Inventory.d_id := 10; Inventory.d_name := "edge"; Inventory.d_serial := "SN1";
           Inventory.d_site := Some 7; Inventory.d_tenant := Some 2;
           Inventory.d_role := Some 3; Inventory.d_device_type := Some 5;
           Inventory.d_primary_ip4 := None |} ];
    Inventory.device_types :=
      [ {| Inventory.dt_id := 5; Inventory.dt_model := "C9300-24P";
           Inventory.dt_part_number := ""; Inventory.dt_manufacturer_name := "Cisco" |} ];
    Inventory.ip_addresses :=
      [ {| Inventory.ip_id := 1; Inventory.ip_address := "10.0.0.1/24";
           Inventory.ip_status := "active"; Inventory.ip_tenant := None |} ];
    Inventory.prefixes := []; Inventory.sites := [];
    Inventory.device_roles := []; Inventory.tenants := []; Inventory.interfaces := [];
    Inventory.module_bays := []; Inventory.interface_templates := [];
    Inventory.changelog := []; Inventory.log := [] |}.

  (** A stack of two units reported as one device. *)
Definition stacked_device : Device := {|
    id := "d1"; type := "Cisco Catalyst 9300 Switch"; hostname := "host.example.org";
    serialNumber := Some "AAA,BBB"; platformId := "C9300-24P, C9300-48P";
    managementIpAddress := Some "10.0.0.1"; instanceUuid := "U1";
    family := None; role := None; errorCode := None; errorDescription := None;
    rank := 0; total_serial := 0%nat; is_multiple := false; stack_info := ∅;
    has_modules := false; all_cards := ∅; modules := ∅; interfaces := ∅;
    vlans := []; managementIpAddressInterface := None |}.

  (** The same report for a Nexus switch. *)
Definition nexus_device : Device := {|
    id := "d2"; type := "Cisco Nexus 9300 Switch"; hostname := "core.example.org";
    serialNumber := Some "AAA,BBB"; platformId := "N9K-1, N9K-2";
    managementIpAddress := Some "10.0.0.2"; instanceUuid := "U2";
    family := None; role := None; errorCode := None; errorDescription := None;
    rank := 0; total_serial := 0%nat; is_multiple := false; stack_info := ∅;
    has_modules := false; all_cards := ∅; modules := ∅; interfaces := ∅;
    vlans := []; managementIpAddressInterface := None |}.

  (** A controller whose stack map is [{AAA: 1, BBB: 2}] and that reports
      the modules [reported_modules] for every device. *)
Definition stack_api (reported_modules : list Module) : Client := {|
    get_device_list := [stacked_device];
    get_stack_details_for_device := fun _ =>
      Some {| stackSwitchInfo :=
                [ {| stack_serialNumber := "AAA"; stackMemberNumber := 1 |};
                  {| stack_serialNumber := "BBB"; stackMemberNumber := 2 |} ] |};
    get_chassis_details_for_device := fun _ => [];
    get_modules := fun _ => reported_modules;
    get_linecard_details_v1 := fun _ => [];
    get_supervisor_card_detail_v1 := fun _ => [];
    get_interface_info_by_id := fun _ => [];
    get_device_interface_vlans := fun _ => [] |}.

  (** The first unit the splitter makes of [stacked_device]. *)
Definition stack_unit : Device := {|
    id := "d1"; type := "Cisco Catalyst 9300 Switch"; hostname := "host-1";
    serialNumber := Some "AAA"; platformId := "C9300-24P";
    managementIpAddress := Some "10.0.0.1"; instanceUuid := "U1";
    family := None; role := None; errorCode := None; errorDescription := None;
    rank := 1; total_serial := 2%nat; is_multiple := true;
    stack_info := {[ "AAA" := 1; "BBB" := 2 ]};
    has_modules := false; all_cards := ∅; modules := ∅; interfaces := ∅;
    vlans := []; managementIpAddressInterface := None |}.

  (** An uplink module whose name tells the switch and no slot. *)
Definition uplink : Module := {|
    module_name := "Switch 1 - Uplink"; module_serialNumber := "FOC1234X";
    module_description := None; partNumber := None; dnac_name := None;
    slotnumber := None; switchnumber := None |}.

Definition catalyst_center : Inventory.SdnController := {|
    Inventory.sc_id := 1; Inventory.sdn_type := "Catalyst Center";
    Inventory.default_tenant := None; Inventory.regex_template := None |}.

Definition empty_world : Inventory.World := {|
    Inventory.prototypes := []; Inventory.devices := []; Inventory.device_types := [];
    Inventory.ip_addresses := []; Inventory.prefixes := []; Inventory.sites := [];
    Inventory.device_roles := []; Inventory.tenants := []; Inventory.interfaces := [];
    Inventory.module_bays := []; Inventory.interface_templates := [];
    Inventory.changelog := []; Inventory.log := [] |}.

  (** Collaborators that find nothing. *)
Definition no_group (_ _ : string) : option string := None.
Definition no_prefix (_ _ : string) : bool := false.

  (** [process_prototype] of [catalyst_center]. *)
Definition process (w : Inventory.World) (unit : Device)
      : option (Inventory.World * Inventory.Prototype) :=
    Fetch.process_prototype catalyst_center None no_prefix no_group w unit.

  (** A device of one unit, named after its serial. *)
Definition reported (uuid serial_number : string) : Device := {|
    id := uuid; type := "Cisco Catalyst 9300 Switch"; hostname := serial_number;
    serialNumber := Some serial_number; platformId := "C9300-24P";
    managementIpAddress := None; instanceUuid := uuid;
    family := None; role := None; errorCode := None; errorDescription := None;
    rank := 0; total_serial := 0%nat; is_multiple := false; stack_info := ∅;
    has_modules := false; all_cards := ∅; modules := ∅; interfaces := ∅;
    vlans := []; managementIpAddressInterface := None |}.

  (** A controller that reports the devices [device_list]. *)
Definition api_reporting (device_list : list Device) : Client := {|
    get_device_list := device_list;
    get_stack_details_for_device := fun _ => None;
    get_chassis_details_for_device := fun _ => [];
    get_modules := fun _ => [];
    get_linecard_details_v1 := fun _ => [];
    get_supervisor_card_detail_v1 := fun _ => [];
    get_interface_info_by_id := fun _ => [];
    get_device_interface_vlans := fun _ => [] |}.

  (** The fetch job of [catalyst_center] when the controller reports
      [device_list]. *)
Definition fetch (device_list : list Device) (w : Inventory.World)
      : option Inventory.World :=
    Fetch.fetch_and_check (api_reporting device_list) catalyst_center None None
      no_prefix no_group w.

  (** The inventory after a first fetch that reported two devices. *)
Definition two_devices_fetched : Inventory.World :=
    default empty_world
      (fetch [reported "U1" "S1"; reported "U2" "S2"] empty_world).

  (** The keys and the deletion detector of [catalyst_center] for a
      controller that reports [device_list]. *)
Definition fresh_pass (device_list : list Device) (w : Inventory.World)
      (prototype_list : list Inventory.Prototype)
      : option (Inventory.World * list Inventory.Prototype) :=
    Fetch.fresh_pass (api_reporting device_list) catalyst_center None None
      no_prefix no_group w prototype_list.
Definition check_for_deleted_devices (device_list : list Device) (w : Inventory.World)
      (prototype_list : list Inventory.Prototype) : option Inventory.World :=
    Fetch.check_for_deleted_devices (api_reporting device_list) catalyst_center None None
      no_prefix no_group w prototype_list.

  (** The key and status of each stored prototype. *)
Definition statuses (w : Inventory.World)
      : list (string * option string * Choices.DevicePrototypeStatusChoices) :=
    (fun p => (Inventory.instance_uuid p, Inventory.serial p, Inventory.sync_status p))
      <$> Inventory.prototypes w.

  (** The prototype of [edge_unit] after an import and an operator's edits
      of the five fields that are the operator's. *)
Definition stored_prototype : Inventory.Prototype := {|
    Inventory.id := Some 1; Inventory.serial := Some "SN1";
    Inventory.sdn_hostname := Some "edge-old";
    Inventory.sdn_management_ip := None; Inventory.primary_ip4 := Some 95;
    Inventory.matching_netbox_device := Some 10;
    Inventory.related_netbox_device := None;
    Inventory.sdn_device_type := Some "C9300-24P"; Inventory.device_type := Some 99;
    Inventory.sdn_role := None; Inventory.stack_info := {[ "SN1" := 1 ]};
    Inventory.stack_index := "1"; Inventory.role := Some 96;
    Inventory.raw_data := edge_unit; Inventory.sdn_controller := 1;
    Inventory.instance_uuid := "U3"; Inventory.family := None;
    Inventory.site := Some 98; Inventory.tenant := Some 97; Inventory.score := 3;
    Inventory.sync_status := Choices.IMPORTED |}.

Definition with_stored (ps : list Inventory.Prototype) (w : Inventory.World)
      : Inventory.World :=
    Inventory.with_prototypes ps w.

  (** [edge_world] with [stored_prototype] in the prototype table. *)
Definition edited_world : Inventory.World := with_stored [stored_prototype] edge_world.

  (** A prototype with every required field but the site, and the same
      prototype with its site. *)
Definition candidate_prototype (the_site : option Z) : Inventory.Prototype := {|
    Inventory.id := Some 1; Inventory.serial := Some "SN9";
    Inventory.sdn_hostname := Some "lonely";
    Inventory.sdn_management_ip := None; Inventory.primary_ip4 := None;
    Inventory.matching_netbox_device := None;
    Inventory.related_netbox_device := None;
    Inventory.sdn_device_type := Some "C9300-24P"; Inventory.device_type := Some 5;
    Inventory.sdn_role := None; Inventory.stack_info := {[ "SN9" := 1 ]};
    Inventory.stack_index := "1"; Inventory.role := Some 3;
    Inventory.raw_data := bare_unit; Inventory.sdn_controller := 1;
    Inventory.instance_uuid := "U4"; Inventory.family := None;
    Inventory.site := the_site; Inventory.tenant := Some 2; Inventory.score := 1;
    Inventory.sync_status := Choices.DISCOVERED |}.

Definition world_of (p : Inventory.Prototype) : Inventory.World :=
    with_stored [p] empty_world.

  (** An interface of the inventory with a speed and a duplex, and what
      the controller reports for it. *)
Definition existing_interface : Interfaces.InterfaceObject := {|
    Interfaces.name := "GigabitEthernet1/0/1"; Interfaces.type := "1000base-t";
    Interfaces.speed := Interfaces.VInt 1000000;
    Interfaces.description := Interfaces.VStr "";
    Interfaces.duplex := Interfaces.VStr "full"; Interfaces.mode := None |}.

Definition reported_interface : Interface := {|
    portName := "GigabitEthernet1/0/1"; interfaceType := Some "Physical";
    ipv4Address := None; ipv4Mask := None; vlanId := None; vlan := None;
    speed := Some "100000"; description := Some "uplink";
    duplex := Some "HalfDuplex"; macAddress := None; portMode := Some "access" |}.

Definition no_template (_ : string) : option string := None.

  (** A device whose only interface is a management port, and a database
      that finds no pattern in a name. *)
Definition management_port : Interfaces.InterfaceObject := {|
    Interfaces.name := "mgmt0"; Interfaces.type := "1000base-t";
    Interfaces.speed := Interfaces.VNone; Interfaces.description := Interfaces.VStr "";
    Interfaces.duplex := Interfaces.VNone; Interfaces.mode := None |}.
Definition no_match (_ _ : string) : bool := false.

  (** Collaborators of the importer that write nothing. *)
Definition same_name (interface_name : string) : string := interface_name.
Definition no_components (w : Inventory.World) (_ : Inventory.Device)
      : option Inventory.World := Some w.
Definition no_writes (w : Inventory.World) (_ : Inventory.Prototype)
      (_ : Inventory.Device) (_ : bool) : option Inventory.World := Some w.

  (** One turn of the import loop with these collaborators. *)
Definition import_one (w : Inventory.World) (selected_id : Z)
      : Inventory.World * list Inventory.Message :=
    Importer.import_prototype same_name None true no_components no_writes (w, [])
      selected_id.

  (** The fetch pass of [catalyst_center] over a device list. *)
Definition fetch_pass (reported_modules : list Module) (w : Inventory.World)
      (device_list : list Device) : option (Inventory.World * list Inventory.Prototype) :=
    Fetch.sync_device_list (stack_api reported_modules) catalyst_center None None
      no_prefix no_group w device_list.

End Examples.

(** ** More of [utils.py] and of the manager *)

(** What is left of a string after its longest prefix in a class, the
    counterpart of [Py.take_while]. *)

Module Chars.

Fixpoint drop_while (p : ascii → bool) (l : list ascii) : list ascii :=
    match l with
    | c :: l' => if p c then drop_while p l' else l
    | [] => []
    end.

  (** A letter or a hyphen: the class [[A-Za-z\-]]. *)
Definition is_letter_or_hyphen (c : ascii) : bool :=
    Py.is_alpha c || bool_decide (c = "-"%char).

  (** Any character but a newline: the class of [.]. *)
Definition is_not_newline (c : ascii) : bool :=
    negb (bool_decide (c = "010"%char)).

End Chars.

(** The rule of [is_valid_interface] in words: the two numbers it looks at
    are those of the leftmost place of the name where one or more characters
    that are no digits are followed by a number, a slash and a number. *)

Module Validity.

  (** The two numbers when the name begins with such a place. *)
Definition numbers_at (s : list ascii) : option (list ascii * list ascii) :=
    let prefix := Py.take_while Re.D s in
    let s1 := Chars.drop_while Re.D s in
    let first := Py.take_while Re.d s1 in
    match Chars.drop_while Re.d s1 with
    | "/"%char :: s2 =>
        let second := Py.take_while Re.d s2 in
        if bool_decide (prefix ≠ []) && bool_decide (first ≠ [])
           && bool_decide (second ≠ [])
        then Some (first, second)
        else None
    | _ => None
    end.

  (** The two numbers of the leftmost place of the name. *)
Fixpoint first_numbers (s : list ascii) : option (list ascii * list ascii) :=
    match numbers_at s with
    | Some numbers => Some numbers
    | None =>
        match s with
        | _ :: s' => first_numbers s'
        | [] => None
        end
    end.

End Validity.

(** [utils.cisco_intermediate_interface_name] *)

Module Naming.

  (** The dictionary of the function. *)
Definition INTERMEDIATE_ABBREVIATIONS : gmap string string :=
    list_to_map
      [ ("FastEthernet", "FastE");
        ("GigabitEthernet", "GigE");
        ("FortyGigabitEthernet", "FortyGigE");
        ("HundredGigabitEthernet", "HundredGigE");
        ("TwoHundredGigabitEthernet", "TwoHundredGigE");
        ("FourHundredGigabitEthernet", "FourHundredGigE") ].

  (** The pattern of the function: a run of letters and hyphens as group 1,
      then a digit and what follows up to the end of the line as group 2. *)
Definition intermediate_pattern : Re.regex :=
    Re.Seq (Re.Group 1 (Re.Plus true Chars.is_letter_or_hyphen))
      (Re.Group 2 (Re.Seq (Re.Class Re.d) (Re.Star true Chars.is_not_newline))).

Definition cisco_intermediate_interface_name (interface : string) : string :=
    match Re.rmatch false intermediate_pattern interface with
    | None => interface
    | Some m =>
        let iface_type := default "" (Re.group 1 m) in
        let iface_suffix := default "" (Re.group 2 m) in
        match INTERMEDIATE_ABBREVIATIONS !! iface_type with
        | Some abbrev_type =>
            if bool_decide (abbrev_type = "") then interface
            else abbrev_type +:+ iface_suffix
        | None => interface
        end
    end.

End Naming.

(** [SdnManager.offset_handler]: the pages of the controller, 500 records
    at a time.  The loop of the source has no bound; [fuel] is the number of
    requests the model may make, and [None] is a loop that has not ended
    within it. *)

Module Paging.

  Section Paging.
    Context {A : Type}.
    (** [fetch_function(self.api, offset, family, prototype_device_id)] *)
    Variable fetch_function : Z → option (list string) → option string → list A.
    Variable family : option (list string).
    Variable prototype_device_id : option string.

    (** The request of one turn of the loop. *)
Definition request (offset : Z) : list A :=
      if Py.truthy prototype_device_id
      then fetch_function offset None prototype_device_id
      else
        match family with
        | Some (_ :: _) => fetch_function offset family None
        | _ => fetch_function offset None None
        end.

Fixpoint offset_loop (fuel : nat) (data : list A) (offset : Z) : option (list A) :=
      match fuel with
      | O => None
      | S fuel' =>
          match request offset with
          | [] => Some data
          | partial_list =>
              let data := data ++ partial_list in
              if bool_decide (length partial_list < 500)%nat then Some data
              else offset_loop fuel' data (offset + 500)
          end
      end.

Definition offset_handler (fuel : nat) : option (list A) := offset_loop fuel [] 1.

  End Paging.

  (** A controller that serves the records [items] honestly: the page at
      [offset] is the records from the [offset]-th on, at most 500. *)
Definition serve {A : Type} (items : list A) (offset : Z) : list A :=
    take 500 (drop (Z.to_nat (offset - 1)) items).

End Paging.

(** What a fetch pass may change of an inventory device: it appends "-1" to
    the name of a matching device, or gives its serial to a related device
    that has none; the other columns stay. *)

Module Frame.

  Import Inventory.

Definition same_columns (d d' : Device) : Prop :=
    d_id d' = d_id d ∧ d_site d' = d_site d ∧ d_tenant d' = d_tenant d
    ∧ d_role d' = d_role d ∧ d_device_type d' = d_device_type d
    ∧ d_primary_ip4 d' = d_primary_ip4 d.

Definition device_kept (d d' : Device) : Prop :=
    same_columns d d'
    ∧ (d_name d' = d_name d ∨ d_name d' = d_name d +:+ "-1")
    ∧ (d_serial d' = d_serial d ∨ d_serial d = "").

  (** The rename keeps everything but the name, the adoption everything but
      the serial. *)
Definition renamed (d d' : Device) : Prop :=
    same_columns d d' ∧ d_serial d' = d_serial d
    ∧ (d_name d' = d_name d ∨ d_name d' = d_name d +:+ "-1").

Definition adopted (d d' : Device) : Prop :=
    same_columns d d' ∧ d_name d' = d_name d
    ∧ (d_serial d' = d_serial d ∨ d_serial d = "").

  (** The two invariants of the prototype table: the primary keys are
      distinct, and so are the (instance_uuid, serial) keys, which the model
      declares [unique_together]. *)
Definition unique_keys (w : World) : Prop :=
    NoDup (id <$> prototypes w)
    ∧ NoDup ((fun p => (instance_uuid p, serial p)) <$> prototypes w).

  (** The rows whose key is a key of the pass so far are [DISCOVERED] rows
      of the controller. *)
Definition fetched (controller : SdnController) (w : World) (pass : list Prototype)
      : Prop :=
    ∀ p, p ∈ prototypes w → Fetch.key p ∈ Fetch.key <$> pass →
         sync_status p = Choices.DISCOVERED ∧ sdn_controller p = sc_id controller.

  (** A state of a validation and a later one: the messages [added] are
      appended to the list, they are the failures logged when the validation
      logs, and a flag that is still up means that nothing was added. *)
Definition extended (with_logs : bool) (v v' : Validator.validation) : Prop :=
    ∃ added,
      v'.1.2 = v.1.2 ++ added
      ∧ v'.2 = with_log (log v.2 ++ (if with_logs then (λ m, (Failure, m)) <$> added
                                     else [])) v.2
      ∧ (v'.1.1 = true → v.1.1 = true ∧ added = [])
      ∧ (NoDup v.1.2 → NoDup v'.1.2).

  (** The interface is one the clean-up deletes when it is on a device of
      the stack: no cable, no module, a name that is not valid and no
      template of that type. *)
Definition unused (canonical_interface_name : string → string) (w : World)
      (actual_interface : Interface) : bool :=
    negb (bool_decide (is_Some (if_cable actual_interface)))
    && negb (bool_decide (is_Some (if_module actual_interface)))
    && negb (Utils.is_valid_interface (if_name actual_interface))
    && negb (Validator.is_device_type_template canonical_interface_name w actual_interface).

End Frame.

(** ** [process_interfaces]: the guard and the loop

    The interfaces of the device are the rows of the query set
    [template_created_interfaces], which the loop reads again at every turn;
    the reported interfaces are the items of the dictionary
    [raw_data["interfaces"]] in its order.  The MAC address and the IP
    addresses of an interface are left out, as in [process_interface]. *)

Module ProcessInterfaces.

  Import Interfaces.

  (** Numbers separated by slashes, two at least: the language of
      [\d+(/\d+)+]. *)
Definition is_numbers (l : list ascii) : bool :=
    let components := Py.split_chars "/" l in
    bool_decide (1 < length components)%nat
    && forallb (fun component =>
                  negb (bool_decide (component = [])) && forallb Py.is_digit component)
         components.

  (** The leftmost place from which the rest of the name is such a run of
      numbers. *)
Fixpoint numbers_suffix (l : list ascii) : option (list ascii) :=
    if is_numbers l then Some l
    else
      match l with
      | _ :: l' => numbers_suffix l'
      | [] => None
      end.

  (** Where [$] matches: at the end, and before a newline that ends the
      name. *)
Definition before_final_newline (l : list ascii) : list ascii :=
    match reverse l with
    | "010"%char :: rest => reverse rest
    | _ => l
    end.

  (** [re.search(r'(\d+(/\d+)+)$', iface_name, re.IGNORECASE)] and its
      group 1. *)
Definition iface_suffix (iface_name : string) : option string :=
    Py.str <$> numbers_suffix (before_final_newline (Py.chars iface_name)).

  (** What the function logs. *)
Inductive Entry : Type :=
  | NamingMismatch
  | Warned (mismatch : Mismatch)
  | Unable (iface_name : string).

  (** The first row that satisfies [p] is replaced. *)
Fixpoint update_first {A : Type} (p : A → bool) (x : A) (l : list A) : list A :=
    match l with
    | [] => []
    | y :: l' => if p y then x :: l' else y :: update_first p x l'
    end.

  Section Loop.
    (** [utils.get_most_common_interface_type] *)
    Variable get_most_common_interface_type : string → option string.
    (** [name__iregex=pattern]: whether the database finds the pattern in
        the name, given the pattern and the name. *)
    Variable name_iregex : string → string → bool.

    (** [matching_interfaces] *)
Definition matching_interfaces (existing_interfaces : list InterfaceObject)
        (all_prototype_interfaces : list (string * Api.Interface)) : bool :=
      if bool_decide (length existing_interfaces = 0%nat) then true
      else
        existsb
          (fun '(iface_name, _) =>
             existsb (fun o => bool_decide (Py.lower (name o) = Py.lower iface_name))
               existing_interfaces
             || match iface_suffix iface_name with
                | Some iface_suffix =>
                    if bool_decide (iface_suffix = "") then false
                    else
                      let regex_pattern := "(\D|^)" +:+ iface_suffix +:+ "(\D|$)" in
                      existsb (fun o => name_iregex regex_pattern (name o))
                        existing_interfaces
                | None => false
                end)
          all_prototype_interfaces.

    (** [interface_object.save()]: a new row, or the row that was found
        under the name. *)
Definition save (interfaces : list InterfaceObject) (iface_name : string)
        (interface_action : Inventory.Action) (interface_object : InterfaceObject)
        : list InterfaceObject :=
      match interface_action with
      | Inventory.ACTION_CREATE => interfaces ++ [interface_object]
      | _ =>
          update_first (fun o => bool_decide (Py.lower (name o) = Py.lower iface_name))
            interface_object interfaces
      end.

    (** One turn of the loop, with its [except] clause. *)
Definition process_item (state : list InterfaceObject * list Entry)
        (item : string * Api.Interface) : list InterfaceObject * list Entry :=
      let '(interfaces, entries) := state in
      let '(iface_name, iface_data) := item in
      match process_interface get_most_common_interface_type interfaces iface_name
              iface_data with
      | Raised => (interfaces, entries ++ [Unable iface_name])
      | Nothing => (interfaces, entries)
      | Written interface_action interface_object warnings =>
          (save interfaces iface_name interface_action interface_object,
           entries ++ (Warned <$> warnings))
      end.

    (** [process_interfaces]: what it returns, the interfaces of the device
        and the log. *)
Definition process_interfaces (template_created_interfaces : list InterfaceObject)
        (all_prototype_interfaces : list (string * Api.Interface)) (map_interfaces : bool)
        : bool * list InterfaceObject * list Entry :=
      if map_interfaces
         && negb (matching_interfaces template_created_interfaces all_prototype_interfaces)
      then (false, template_created_interfaces, [NamingMismatch])
      else
        let '(interfaces, entries) :=
          foldl process_item (template_created_interfaces, []) all_prototype_interfaces in
        (true, interfaces, entries).

  End Loop.

  (** Two rows with the same name and type. *)
Definition same_name_and_type (o o' : InterfaceObject) : Prop :=
    name o' = name o ∧ type o' = type o.

End ProcessInterfaces.

(** * Theorems *)

(** ** The interface name rule *)
(** Facts about the string and pattern primitives. *)

Lemma chars_app (a b : string) : Py.chars (a +:+ b) = Py.chars a ++ Py.chars b.
Proof.
  unfold Py.chars. induction a as [|c a IH]; [reflexivity|].
  change (String c a +:+ b) with (String c (a +:+ b)). simpl. by rewrite IH.
Qed.

Lemma str_chars (s : string) : Py.str (Py.chars s) = s.
Proof. apply String.string_of_list_ascii_of_string. Qed.

Lemma chars_str (l : list ascii) : Py.chars (Py.str l) = l.
Proof. apply String.list_ascii_of_string_of_list_ascii. Qed.

Lemma chars_nonempty (s : string) : s ≠ "" → ∃ c l, Py.chars s = c :: l.
Proof. destruct s as [|c s]; [done|]. intros _. by exists c, (Py.chars s). Qed.

(** A greedy repetition that can take the whole run [run], and whose
    continuation accepts what follows, stops exactly there. *)
Lemma star_greedy_run {A} (p : ascii → bool) (run rest : list ascii)
    (k : list ascii → option A) (r : A) :
  forallb p run = true →
  match rest with c :: _ => p c = false | [] => True end →
  k rest = Some r →
  Re.star true p (run ++ rest) k = Some r.
Proof.
  intros Hrun Hrest Hk. induction run as [|c run IH]; simpl in *.
  - destruct rest as [|c rest]; simpl; [done|]. by rewrite Hrest.
  - apply andb_prop in Hrun as [-> Hrun]. by rewrite IH.
Qed.

Lemma plus_greedy_run {A} ic (p : ascii → bool) (run rest : list ascii) cs
    (k : list ascii → Re.captures → option A) (r : A) :
  run ≠ [] →
  forallb p run = true →
  match rest with c :: _ => p c = false | [] => True end →
  k rest cs = Some r →
  Re.go ic (Re.Plus true p) (run ++ rest) cs k = Some r.
Proof.
  intros Hne Hrun Hrest Hk. destruct run as [|c run]; [done|].
  simpl in *. apply andb_prop in Hrun as [-> Hrun].
  by apply star_greedy_run.
Qed.

Lemma group_plus_greedy_run {A} ic n (p : ascii → bool) (run rest : list ascii) cs
    (k : list ascii → Re.captures → option A) (r : A) :
  run ≠ [] →
  forallb p run = true →
  match rest with c :: _ => p c = false | [] => True end →
  k rest ((n, Py.str run) :: cs) = Some r →
  Re.go ic (Re.Group n (Re.Plus true p)) (run ++ rest) cs k = Some r.
Proof.
  intros Hne Hrun Hrest Hk.
  change (Re.go ic (Re.Group n (Re.Plus true p)) (run ++ rest) cs k)
    with (Re.go ic (Re.Plus true p) (run ++ rest) cs
            (λ s' cs', k s' ((n, Py.str (take (length (run ++ rest) - length s') (run ++ rest))) :: cs'))).
  apply plus_greedy_run; [done..|].
  rewrite length_app, Nat.add_sub, take_app_length. done.
Qed.

Lemma search_chars_here ic r s cs :
  Re.match_chars ic r s = Some cs → Re.search_chars ic r s = Some cs.
Proof. intros H. destruct s; simpl; by rewrite H. Qed.

Lemma go_seq {A} ic a b s cs (k : list ascii → Re.captures → option A) :
  Re.go ic (Re.Seq a b) s cs k = Re.go ic a s cs (λ s' cs', Re.go ic b s' cs' k).
Proof. reflexivity. Qed.

Lemma go_lit_same {A} c s cs (k : list ascii → Re.captures → option A) :
  Re.go false (Re.Lit c) (c :: s) cs k = k s cs.
Proof. simpl. unfold Re.lit_eq. by rewrite bool_decide_eq_true_2. Qed.

(** The captures of [\D+(\d+)/(\d+)] on a name that begins with a run of
    characters that are no digits, then digits, a slash and digits. *)
Lemma interface_pattern_match (prefix first second rest : list ascii) :
  prefix ≠ [] → forallb Re.D prefix = true →
  first ≠ [] → forallb Re.d first = true →
  second ≠ [] → forallb Re.d second = true →
  match rest with c :: _ => Re.d c = false | [] => True end →
  Re.search_chars false Utils.interface_pattern
    (prefix ++ first ++ "/"%char :: second ++ rest)
  = Some [(2%nat, Py.str second); (1%nat, Py.str first)].
Proof.
  intros Hp HpD Hf Hfd Hs Hsd Hrest.
  apply search_chars_here. unfold Re.match_chars, Utils.interface_pattern.
  rewrite go_seq. apply plus_greedy_run; [done..| |].
  { destruct first as [|c first]; [done|]. simpl in *.
    apply andb_prop in Hfd as [Hc _]. unfold Re.D. unfold Re.d in Hc. by rewrite Hc. }
  rewrite go_seq. apply group_plus_greedy_run; [done..| |].
  { reflexivity. }
  rewrite go_seq, go_lit_same.
  by apply group_plus_greedy_run.
Qed.

(** ** The splitter *)

Lemma split_device_list_cons api uuids d l :
  Splitter.split_device_list api uuids (d :: l)
  = units ← Splitter.split_device api uuids d;
    rest ← Splitter.split_device_list api uuids l;
    Some (units ++ rest).
Proof.
  unfold Splitter.split_device_list. simpl.
  destruct (Splitter.split_device api uuids d) as [units|]; [|done]. simpl.
  by destruct (mapM _ l).
Qed.

(** C10: a reported device whose type contains "nexus", in any case of
    letters, yields no unit when it is split: the list of units of the pass
    is the one obtained without the device, and so is the whole fetch pass
    (no prototype is built or stored for it). *)
Theorem C10_nexus_yields_no_unit
    (api : Api.Client) (uuids : option (list string))
    (controller : Inventory.SdnController) (user : option Z)
    (net_contains : string → string → bool) (hostname_group : string → string → option string)
    (w : Inventory.World) (before after : list Api.Device) (d : Api.Device) :
  Py.contains "nexus" (Py.lower (Api.type d)) = true →
  Splitter.split_device api uuids d = Some []
  ∧ Splitter.split_device_list api uuids (before ++ d :: after)
    = Splitter.split_device_list api uuids (before ++ after)
  ∧ Fetch.sync_device_list api controller user uuids net_contains hostname_group w
      (before ++ d :: after)
    = Fetch.sync_device_list api controller user uuids net_contains hostname_group w
        (before ++ after).
Proof.
  intros Hnexus.
  assert (Hd : Splitter.split_device api uuids d = Some []).
  { unfold Splitter.split_device, Splitter.skipped. by rewrite Hnexus. }
  assert (Hl : Splitter.split_device_list api uuids (before ++ d :: after)
               = Splitter.split_device_list api uuids (before ++ after)).
  { induction before as [|b before IH]; simpl.
    - rewrite split_device_list_cons, Hd. simpl.
      by destruct (Splitter.split_device_list api uuids after).
    - by rewrite !split_device_list_cons, IH. }
  split; [done|]. split; [done|].
  unfold Fetch.sync_device_list. by rewrite Hl.
Qed.

Lemma C10_nexus_yields_no_unit_witness :
  Examples.fetch_pass [] Examples.empty_world [Examples.nexus_device; Examples.stacked_device]
  = Examples.fetch_pass [] Examples.empty_world [Examples.stacked_device].
Proof.
  apply (C10_nexus_yields_no_unit (Examples.stack_api []) None Examples.catalyst_center None
           Examples.no_prefix Examples.no_group Examples.empty_world
           [] [Examples.stacked_device] Examples.nexus_device).
  reflexivity.
Defined.

Section SplitFacts.
  Variable api : Api.Client.
  Variable uuids : option (list string).

  (** The unit of a serial carries the rank of the enumeration, keeps the
      management address up to rank 1 and is named after its rank in a
      group of several. *)
Lemma unit_of_serial_fields parent serials platform_ids index i s u :
    Splitter.unit_of_serial parent serials platform_ids index i s = Some u →
    ∃ stack_number,
      index !! Py.strip s = Some stack_number
      ∧ Api.rank u = stack_number
      ∧ Api.serialNumber u = Some (Py.strip s)
      ∧ Api.total_serial u = length serials
      ∧ Api.managementIpAddress u
        = (if decide (1 < stack_number) then None else Api.managementIpAddress parent)
      ∧ Api.hostname u
        = (if decide (1 < length serials)%nat
           then Api.hostname parent +:+ "-" +:+ Py.str_of_Z stack_number
           else Api.hostname parent).
  Proof.
    unfold Splitter.unit_of_serial. intros H.
    destruct (index !! Py.strip s) as [stack_number|] eqn:E; [|done].
    destruct (platform_ids !! i) as [pid|]; [|done].
    simpl in H. injection H as <-. by exists stack_number.
  Qed.

Lemma unit_of_serial_total parent serials platform_ids (index : gmap string Z) i s :
    is_Some (index !! Py.strip s) → (i < length platform_ids)%nat →
    is_Some (Splitter.unit_of_serial parent serials platform_ids index i s).
  Proof.
    intros [n Hn] Hi. unfold Splitter.unit_of_serial. rewrite Hn.
    destruct (lookup_lt_is_Some_2 platform_ids i Hi) as [pid ->]. by eexists.
  Qed.
End SplitFacts.




(** ** The module positions *)

(** C9: for a module that is not in the card index, when a switch number
    is known and no slot number is found in the name, the slot number is
    "1" and the module is named "Switch <s> Module 1" exactly when the
    count of the unit's group ([total_serial]) is the number of modules
    kept for the device; with another number of modules the module keeps
    its name and has no slot number.  For a unit that is alone in its group
    this is the case of exactly one module. *)
Theorem C9_slot_defaults_to_one (api : Api.Client) (d : Api.Device) (m : Api.Module) :
  let modules := Resolver.kept_modules api d in
  let index := Resolver.card_index api d in
  let switchnumber :=
    if negb (Api.is_multiple d) then Some "1"
    else Resolver.number_text (Utils.extract_chassis_number (Api.module_name m) true) in
  index !! Api.module_serialNumber m = None →
  Py.truthy switchnumber = true →
  Utils.extract_slot_or_module_number (Api.module_name m) true = None →
  (Api.total_serial d = length modules →
     Resolver.module_position d index modules m = (switchnumber, Some "1")
     ∧ Api.slotnumber (Resolver.positioned m switchnumber (Some "1")) = Some "1"
     ∧ Api.module_name (Resolver.positioned m switchnumber (Some "1"))
       = "Switch " +:+ default "" switchnumber +:+ " Module 1")
  ∧ (Api.total_serial d ≠ length modules →
     Resolver.module_position d index modules m = (switchnumber, None)
     ∧ Api.slotnumber (Resolver.positioned m switchnumber None) = Api.slotnumber m
     ∧ Api.module_name (Resolver.positioned m switchnumber None) = Api.module_name m).
Proof.
  intros modules index switchnumber Hcard Hswitch Hslot.
  unfold Resolver.module_position. rewrite Hcard, Hslot. fold switchnumber.
  rewrite Hswitch. simpl.
  split; intros Hn.
  - rewrite decide_True by done. unfold Resolver.positioned. simpl.
    by rewrite Hswitch.
  - rewrite decide_False by done. unfold Resolver.positioned. simpl.
    by rewrite andb_false_r.
Qed.

Lemma C9_slot_defaults_to_one_witness :
  Resolver.module_position Examples.stack_unit (Resolver.card_index (Examples.stack_api [Examples.uplink; Examples.uplink]) Examples.stack_unit)
    [Examples.uplink; Examples.uplink] Examples.uplink = (Some "1", Some "1").
Proof.
  apply (C9_slot_defaults_to_one (Examples.stack_api [Examples.uplink; Examples.uplink]) Examples.stack_unit Examples.uplink);
    by vm_compute.
Defined.

(** C9, as it is written, fails on a unit of a group of two that has one
    module: the switch number is known, no slot number is found, and the
    slot number is not set. *)
Lemma C9_counterexample :
  Resolver.kept_modules (Examples.stack_api [Examples.uplink]) Examples.stack_unit = [Examples.uplink]
  ∧ Resolver.card_index (Examples.stack_api [Examples.uplink]) Examples.stack_unit !! Api.module_serialNumber Examples.uplink = None
  ∧ Utils.extract_chassis_number (Api.module_name Examples.uplink) true = Some (Utils.AsStr "1")
  ∧ Utils.extract_slot_or_module_number (Api.module_name Examples.uplink) true = None
  ∧ (λ m, (Api.module_name m, Api.switchnumber m, Api.slotnumber m))
      <$> Resolver.extract_module_positions (Examples.stack_api [Examples.uplink]) Examples.stack_unit
    = [("Switch 1 - Uplink", Some "1", None)].
Proof. by vm_compute. Qed.

Import Inventory Choices Scoring.

(** ** The fetch pass: what the upsert keeps and what it overwrites *)
Lemma first_elem_of {A} (p : A → bool) (l : list A) (x : A) :
  first p l = Some x → x ∈ l ∧ p x = true.
Proof.
  unfold first. intros H. apply List.find_some in H as [H1 H2].
  split; [by apply list_elem_of_In|done].
Qed.

(** After [save()], the row of the saved object's key is the saved
    object. *)
Lemma prototype_by_id_update (saved existing : Prototype) (w : World) (i : Z) :
  existing ∈ prototypes w → id existing = Some i → id saved = Some i →
  prototype_by_id (update_prototype saved w) i = Some saved.
Proof.
  unfold prototype_by_id, update_prototype, first. simpl.
  intros Hin He Hs. induction (prototypes w) as [|q ps IH]; [by inversion Hin|].
  rewrite fmap_cons. cbn [List.find]. destruct (decide (id q = id saved)) as [Eq|Ne].
  - by rewrite bool_decide_eq_true_2.
  - rewrite bool_decide_eq_false_2 by congruence.
    apply IH. inversion Hin; subst; [congruence|done].
Qed.

(** The rows of the other keys are left as they are. *)
Lemma prototype_by_id_update_ne (saved : Prototype) (w : World) (j : Z) :
  id saved ≠ Some j →
  prototype_by_id (update_prototype saved w) j = prototype_by_id w j.
Proof.
  unfold prototype_by_id, update_prototype, first. simpl. intros Hne.
  induction (prototypes w) as [|q ps IH]; [done|].
  rewrite fmap_cons. cbn [List.find]. rewrite IH.
  destruct (decide (id q = id saved)) as [Eq|Ne]; [|done].
  rewrite bool_decide_eq_false_2 by done.
  by rewrite bool_decide_eq_false_2 by congruence.
Qed.

Section Frames.
  Variable controller : SdnController.
  Variable user : option Z.
  Variable net_contains : string → string → bool.
  Variable hostname_group : string → string → option string.

Lemma object_changelog_prototypes a o w :
    prototypes (Fetch.object_changelog user a o w) = prototypes w.
  Proof. unfold Fetch.object_changelog. by destruct user. Qed.

Lemma rename_matching_prototypes w hostname m w' m' :
    Fetch.rename_matching user w hostname m = (w', m') → prototypes w' = prototypes w.
  Proof.
    unfold Fetch.rename_matching.
    repeat case_match; intros [= <- <-]; by rewrite ?object_changelog_prototypes.
  Qed.

Lemma resolve_primary_ip4_prototypes w ip t w' a :
    Fetch.resolve_primary_ip4 user w ip t = (w', a) → prototypes w' = prototypes w.
  Proof.
    unfold Fetch.resolve_primary_ip4.
    case_match; intros [= <- <-]; by rewrite ?object_changelog_prototypes.
  Qed.

Lemma adopt_serial_prototypes w serial matching related w' matching' related' :
    Fetch.adopt_serial user w serial matching related = (w', matching', related') →
    prototypes w' = prototypes w.
  Proof.
    unfold Fetch.adopt_serial.
    repeat case_match; intros [= <- <- <-]; by rewrite ?object_changelog_prototypes.
  Qed.

Lemma build_candidate_prototypes w prototype w1 c :
    Fetch.build_candidate controller user net_contains hostname_group w prototype
    = Some (w1, c) →
    prototypes w1 = prototypes w ∧ id c = None ∧ sync_status c = Choices.DISCOVERED
    ∧ instance_uuid c = Api.instanceUuid prototype ∧ serial c = Api.serialNumber prototype.
  Proof.
    unfold Fetch.build_candidate. intros H.
    destruct (Fetch.management_ip prototype) as [sdn_ip|]; [|done]. simpl in H.
    set (hostname := default "" (head (Py.split "." (Api.hostname prototype)))) in *.
    set (matching0 := Api.serialNumber prototype ≫= _) in *.
    destruct (match matching0 with Some m => _ | None => _ end) as [wa matching1] eqn:E1.
    assert (H1 : prototypes wa = prototypes w).
    { destruct matching0 as [m0|]; [|by simplify_eq].
      destruct (Fetch.rename_matching user w hostname m0) as [w1' m1'] eqn:Er.
      simplify_eq. by eapply rename_matching_prototypes. }
    clearbody matching0. clear E1.
    set (device_type0 := match first _ (device_types wa) with Some t => Some t | None => _ end) in *.
    destruct (if Py.truthy sdn_ip then _ else _) as [[wb ip] site0] eqn:E2.
    assert (H2 : prototypes wb = prototypes wa).
    { destruct (Py.truthy sdn_ip); [|by simplify_eq].
      destruct (Fetch.resolve_primary_ip4 user wa _ _) as [w2' ip'] eqn:Er.
      simplify_eq. by eapply resolve_primary_ip4_prototypes. }
    clear E2.
    destruct (Fetch.adopt_serial user wb _ matching1 _) as [[wc matching] related] eqn:E3.
    apply adopt_serial_prototypes in E3.
    match type of H with
    | context [mbind _ ?r] => destruct r as [role0|]; [|done]
    end.
    simpl in H. injection H as <- <-. simpl. repeat split. congruence.
  Qed.
End Frames.

Section Upsert.
  Variable controller : SdnController.
  Variable user : option Z.
  Variable net_contains : string → string → bool.
  Variable hostname_group : string → string → option string.

Lemma find_existing_frame w w1 c :
    prototypes w1 = prototypes w → Fetch.find_existing w1 c = Fetch.find_existing w c.
  Proof. unfold Fetch.find_existing. by intros ->. Qed.

Lemma process_prototype_unfold w prototype w2 saved :
    Fetch.process_prototype controller user net_contains hostname_group w prototype
    = Some (w2, saved) →
    ∃ w1 c w1',
      Fetch.build_candidate controller user net_contains hostname_group w prototype
      = Some (w1, c)
      ∧ Fetch.upsert user w1 c = (w1', saved)
      ∧ devices w2 = devices w1' ∧ prototypes w2 = prototypes w1'.
  Proof.
    unfold Fetch.process_prototype. intros H.
    destruct (Fetch.build_candidate _ _ _ _ _ _) as [[w1 c]|]; [|done]. simpl in H.
    destruct (Fetch.upsert user w1 c) as [w1' saved'] eqn:Eu.
    injection H as <- <-. exists w1, c, w1'. repeat split; first [done | by case_match].
  Qed.

Lemma prototype_by_id_frame w w' i :
    prototypes w' = prototypes w → prototype_by_id w' i = prototype_by_id w i.
  Proof. unfold prototype_by_id. by intros ->. Qed.
End Upsert.

(** ** The score *)
Lemma update_device_elem_of d0 d w :
  d0 ∈ devices w → d_id d = d_id d0 → d ∈ devices (update_device d w).
Proof.
  intros Hin Hid. unfold update_device. simpl.
  apply list_elem_of_fmap. exists d0. split; [|done].
  by rewrite decide_True.
Qed.

Section ScoreFacts.
  Variable api : Api.Client.
  Variable controller : SdnController.
  Variable user : option Z.
  Variable net_contains : string → string → bool.
  Variable hostname_group : string → string → option string.

Lemma object_changelog_devices a o w :
    devices (Fetch.object_changelog user a o w) = devices w.
  Proof. unfold Fetch.object_changelog. by destruct user. Qed.

Lemma rename_matching_spec w hostname m w' m' :
    m ∈ devices w →
    Fetch.rename_matching user w hostname m = (w', m') →
    m' ∈ devices w' ∧ d_serial m' = d_serial m.
  Proof.
    intros Hin. unfold Fetch.rename_matching.
    repeat case_match; intros [= <- <-]; try done.
    rewrite object_changelog_devices. split; [|done].
    by eapply update_device_elem_of.
  Qed.

Lemma resolve_primary_ip4_devices w ip t w' a :
    Fetch.resolve_primary_ip4 user w ip t = (w', a) → devices w' = devices w.
  Proof.
    unfold Fetch.resolve_primary_ip4. case_match; intros [= <- <-]; [done|].
    by rewrite object_changelog_devices.
  Qed.

Lemma adopt_serial_spec w serial matching related w' matching' related' :
    (∀ m, matching = Some m → m ∈ devices w) →
    (∀ r, related = Some r → r ∈ devices w) →
    Fetch.adopt_serial user w serial matching related = (w', matching', related') →
    ∀ m, matching' = Some m → m ∈ devices w'.
  Proof.
    intros Hm Hr. unfold Fetch.adopt_serial.
    repeat case_match; intros [= <- <- <-] m' Hm'; simplify_eq; auto.
    rewrite object_changelog_devices. eapply update_device_elem_of; [by apply Hr|done].
  Qed.

Lemma find_related_elem_of w hostname matching ip r :
    Fetch.find_related w hostname matching ip = Some r → r ∈ devices w.
  Proof.
    unfold Fetch.find_related. intros H.
    repeat case_match; simplify_eq;
      repeat match goal with
             | H : first _ _ = Some _ |- _ => apply first_elem_of in H as [? _]
             end; done.
  Qed.
End ScoreFacts.

Section Score.
  Variable api : Api.Client.
  Variable controller : SdnController.
  Variable user : option Z.
  Variable net_contains : string → string → bool.
  Variable hostname_group : string → string → option string.

Lemma build_candidate_score w prototype w' c :
    Fetch.build_candidate controller user net_contains hostname_group w prototype = Some (w', c) →
    ∃ matching : option Device,
      matching_netbox_device c = d_id <$> matching
      ∧ (∀ m, matching = Some m → m ∈ devices w')
      ∧ score c = additive_score c matching.
  Proof.
    unfold Fetch.build_candidate. intros H.
    destruct (Fetch.management_ip prototype) as [sdn_ip|]; [|done]. simpl in H.
    set (hostname := default "" (head (Py.split "." (Api.hostname prototype)))) in *.
    set (matching0 := Api.serialNumber prototype ≫= _) in *.
    assert (H0 : ∀ m, matching0 = Some m → m ∈ devices w).
    { intros m Hm. subst matching0. destruct (Api.serialNumber prototype); [|done].
      simpl in Hm. by apply first_elem_of in Hm as [? _]. }
    destruct (match matching0 with Some m => _ | None => _ end) as [w1 matching1] eqn:E1.
    assert (H1 : ∀ m, matching1 = Some m → m ∈ devices w1).
    { intros m Hm. destruct matching0 as [m0|]; [|by simplify_eq].
      destruct (Fetch.rename_matching user w hostname m0) as [w1' m1'] eqn:Er.
      simplify_eq. eapply rename_matching_spec in Er as [? _]; eauto. }
    clearbody matching0. clear H0 E1.
    set (device_type0 := match first _ (device_types w1) with Some t => Some t | None => _ end) in *.
    destruct (if Py.truthy sdn_ip then _ else _) as [[w2 ip] site0] eqn:E2.
    assert (H2 : devices w2 = devices w1).
    { destruct (Py.truthy sdn_ip); [|by simplify_eq].
      destruct (Fetch.resolve_primary_ip4 user w1 _ _) as [w2' ip'] eqn:Er.
      simplify_eq. by eapply resolve_primary_ip4_devices. }
    clear E2.
    set (related0 := Fetch.find_related w2 hostname matching1 ip) in *.
    destruct (Fetch.adopt_serial user w2 _ matching1 related0) as [[w3 matching] related] eqn:E3.
    assert (H3 : ∀ m, matching = Some m → m ∈ devices w3).
    { eapply adopt_serial_spec; [| |exact E3].
      - intros m Hm. rewrite H2. auto.
      - intros r Hr. by eapply find_related_elem_of. }
    clear E3.
    match type of H with
    | context [mbind _ ?r] => destruct r as [role0|]; [|done]
    end.
    simpl in H. injection H as <- <-. simpl.
    exists matching. split; [done|]. split; [done|].
    clearbody device_type0. clear H1 H2 H3.
    unfold additive_score, serials_equal, hostnames_equal, indicator.
    destruct matching as [m|], ip as [a|], device_type0 as [t|]; simpl;
      repeat match goal with
             | |- context [bool_decide (is_Some ?s)] => destruct s eqn:?; simpl
             end;
      rewrite ?(bool_decide_ext (Some hostname = Some (d_name m)) (hostname = d_name m))
        by (split; [by intros [= ?]|by intros ->]);
      repeat match goal with
             | |- context [bool_decide ?P] => destruct (bool_decide P); simpl
             end;
      lia.
  Qed.

Lemma upsert_devices w c w' saved :
    Fetch.upsert user w c = (w', saved) →
    devices w' = devices w ∧ score saved = score c
    ∧ matching_netbox_device saved = matching_netbox_device c.
  Proof.
    unfold Fetch.upsert. case_match; intros [= <- <-];
      by rewrite object_changelog_devices.
  Qed.
End Score.

(** C6: the score of a processed prototype is the sum of six terms: 5 when
    a matching device exists, 1 when the candidate's serial is the matching
    device's, 1 when its hostname is the matching device's name, 1 when a
    primary IPv4 address was resolved or created, 1 when a device type was
    resolved and 1 when a site was resolved.  With a matching device of the
    same serial and hostname, a device type, a primary address and a site
    the sum is 10; with no matching device and nothing resolved it is 0.
    Both cases are run on a unit. *)
Theorem C6_score_is_sum_of_terms :
  (∀ (controller : SdnController) (user : option Z)
     (net_contains : string → string → bool)
     (hostname_group : string → string → option string)
     (w : World) (prototype : Api.Device) (w2 : World) (saved : Prototype),
     Fetch.process_prototype controller user net_contains hostname_group w prototype
     = Some (w2, saved) →
     ∃ (w1 : World) (candidate : Prototype) (matching : option Device),
       Fetch.build_candidate controller user net_contains hostname_group w prototype
       = Some (w1, candidate)
       ∧ matching_netbox_device saved = d_id <$> matching
       ∧ (∀ m, matching = Some m → m ∈ devices w2)
       ∧ score saved = additive_score candidate matching)
  ∧ (∀ (c : Prototype) (m : Device),
       serial c = Some (d_serial m) → sdn_hostname c = Some (d_name m) →
       is_Some (primary_ip4 c) → is_Some (device_type c) → is_Some (site c) →
       additive_score c (Some m) = 5 + 1 + 1 + 1 + 1 + 1)
  ∧ (∀ c : Prototype,
       primary_ip4 c = None → device_type c = None → site c = None →
       additive_score c None = 0)
  ∧ score <$> (snd <$> Examples.process Examples.edge_world Examples.edge_unit) = Some 10
  ∧ score <$> (snd <$> Examples.process Examples.empty_world Examples.bare_unit) = Some 0.
Proof.
  split; [|split; [|split; [|by vm_compute]]].
  - intros controller user net_contains hostname_group w prototype w2 saved H.
    apply process_prototype_unfold in H as (w1 & c & w1' & Hc & Hu & Hd & _).
    apply upsert_devices in Hu as (Hd' & Hs & Hm).
    destruct (build_candidate_score _ _ _ _ _ _ _ _ Hc) as (matching & Hm' & Hin & Hscore).
    exists w1, c, matching. split; [done|]. split; [congruence|].
    split; [|congruence]. intros m Hmm. rewrite Hd, Hd'. auto.
  - intros c m Hs Hh Hip Ht Hsite.
    unfold additive_score, serials_equal, hostnames_equal, indicator.
    by rewrite !bool_decide_eq_true_2.
  - intros c Hip Ht Hsite.
    unfold additive_score, serials_equal, hostnames_equal, indicator.
    by rewrite Hip, Ht, Hsite.
Qed.

Lemma C6_score_is_sum_of_terms_witness :
  ∃ (w1 : World) (candidate : Prototype) (matching : option Device),
    Fetch.build_candidate Examples.catalyst_center None Examples.no_prefix Examples.no_group
      Examples.edge_world Examples.edge_unit = Some (w1, candidate)
    ∧ additive_score candidate matching = 10.
Proof.
  destruct C6_score_is_sum_of_terms as [H _].
  destruct (Examples.process Examples.edge_world Examples.edge_unit) as [[w2 saved]|] eqn:E;
    [|by vm_compute in E].
  destruct (H Examples.catalyst_center None Examples.no_prefix Examples.no_group
              Examples.edge_world Examples.edge_unit w2 saved E)
    as (w1 & c & matching & Hc & _ & _ & Hs).
  exists w1, c, matching. split; [exact Hc|].
  rewrite <- Hs. vm_compute in E. injection E as E1 E2. by rewrite <- E2.
Defined.

(** ** The check for deleted devices *)
Section Deleted.
  Variable api : Api.Client.
  Variable controller : SdnController.
  Variable user : option Z.
  Variable uuids : option (list string).
  Variable net_contains : string → string → bool.
  Variable hostname_group : string → string → option string.

Lemma object_changelog_prototypes' a o w :
    prototypes (Fetch.object_changelog user a o w) = prototypes w.
  Proof. unfold Fetch.object_changelog. by destruct user. Qed.

  (** A turn of the loop changes the row of the prototype it looks at and
      no other, the primary keys being distinct. *)
Lemma mark_deleted_rows keys (done todo : list Prototype) (p : Prototype) (w : World) :
    NoDup (id <$> (done ++ p :: todo)) →
    prototypes w = (Fetch.after_check controller keys <$> done) ++ p :: todo →
    sdn_controller p = sc_id controller →
    prototypes (Fetch.mark_deleted user keys w p)
    = (Fetch.after_check controller keys <$> (done ++ [p])) ++ todo.
  Proof.
    intros Hnd Hw Hc.
    assert (Ep : Fetch.after_check controller keys p
                 = if bool_decide (Fetch.key p ∈ keys) then p
                   else set_sync_status Choices.DELETED p).
    { unfold Fetch.after_check. rewrite bool_decide_eq_true_2 by done.
      by destruct (bool_decide (Fetch.key p ∈ keys)). }
    rewrite fmap_app, <- app_assoc. simpl. rewrite Ep. unfold Fetch.mark_deleted.
    destruct (bool_decide (Fetch.key p ∈ keys)); simpl; [done|].
    rewrite object_changelog_prototypes'. unfold update_prototype. simpl.
    rewrite Hw, fmap_app, fmap_cons.
    rewrite fmap_app, fmap_cons in Hnd.
    apply NoDup_app in Hnd as (Hd & Hdisj & Htodo).
    apply NoDup_cons in Htodo as [Hp Htodo].
    f_equal; [|f_equal].
    - rewrite <- list_fmap_compose. apply list_fmap_ext. intros i q Hq. simpl.
      rewrite decide_False; [done|]. intros Heq.
      apply (Hdisj (id p)); [|left].
      apply list_elem_of_fmap. exists q. split; [|by eapply list_elem_of_lookup_2].
      rewrite <- Heq. unfold Fetch.after_check. by case_match.
    - by rewrite decide_True.
    - rewrite <- (list_fmap_id todo) at 2. apply list_fmap_ext. intros i q Hq. simpl.
      rewrite decide_False; [done|]. intros Heq. apply Hp.
      apply list_elem_of_fmap. exists q. split; [done|by eapply list_elem_of_lookup_2].
  Qed.

Lemma mark_deleted_loop keys (todo done : list Prototype) (w : World) :
    NoDup (id <$> (done ++ todo)) →
    prototypes w = (Fetch.after_check controller keys <$> done) ++ todo →
    prototypes
      (foldl (Fetch.mark_deleted user keys) w
         (List.filter (λ p, bool_decide (sdn_controller p = sc_id controller)) todo))
    = Fetch.after_check controller keys <$> (done ++ todo).
  Proof.
    revert done w. induction todo as [|p todo IH]; intros done w Hnd Hw.
    - simpl. by rewrite app_nil_r in *.
    - simpl. destruct (bool_decide (sdn_controller p = sc_id controller)) eqn:Ec.
      + simpl. replace (done ++ p :: todo) with ((done ++ [p]) ++ todo)
          by (by rewrite <- app_assoc).
        apply IH; [by rewrite <- app_assoc|].
        apply mark_deleted_rows; [done..|]. by apply bool_decide_eq_true in Ec.
      + replace (done ++ p :: todo) with ((done ++ [p]) ++ todo)
          by (by rewrite <- app_assoc).
        apply IH; [by rewrite <- app_assoc|].
        rewrite Hw, fmap_app, <- app_assoc. simpl. do 2 f_equal.
        unfold Fetch.after_check. by rewrite Ec.
  Qed.

  (** The deletion detector maps [after_check] over the prototype table. *)
Lemma check_for_deleted_devices_rows w prototype_list w0 pass :
    Fetch.fresh_pass api controller user uuids net_contains hostname_group w prototype_list
    = Some (w0, pass) →
    NoDup (id <$> prototypes w0) →
    ∃ w',
      Fetch.check_for_deleted_devices api controller user uuids net_contains
        hostname_group w prototype_list = Some w'
      ∧ prototypes w'
        = Fetch.after_check controller (Fetch.key <$> pass) <$> prototypes w0.
  Proof.
    intros Hpass Hnd. unfold Fetch.check_for_deleted_devices. rewrite Hpass. simpl.
    eexists. split; [done|].
    by apply (mark_deleted_loop _ (prototypes w0) []).
  Qed.
End Deleted.

(** ** The validator only ever lowers the flag, extends the messages and
    writes to the log *)

Lemma logged_refl w : Validator.logged w w.
Proof. exists (log w). by destruct w. Qed.

Lemma logged_trans w1 w2 w3 : Validator.logged w1 w2 → Validator.logged w2 w3 → Validator.logged w1 w3.
Proof. intros [l1 ->] [l2 ->]. by exists l2. Qed.

Lemma logged_tables w w' :
  Validator.logged w w' →
  prototypes w' = prototypes w ∧ devices w' = devices w
  ∧ interfaces w' = interfaces w ∧ module_bays w' = module_bays w.
Proof. by intros [l ->]. Qed.

Lemma later_refl v : Validator.later v v.
Proof. repeat split; auto using logged_refl. Qed.

Lemma later_trans v1 v2 v3 : Validator.later v1 v2 → Validator.later v2 v3 → Validator.later v1 v3.
Proof.
  intros (H1 & H2 & H3) (H1' & H2' & H3').
  repeat split; eauto using logged_trans.
Qed.

Lemma fail_later with_logs message v :
  Validator.later v (Validator.fail with_logs message v)
  ∧ (Validator.fail with_logs message v).1.1 = false
  ∧ message ∈ (Validator.fail with_logs message v).1.2.
Proof.
  destruct v as [[ok ml] w]. unfold Validator.fail, Validator.later.
  destruct (bool_decide (message ∈ ml)) eqn:E; simpl.
  - apply bool_decide_eq_true in E. repeat split; auto using logged_refl.
  - repeat split; auto.
    + intros m Hm. apply elem_of_app. by left.
    + destruct with_logs; [|apply logged_refl]. eexists. reflexivity.
    + apply elem_of_app. right. by left.
Qed.

Lemma fail_is_later with_logs message v :
  Validator.later v (Validator.fail with_logs message v).
Proof. apply fail_later. Qed.

Lemma foldl_later {A} (f : Validator.validation → A → Validator.validation) l v :
  (∀ v x, Validator.later v (f v x)) → Validator.later v (foldl f v l).
Proof.
  intros Hf. revert v. induction l as [|x l IH]; intros v; simpl.
  - apply later_refl.
  - eapply later_trans; [apply Hf|apply IH].
Qed.

Ltac later_step :=
  first [ apply later_refl | apply fail_is_later
        | eapply later_trans; apply fail_is_later ].

Section ValidatorFacts.
  Variable canonical_interface_name : string → string.

Lemma check_related_later with_logs w0 p v :
    Validator.later v (Validator.check_related with_logs w0 p v).
  Proof. unfold Validator.check_related. repeat case_match; later_step. Qed.

Lemma check_required_later with_logs p v :
    Validator.later v (Validator.check_required with_logs p v).
  Proof.
    unfold Validator.check_required. apply foldl_later.
    intros v' f. case_match; later_step.
  Qed.

Lemma check_stack_index_later with_logs w0 p v :
    Validator.later v (Validator.check_stack_index with_logs w0 p v).
  Proof. unfold Validator.check_stack_index. repeat case_match; later_step. Qed.

Lemma check_primary_ip_later with_logs w0 p v :
    Validator.later v (Validator.check_primary_ip with_logs w0 p v).
  Proof. unfold Validator.check_primary_ip. repeat case_match; later_step. Qed.

Lemma check_interfaces_later with_logs w0 p v :
    Validator.later v (Validator.check_interfaces canonical_interface_name with_logs w0 p v).
  Proof.
    unfold Validator.check_interfaces. case_match; [|apply later_refl].
    apply foldl_later. intros v' i.
    repeat case_match; later_step.
  Qed.

Lemma check_module_bays_later with_logs w0 p v :
    Validator.later v (Validator.check_module_bays with_logs w0 p v).
  Proof.
    unfold Validator.check_module_bays. case_match; [|apply later_refl].
    apply foldl_later. intros v' b. case_match; later_step.
  Qed.

Lemma validate_one_later with_logs after_modules w0 v p :
    Validator.later v (Validator.validate_one canonical_interface_name with_logs after_modules w0 v p).
  Proof.
    unfold Validator.validate_one.
    assert (H4 : Validator.later v (Validator.check_primary_ip with_logs w0 p
                   (Validator.check_stack_index with_logs w0 p
                      (Validator.check_required with_logs p
                         (Validator.check_related with_logs w0 p v))))).
    { eapply later_trans; [apply check_related_later|].
      eapply later_trans; [apply check_required_later|].
      eapply later_trans; [apply check_stack_index_later|].
      apply check_primary_ip_later. }
    destruct after_modules; [|done].
    eapply later_trans; [exact H4|].
    eapply later_trans; [apply check_interfaces_later|apply check_module_bays_later].
  Qed.

  (** A missing required field fails the check of the prototype and is
      named in the messages. *)
Lemma check_required_missing with_logs p v field :
    field ∈ Validator.required_fields →
    Validator.has_field p field = false →
    (Validator.check_required with_logs p v).1.1 = false
    ∧ MissingRequiredField (default 0 (id p)) field
      ∈ (Validator.check_required with_logs p v).1.2.
  Proof.
    unfold Validator.check_required. generalize Validator.required_fields.
    intros fields Hin Hmiss. revert v.
    induction fields as [|f fields IH]; intros v; [by inversion Hin|].
    simpl. apply elem_of_cons in Hin as [<-|Hin]; [|by apply IH].
    rewrite Hmiss.
    destruct (fail_later with_logs (MissingRequiredField (default 0 (id p)) field) v)
      as (_ & Hflag & Hmsg).
    set (v1 := Validator.fail _ _ v) in *.
    assert (Hl : Validator.later v1
              (foldl (λ v0 field0, if Validator.has_field p field0 then v0
                                   else Validator.fail with_logs
                                          (MissingRequiredField (default 0 (id p)) field0) v0)
                 v1 fields)).
    { apply foldl_later. intros v' f. case_match; later_step. }
    destruct Hl as (H1 & H2 & _). auto.
  Qed.

Lemma validate_one_missing with_logs after_modules w0 v p field :
    field ∈ Validator.required_fields →
    Validator.has_field p field = false →
    let v' := Validator.validate_one canonical_interface_name with_logs after_modules w0 v p in
    v'.1.1 = false ∧ MissingRequiredField (default 0 (id p)) field ∈ v'.1.2.
  Proof.
    intros Hin Hmiss. unfold Validator.validate_one.
    set (v1 := Validator.check_related with_logs w0 p v).
    destruct (check_required_missing with_logs p v1 field Hin Hmiss) as [Hf Hm].
    set (v2 := Validator.check_required with_logs p v1) in *.
    assert (H4 : Validator.later v2 (Validator.check_primary_ip with_logs w0 p
                             (Validator.check_stack_index with_logs w0 p v2))).
    { eapply later_trans; [apply check_stack_index_later|apply check_primary_ip_later]. }
    destruct after_modules.
    - assert (H6 : Validator.later v2
                (Validator.check_module_bays with_logs w0 p
                   (Validator.check_interfaces canonical_interface_name with_logs w0 p
                      (Validator.check_primary_ip with_logs w0 p
                         (Validator.check_stack_index with_logs w0 p v2))))).
      { eapply later_trans; [exact H4|].
        eapply later_trans; [apply check_interfaces_later|apply check_module_bays_later]. }
      destruct H6 as (H1 & H2 & _). simpl. auto.
    - destruct H4 as (H1 & H2 & _). simpl. auto.
  Qed.

Lemma validate_prototype_later w p ml with_logs after_modules :
    Validator.later (true, ml, w)
      (Validator.validate_prototype canonical_interface_name w p ml with_logs after_modules).
  Proof.
    unfold Validator.validate_prototype. apply foldl_later.
    intros v q. apply validate_one_later.
  Qed.

  (** Stack-wide validation: one unit of the stack without a required field
      fails the validation of every unit, with a message that names the
      unit and the field. *)
Lemma validate_prototype_missing w p ml with_logs after_modules q field :
    q ∈ prototypes w →
    instance_uuid q = instance_uuid p →
    field ∈ Validator.required_fields →
    Validator.has_field q field = false →
    let v := Validator.validate_prototype canonical_interface_name w p ml
               with_logs after_modules in
    v.1.1 = false ∧ MissingRequiredField (default 0 (id q)) field ∈ v.1.2.
  Proof.
    intros Hq Huuid Hin Hmiss. unfold Validator.validate_prototype.
    assert (Hq' : q ∈ List.filter
                    (λ p0, bool_decide (instance_uuid p0 = instance_uuid p)) (prototypes w)).
    { apply list_elem_of_In, List.filter_In. split; [by apply list_elem_of_In|].
      by apply bool_decide_eq_true. }
    revert Hq'. generalize (List.filter
      (λ p0, bool_decide (instance_uuid p0 = instance_uuid p)) (prototypes w)).
    generalize (true, ml, w). intros v l. revert v.
    induction l as [|x l IH]; intros v Hq'; [by inversion Hq'|].
    simpl. apply elem_of_cons in Hq' as [<-|Hq']; [|by apply IH].
    destruct (validate_one_missing with_logs after_modules w v q field Hin Hmiss) as [Hf Hm].
    set (v1 := Validator.validate_one _ _ _ w v q) in *.
    assert (Hl : Validator.later v1
              (foldl (Validator.validate_one canonical_interface_name with_logs
                        after_modules w) v1 l)).
    { apply foldl_later. intros v' x. apply validate_one_later. }
    destruct Hl as (H1 & H2 & _). auto.
  Qed.
End ValidatorFacts.

(** ** The importer *)

Lemma prototype_by_id_elem_of w i p :
  prototype_by_id w i = Some p → p ∈ prototypes w ∧ id p = Some i.
Proof.
  unfold prototype_by_id. intros H. apply first_elem_of in H as [H1 H2].
  split; [done|]. by apply bool_decide_eq_true in H2.
Qed.

Lemma foldl_frame {A B} (g : World → B) (f : World → A → World) (l : list A) (w : World) :
  (∀ w x, g (f w x) = g w) → g (foldl f w l) = g w.
Proof.
  intros Hf. revert w. induction l as [|x l IH]; intros w; [done|].
  simpl. by rewrite IH, Hf.
Qed.

Section ImporterFacts.
  Variable canonical_interface_name : string → string.
  Variable user : option Z.
  Variable log_all_errors : bool.
  Variable instantiate_components : World → Device → option World.
  Variable write_components : World → Prototype → Device → bool → option World.
  (** The collaborators write to the inventory, not to the prototype
      table. *)
  Hypothesis instantiate_components_prototypes :
    ∀ w d w', instantiate_components w d = Some w' → prototypes w' = prototypes w.
  Hypothesis write_components_prototypes :
    ∀ w p d b w', write_components w p d b = Some w' → prototypes w' = prototypes w.

  Abbreviation import_prototype :=
    (Importer.import_prototype canonical_interface_name user log_all_errors
       instantiate_components write_components).
  Abbreviation validate_prototype := (Validator.validate_prototype canonical_interface_name).
  Abbreviation clean_prototype_interfaces :=
    (Validator.clean_prototype_interfaces canonical_interface_name).

Lemma clean_prototype_interfaces_tables w p :
    prototypes (clean_prototype_interfaces w p) = prototypes w
    ∧ devices (clean_prototype_interfaces w p) = devices w.
  Proof.
    unfold Validator.clean_prototype_interfaces.
    split; apply foldl_frame; intros w0 q; by destruct (matching_netbox_device q).
  Qed.

Lemma changelog_prototypes a o w :
    prototypes (Importer.object_changelog user a o w) = prototypes w.
  Proof. apply object_changelog_prototypes. Qed.

Lemma changelog_devices a o w :
    devices (Importer.object_changelog user a o w) = devices w.
  Proof. unfold Importer.object_changelog, Fetch.object_changelog. by destruct user. Qed.

  (** The row of the selected prototype after [mark_discovered], and the
      other rows. *)
Lemma mark_discovered_row w p i :
    p ∈ prototypes w → id p = Some i →
    prototype_by_id (Importer.mark_discovered user w p) i
    = Some (set_sync_status DISCOVERED p)
    ∧ devices (Importer.mark_discovered user w p) = devices w
    ∧ ∀ j, j ≠ i →
        prototype_by_id (Importer.mark_discovered user w p) j = prototype_by_id w j.
  Proof.
    intros Hin Hid. unfold Importer.mark_discovered.
    split; [|split].
    - rewrite (prototype_by_id_frame (update_prototype (set_sync_status DISCOVERED p) w))
        by (simpl; apply changelog_prototypes).
      by eapply prototype_by_id_update.
    - simpl. by rewrite changelog_devices.
    - intros j Hj.
      rewrite (prototype_by_id_frame (update_prototype (set_sync_status DISCOVERED p) w))
        by (simpl; apply changelog_prototypes).
      apply prototype_by_id_update_ne. simpl. congruence.
  Qed.

Lemma validate_prototype_tables w p ml with_logs after_modules :
    let v := validate_prototype w p ml with_logs after_modules in
    prototypes v.2 = prototypes w ∧ devices v.2 = devices w.
  Proof.
    destruct (validate_prototype_later canonical_interface_name w p ml with_logs
                after_modules) as (_ & _ & Hl).
    apply logged_tables in Hl as (? & ? & _). by simpl in *.
  Qed.

  (** A turn of the import loop whose first check fails. *)
Lemma import_prototype_invalid w ml i selected :
    prototype_by_id w i = Some selected →
    let v := validate_prototype (clean_prototype_interfaces w selected) selected ml
               log_all_errors false in
    v.1.1 = false →
    import_prototype (w, ml) i = (Importer.mark_discovered user v.2 selected, v.1.2).
  Proof.
    intros Hsel v Hv. unfold Importer.import_prototype. rewrite Hsel.
    fold v. destruct v as [[ok ml'] w']. simpl in *. by rewrite Hv.
  Qed.
End ImporterFacts.

(** C4: when a stored prototype with the instance uuid of the selected one
    lacks one of hostname, role, device_type, tenant, site and serial, the
    validation fails with a message that names the prototype and the field,
    the selected prototype is saved as [DISCOVERED], and the turn of the
    loop ends there: the device table is as it was. *)
Theorem C4_missing_required_field_blocks_import
    (canonical_interface_name : string → string) (user : option Z) (log_all_errors : bool)
    (instantiate_components : World → Device → option World)
    (write_components : World → Prototype → Device → bool → option World)
    (w : World) (message_list : list Message) (i : Z)
    (selected same_stack : Prototype) (field : string) :
  prototype_by_id w i = Some selected →
  same_stack ∈ prototypes w →
  instance_uuid same_stack = instance_uuid selected →
  field ∈ Validator.required_fields →
  Validator.has_field same_stack field = false →
  let checked :=
    Validator.validate_prototype canonical_interface_name
      (Validator.clean_prototype_interfaces canonical_interface_name w selected)
      selected message_list log_all_errors false in
  let imported :=
    Importer.import_prototype canonical_interface_name user log_all_errors
      instantiate_components write_components (w, message_list) i in
  checked.1.1 = false
  ∧ MissingRequiredField (default 0 (id same_stack)) field ∈ checked.1.2
  ∧ imported.2 = checked.1.2
  ∧ prototype_by_id imported.1 i = Some (set_sync_status DISCOVERED selected)
  ∧ sync_status <$> prototype_by_id imported.1 i = Some DISCOVERED
  ∧ devices imported.1 = devices w.
Proof.
  intros Hsel Hin Huuid Hfield Hmiss checked imported.
  destruct (clean_prototype_interfaces_tables canonical_interface_name w selected)
    as [Hcp Hcd].
  destruct (validate_prototype_missing canonical_interface_name
              (Validator.clean_prototype_interfaces canonical_interface_name w selected)
              selected message_list log_all_errors false same_stack field)
    as [Hflag Hmsg]; [by rewrite Hcp|done..|].
  fold checked in Hflag, Hmsg.
  destruct (validate_prototype_tables canonical_interface_name
              (Validator.clean_prototype_interfaces canonical_interface_name w selected)
              selected message_list log_all_errors false) as [Hvp Hvd].
  fold checked in Hvp, Hvd.
  assert (Himp : imported = (Importer.mark_discovered user checked.2 selected, checked.1.2)).
  { by apply import_prototype_invalid. }
  apply prototype_by_id_elem_of in Hsel as [Hsel Hid].
  destruct (mark_discovered_row user checked.2 selected i) as (Hrow & Hdev & _);
    [by rewrite Hvp, Hcp|done|].
  rewrite Himp. cbn [fst snd]. rewrite Hrow, Hdev, Hvd, Hcd. by repeat split.
Qed.

Lemma C4_missing_required_field_blocks_import_witness :
  sync_status
    <$> prototype_by_id
          (Examples.import_one (Examples.world_of (Examples.candidate_prototype None)) 1).1 1
  = Some DISCOVERED.
Proof.
  apply (C4_missing_required_field_blocks_import Examples.same_name None true
           Examples.no_components Examples.no_writes
           (Examples.world_of (Examples.candidate_prototype None)) [] 1
           (Examples.candidate_prototype None) (Examples.candidate_prototype None) "site").
  - reflexivity.
  - simpl. by left.
  - reflexivity.
  - unfold Validator.required_fields. set_solver.
  - reflexivity.
Defined.

(** ** The status after an import *)
Section ImportStatus.
  Variable canonical_interface_name : string → string.
  Variable user : option Z.
  Variable log_all_errors : bool.
  Variable instantiate_components : World → Device → option World.
  Variable write_components : World → Prototype → Device → bool → option World.
  Hypothesis instantiate_components_prototypes :
    ∀ w d w', instantiate_components w d = Some w' → prototypes w' = prototypes w.
  Hypothesis write_components_prototypes :
    ∀ w p d b w', write_components w p d b = Some w' → prototypes w' = prototypes w.

  Abbreviation import_prototype :=
    (Importer.import_prototype canonical_interface_name user log_all_errors
       instantiate_components write_components).
  Abbreviation materialize :=
    (Importer.materialize canonical_interface_name user log_all_errors
       instantiate_components write_components).
  Abbreviation post_check :=
    (Importer.post_check canonical_interface_name user log_all_errors).
  Abbreviation written :=
    (Importer.written user instantiate_components write_components).
  Abbreviation validate_prototype := (Validator.validate_prototype canonical_interface_name).
  Abbreviation clean_prototype_interfaces :=
    (Validator.clean_prototype_interfaces canonical_interface_name).

Lemma update_matching_prototypes w p d w' d' :
    Importer.update_matching user w p d = (w', d') → prototypes w' = prototypes w.
  Proof.
    unfold Importer.update_matching.
    destruct (if bool_decide (d_serial d = "") then _ else _) as [w1 d1] eqn:E.
    assert (H1 : prototypes w1 = prototypes w).
    { revert E. repeat case_match; intros [= <- <-]; simpl;
        by rewrite ?changelog_prototypes. }
    intros [= <- <-]. simpl. rewrite <- H1.
    unfold Importer.process_device_attributes.
    apply (foldl_frame prototypes). intros w0 [attr mismatch]. by destruct mismatch.
  Qed.

Lemma create_device_prototypes w p w' d :
    Importer.create_device user instantiate_components w p = Some (w', d) →
    prototypes w' = prototypes w.
  Proof.
    unfold Importer.create_device. intros H.
    destruct (instantiate_components _ _) as [w1|] eqn:E; [|done].
    simpl in H. injection H as <- <-. simpl. rewrite changelog_prototypes.
    by rewrite (instantiate_components_prototypes _ _ _ E).
  Qed.

  (** The row of the selected prototype after [mark_imported], and the
      other rows. *)
Lemma mark_imported_row w p d i w' saved d' :
    p ∈ prototypes w → id p = Some i →
    Importer.mark_imported user w p d = (w', saved, d') →
    saved = set_sync_status IMPORTED (set_matching_netbox_device (Some (d_id d)) p)
    ∧ prototype_by_id w' i = Some saved
    ∧ ∀ j, j ≠ i → prototype_by_id w' j = prototype_by_id w j.
  Proof.
    intros Hin Hid. unfold Importer.mark_imported. intros [= <- <- <-].
    set (saved := set_sync_status IMPORTED _).
    split; [done|].
    assert (Hp : ∀ d0 : Device,
              prototypes (Importer.object_changelog user ACTION_UPDATE (ODevice (d_id d0))
                            (update_device d0
                               (Importer.object_changelog user ACTION_UPDATE
                                  (OPrototype (default 0 (id saved)))
                                  (update_prototype saved w))))
              = prototypes (update_prototype saved w)).
    { intros d0. rewrite changelog_prototypes. simpl. by rewrite changelog_prototypes. }
    split.
    - rewrite (prototype_by_id_frame _ _ _ (Hp _)). by eapply prototype_by_id_update.
    - intros j Hj. rewrite (prototype_by_id_frame _ _ _ (Hp _)).
      apply prototype_by_id_update_ne. simpl. congruence.
  Qed.

  (** The check after the writes: the row stays as it is when the
      validation passes and goes back to [DISCOVERED] when it fails. *)
Lemma post_check_row w ml i p :
    prototype_by_id w i = Some p →
    let valid := (validate_prototype w p ml log_all_errors true).1.1 in
    prototype_by_id (post_check w ml i).1 i
    = Some (if valid then p else set_sync_status DISCOVERED p)
    ∧ ∀ j, j ≠ i → prototype_by_id (post_check w ml i).1 j = prototype_by_id w j.
  Proof.
    intros Hp valid. unfold Importer.post_check. rewrite Hp.
    destruct (validate_prototype_tables canonical_interface_name w p ml log_all_errors true)
      as [Hvp _].
    subst valid.
    destruct (validate_prototype w p ml log_all_errors true) as [[ok ml'] w'].
    simpl in *. destruct ok; simpl.
    - split; [|intros j _]; by rewrite (prototype_by_id_frame w).
    - apply prototype_by_id_elem_of in Hp as [Hin Hid].
      destruct (mark_discovered_row user w' p i) as (H1 & _ & H2);
        [by rewrite Hvp|done|].
      split; [done|]. intros j Hj. rewrite H2 by done. by apply prototype_by_id_frame.
  Qed.

  (** The outcomes of the writes for a prototype that passed the first
      check: nothing changed (the device could not be created), or the
      prototype is linked and [IMPORTED], or the check after the writes took
      it back to [DISCOVERED]. *)
Lemma materialize_rows w ml i selected :
    prototype_by_id w i = Some selected →
    let result := materialize w ml i selected in
    (prototype_by_id result.1 i = Some selected
     ∨ ∃ d, let saved :=
              set_sync_status IMPORTED (set_matching_netbox_device (Some d) selected) in
            prototype_by_id result.1 i = Some saved
            ∨ ∃ w3,
                prototype_by_id w3 i = Some saved
                ∧ (validate_prototype w3 saved ml log_all_errors true).1.1 = false
                ∧ prototype_by_id result.1 i = Some (set_sync_status DISCOVERED saved))
    ∧ ∀ j, j ≠ i → prototype_by_id result.1 j = prototype_by_id w j.
  Proof.
    intros Hsel result. subst result. unfold Importer.materialize.
    set (made := match matching_netbox_device selected ≫= device_by_id w with
                 | Some new_device => _ | None => _ end).
    assert (Hmade : ∀ w1 d b, made = Some (w1, d, b) → prototypes w1 = prototypes w).
    { subst made. intros w1 d b.
      destruct (matching_netbox_device selected ≫= device_by_id w) as [d0|].
      - destruct (Importer.update_matching user w selected d0) as [w1' d1] eqn:E.
        intros [= <- <- <-]. by eapply update_matching_prototypes.
      - destruct (Importer.create_device _ _ w selected) as [[w1' d1]|] eqn:E; [|done].
        simpl. intros [= <- <- <-]. by eapply create_device_prototypes. }
    destruct made as [[[w1 d] b]|].
    2:{ split; [by left|done]. }
    specialize (Hmade w1 d b eq_refl).
    destruct (prototype_by_id_elem_of _ _ _ Hsel) as [Hin Hid].
    destruct (Importer.mark_imported user w1 selected d) as [[w2 saved] d'] eqn:Em.
    apply (mark_imported_row w1 selected d i) in Em
      as (Hsaved & Hrow & Hothers); [|by rewrite Hmade|done].
    assert (Hw1 : ∀ j, prototype_by_id w1 j = prototype_by_id w j).
    { intros j. by apply prototype_by_id_frame. }
    destruct (write_components w2 saved d' b) as [w3|] eqn:Ew.
    - apply write_components_prototypes in Ew.
      assert (Hw3 : ∀ j, prototype_by_id w3 j = prototype_by_id w2 j).
      { intros j. by apply prototype_by_id_frame. }
      assert (Hrow3 : prototype_by_id w3 i = Some saved) by (by rewrite Hw3).
      destruct (post_check_row w3 ml i saved Hrow3) as [Hpost Hpost'].
      split.
      + right. exists (d_id d). rewrite <- Hsaved.
        destruct (validate_prototype w3 saved ml log_all_errors true).1.1 eqn:Ev.
        * by left.
        * right. by exists w3.
      + intros j Hj. by rewrite Hpost', Hw3, Hothers, Hw1.
    - split.
      + right. exists (d_id d). rewrite <- Hsaved. left.
        by rewrite (prototype_by_id_frame w2).
      + intros j Hj. rewrite (prototype_by_id_frame w2) by done.
        by rewrite Hothers, Hw1.
  Qed.

  (** The writes and the check after them.  When every write went through,
      the loop body ends with the check on the world they left, in which the
      prototype is linked and [IMPORTED]; when one raised, the prototype is
      as it was or linked and [IMPORTED]. *)
Lemma materialize_written w ml i selected :
    prototype_by_id w i = Some selected →
    match written w selected with
    | Some (w3, saved) =>
        materialize w ml i selected = post_check w3 ml i
        ∧ prototype_by_id w3 i = Some saved
        ∧ sync_status saved = IMPORTED
    | None =>
        prototype_by_id (materialize w ml i selected).1 i = Some selected
        ∨ ∃ d, prototype_by_id (materialize w ml i selected).1 i
               = Some (set_sync_status IMPORTED
                         (set_matching_netbox_device (Some d) selected))
    end.
  Proof.
    intros Hsel. unfold Importer.materialize, Importer.written.
    set (made := match matching_netbox_device selected ≫= device_by_id w with
                 | Some new_device => _ | None => _ end).
    assert (Hmade : ∀ w1 d b, made = Some (w1, d, b) → prototypes w1 = prototypes w).
    { subst made. intros w1 d b.
      destruct (matching_netbox_device selected ≫= device_by_id w) as [d0|].
      - destruct (Importer.update_matching user w selected d0) as [w1' d1] eqn:E.
        intros [= <- <- <-]. by eapply update_matching_prototypes.
      - destruct (Importer.create_device _ _ w selected) as [[w1' d1]|] eqn:E; [|done].
        simpl. intros [= <- <- <-]. by eapply create_device_prototypes. }
    destruct made as [[[w1 d] b]|]; [|by left].
    specialize (Hmade w1 d b eq_refl). cbn [mbind option_bind].
    destruct (prototype_by_id_elem_of _ _ _ Hsel) as [Hin Hid].
    destruct (Importer.mark_imported user w1 selected d) as [[w2 saved] d'] eqn:Em.
    apply (mark_imported_row w1 selected d i) in Em
      as (Hsaved & Hrow & Hothers); [|by rewrite Hmade|done].
    destruct (write_components w2 saved d' b) as [w3|] eqn:Ew; cbn [mbind option_bind].
    - apply write_components_prototypes in Ew.
      split; [done|]. split; [|by rewrite Hsaved].
      rewrite <- Hrow. by apply prototype_by_id_frame.
    - right. exists (d_id d). rewrite <- Hsaved.
      by rewrite (prototype_by_id_frame w2).
  Qed.

  (** A turn of the import loop, by the result of its first check. *)
Lemma import_prototype_rows w ml i selected :
    prototype_by_id w i = Some selected →
    let checked :=
      validate_prototype (clean_prototype_interfaces w selected) selected ml
        log_all_errors false in
    let result := import_prototype (w, ml) i in
    (checked.1.1 = false →
       prototype_by_id result.1 i = Some (set_sync_status DISCOVERED selected))
    ∧ (checked.1.1 = true →
         prototype_by_id result.1 i = Some selected
         ∨ ∃ d, let saved :=
                  set_sync_status IMPORTED
                    (set_matching_netbox_device (Some d) selected) in
                prototype_by_id result.1 i = Some saved
                ∨ ∃ w3,
                    prototype_by_id w3 i = Some saved
                    ∧ (validate_prototype w3 saved checked.1.2 log_all_errors true).1.1
                      = false
                    ∧ prototype_by_id result.1 i
                      = Some (set_sync_status DISCOVERED saved))
    ∧ ∀ j, j ≠ i → prototype_by_id result.1 j = prototype_by_id w j.
  Proof.
    intros Hsel checked result.
    destruct (clean_prototype_interfaces_tables canonical_interface_name w selected)
      as [Hcp _].
    destruct (validate_prototype_tables canonical_interface_name
                (clean_prototype_interfaces w selected) selected ml log_all_errors false)
      as [Hvp _].
    fold checked in Hvp.
    assert (Hframe : ∀ j, prototype_by_id checked.2 j = prototype_by_id w j).
    { intros j. apply prototype_by_id_frame. congruence. }
    destruct (prototype_by_id_elem_of _ _ _ Hsel) as [Hin Hid].
    destruct (checked.1.1) eqn:Ev.
    - assert (Hres : result = materialize checked.2 checked.1.2 i selected).
      { subst result. unfold Importer.import_prototype. rewrite Hsel. fold checked.
        destruct checked as [[ok ml'] w']. simpl in *. by rewrite Ev. }
      destruct (materialize_rows checked.2 checked.1.2 i selected) as [H1 H2];
        [by rewrite Hframe|].
      rewrite <- Hres in H1, H2.
      split; [done|]. split; [done|]. intros j Hj. by rewrite H2, Hframe.
    - assert (Hres : result = (Importer.mark_discovered user checked.2 selected,
                               checked.1.2)).
      { by apply import_prototype_invalid. }
      destruct (mark_discovered_row user checked.2 selected i) as (Hrow & _ & Hothers);
        [congruence|done|].
      rewrite Hres. cbn [fst snd].
      split; [done|]. split; [done|]. intros j Hj. by rewrite Hothers, Hframe.
  Qed.

  (** A turn of the import loop whose first check passes goes on with the
      writes. *)
Lemma import_prototype_valid w ml i selected :
    prototype_by_id w i = Some selected →
    let checked :=
      validate_prototype (clean_prototype_interfaces w selected) selected ml
        log_all_errors false in
    checked.1.1 = true →
    import_prototype (w, ml) i = materialize checked.2 checked.1.2 i selected
    ∧ prototype_by_id checked.2 i = Some selected.
  Proof.
    intros Hsel checked Hv. split.
    - unfold Importer.import_prototype. rewrite Hsel. fold checked.
      destruct checked as [[ok ml'] w']. simpl in *. by rewrite Hv.
    - destruct (clean_prototype_interfaces_tables canonical_interface_name w selected)
        as [Hcp _].
      destruct (validate_prototype_tables canonical_interface_name
                  (clean_prototype_interfaces w selected) selected ml log_all_errors false)
        as [Hvp _].
      fold checked in Hvp. rewrite <- Hsel. apply prototype_by_id_frame. congruence.
  Qed.
End ImportStatus.

(** ** The status after a fetch pass *)
Section FetchStatus.
  Variable controller : SdnController.
  Variable user : option Z.
  Variable net_contains : string → string → bool.
  Variable hostname_group : string → string → option string.

  (** Whatever the stored status was, the prototype a fetch pass processes
      is saved as [DISCOVERED]. *)
Lemma process_prototype_discovered w prototype w2 saved :
    Fetch.process_prototype controller user net_contains hostname_group w prototype
    = Some (w2, saved) →
    sync_status saved = DISCOVERED ∧ saved ∈ prototypes w2.
  Proof.
    intros Hp.
    apply process_prototype_unfold in Hp as (w1 & c & w1' & Hc & Hu & _ & Hps).
    apply build_candidate_prototypes in Hc as (_ & _ & Hst & _).
    unfold Fetch.upsert in Hu.
    destruct (Fetch.find_existing w1 c) as [existing|] eqn:Ex.
    - injection Hu as <- <-. split; [done|].
      rewrite Hps, object_changelog_prototypes. unfold update_prototype. simpl.
      unfold Fetch.find_existing in Ex. apply first_elem_of in Ex as [Hin _].
      apply list_elem_of_fmap. exists existing. split; [|done].
      by rewrite decide_True.
    - injection Hu as <- <-. split; [done|].
      rewrite Hps, object_changelog_prototypes. simpl.
      apply elem_of_app. right. by left.
  Qed.

  (** The processing of a prototype whose key is already stored. *)
Lemma process_prototype_existing w w1 w2 prototype candidate existing saved i :
    Fetch.build_candidate controller user net_contains hostname_group w prototype
    = Some (w1, candidate) →
    Fetch.find_existing w candidate = Some existing →
    id existing = Some i →
    Fetch.process_prototype controller user net_contains hostname_group w prototype
    = Some (w2, saved) →
    saved = Fetch.overwrite existing candidate ∧ prototype_by_id w2 i = Some saved.
  Proof.
    intros Hc Hex Hid Hp.
    apply process_prototype_unfold in Hp as (w1' & c' & w1'' & Hc' & Hu & _ & Hps).
    rewrite Hc in Hc'. injection Hc' as <- <-.
    apply build_candidate_prototypes in Hc as (Hp1 & _).
    unfold Fetch.upsert in Hu. rewrite (find_existing_frame _ _ _ Hp1), Hex in Hu.
    injection Hu as <- <-.
    split; [done|].
    rewrite (prototype_by_id_frame _ _ _ Hps).
    rewrite (prototype_by_id_frame (update_prototype (Fetch.overwrite existing candidate) w1))
      by apply object_changelog_prototypes.
    eapply prototype_by_id_update; [|exact Hid|done].
    rewrite Hp1. unfold Fetch.find_existing in Hex. by apply first_elem_of in Hex as [? _].
  Qed.
End FetchStatus.

(** C2: the check for deleted devices, after a fresh pass over a table
    whose primary keys are unique, sets [DELETED] on every stored prototype
    of the controller whose (instance_uuid, serial) key is not a key of the
    pass, and leaves the prototypes whose key is in the pass, and those of
    other controllers, as they are.  With (U1,S1) and (U2,S2) stored, a
    pass that reports (U1,S1) alone makes (U2,S2) [DELETED], and a later
    pass that reports both makes it [DISCOVERED] again. *)
Theorem C2_absent_keys_become_deleted :
  (∀ (api : Api.Client) (controller : SdnController) (user : option Z)
     (uuids : option (list string)) (net_contains : string → string → bool)
     (hostname_group : string → string → option string)
     (w w0 : World) (prototype_list pass : list Prototype),
     Fetch.fresh_pass api controller user uuids net_contains hostname_group w prototype_list
     = Some (w0, pass) →
     NoDup (id <$> prototypes w0) →
     ∃ w',
       Fetch.check_for_deleted_devices api controller user uuids net_contains
         hostname_group w prototype_list = Some w'
       ∧ ∀ n p, prototypes w0 !! n = Some p →
           ∃ p', prototypes w' !! n = Some p'
             ∧ (sdn_controller p = sc_id controller →
                Fetch.key p ∉ Fetch.key <$> pass →
                p' = set_sync_status DELETED p ∧ sync_status p' = DELETED)
             ∧ (Fetch.key p ∈ Fetch.key <$> pass → p' = p)
             ∧ (sdn_controller p ≠ sc_id controller → p' = p))
  ∧ (let pass1 := Examples.fetch [Examples.reported "U1" "S1"; Examples.reported "U2" "S2"]
                    Examples.empty_world in
     let pass2 := pass1 ≫= Examples.fetch [Examples.reported "U1" "S1"] in
     let pass3 := pass2 ≫= Examples.fetch [Examples.reported "U1" "S1";
                                            Examples.reported "U2" "S2"] in
     Examples.statuses <$> pass1
     = Some [("U1", Some "S1", DISCOVERED); ("U2", Some "S2", DISCOVERED)]
     ∧ Examples.statuses <$> pass2
       = Some [("U1", Some "S1", DISCOVERED); ("U2", Some "S2", DELETED)]
     ∧ Examples.statuses <$> pass3
       = Some [("U1", Some "S1", DISCOVERED); ("U2", Some "S2", DISCOVERED)]).
Proof.
  split; [|by vm_compute].
  intros api controller user uuids net_contains hostname_group w w0 prototype_list pass
    Hpass Hnd.
  destruct (check_for_deleted_devices_rows api controller user uuids net_contains
              hostname_group w prototype_list w0 pass Hpass Hnd) as (w' & Hw' & Hrows).
  exists w'. split; [done|]. intros n p Hn.
  exists (Fetch.after_check controller (Fetch.key <$> pass) p).
  split; [by rewrite Hrows, list_lookup_fmap, Hn|].
  unfold Fetch.after_check. repeat split.
  - rewrite bool_decide_eq_true_2, bool_decide_eq_false_2 by done. done.
  - rewrite bool_decide_eq_true_2, bool_decide_eq_false_2 by done. done.
  - intros Hin. rewrite (bool_decide_eq_true_2 _ Hin). by rewrite andb_false_r.
  - intros Hne. by rewrite bool_decide_eq_false_2.
Qed.

Ltac by_decision :=
  match goal with
  | |- ?P => apply (@bool_decide_unpack P _); by vm_compute
  end.

Lemma C2_absent_keys_become_deleted_witness :
  ∃ w',
    Examples.check_for_deleted_devices [Examples.reported "U1" "S1"]
      Examples.two_devices_fetched [] = Some w'
    ∧ sync_status <$> prototypes w' !! 1%nat = Some DELETED.
Proof.
  destruct C2_absent_keys_become_deleted as [H _].
  destruct (Examples.fresh_pass [Examples.reported "U1" "S1"]
              Examples.two_devices_fetched []) as [[w0 pass]|] eqn:E;
    [|by vm_compute in E].
  destruct (H (Examples.api_reporting [Examples.reported "U1" "S1"])
              Examples.catalyst_center None None Examples.no_prefix Examples.no_group
              Examples.two_devices_fetched w0 [] pass E) as (w' & Hw' & Hrows).
  { vm_compute in E. injection E as <- <-.
    by_decision. }
  exists w'. split; [exact Hw'|].
  destruct (prototypes w0 !! 1%nat) as [p|] eqn:En.
  2:{ vm_compute in E. injection E as <- <-. by vm_compute in En. }
  destruct (Hrows 1%nat p En) as (p' & Hp' & Hdel & _).
  rewrite Hp'. simpl. f_equal. apply Hdel.
  - vm_compute in E. injection E as <- <-. vm_compute in En. by injection En as <-.
  - vm_compute in E. injection E as <- <-. vm_compute in En. injection En as <-.
    by_decision.
Defined.

(** ** The selection of the importer *)
(** Rows are told apart by their primary key. *)
Lemma prototype_by_id_unique w j p q :
  NoDup (id <$> prototypes w) →
  prototype_by_id w j = Some p → q ∈ prototypes w → id q = Some j → q = p.
Proof.
  intros Hnd Hp Hq Hid.
  apply prototype_by_id_elem_of in Hp as [Hp Hpid].
  apply list_elem_of_lookup in Hp as [a Ha].
  apply list_elem_of_lookup in Hq as [b Hb].
  assert (a = b) as ->.
  { eapply NoDup_lookup; [exact Hnd| |].
    - by rewrite list_lookup_fmap, Ha; simpl; rewrite Hpid.
    - by rewrite list_lookup_fmap, Hb; simpl; rewrite Hid. }
  congruence.
Qed.

Section Selection.
  Variable canonical_interface_name : string → string.
  Variable user : option Z.
  Variable log_all_errors : bool.
  Variable instantiate_components : World → Device → option World.
  Variable write_components : World → Prototype → Device → bool → option World.
  Hypothesis instantiate_components_prototypes :
    ∀ w d w', instantiate_components w d = Some w' → prototypes w' = prototypes w.
  Hypothesis write_components_prototypes :
    ∀ w p d b w', write_components w p d b = Some w' → prototypes w' = prototypes w.

  (** A [DELETED] prototype is not among the selected ones. *)
Lemma deleted_not_selected w prototype_id_list j p :
    NoDup (id <$> prototypes w) →
    prototype_by_id w j = Some p → sync_status p = DELETED →
    j ∉ Importer.prototype_object_list w prototype_id_list.
  Proof.
    intros Hnd Hp Hdel Hin. unfold Importer.prototype_object_list in Hin.
    apply list_elem_of_omap in Hin as (q & Hq & Hid).
    apply list_elem_of_In, List.filter_In in Hq as [Hq Hf].
    apply list_elem_of_In in Hq.
    rewrite (prototype_by_id_unique w j p q Hnd Hp Hq Hid) in Hf.
    rewrite (bool_decide_eq_true_2 _ Hdel) in Hf. by rewrite andb_false_r in Hf.
  Qed.

Lemma import_prototype_others state i j :
    j ≠ i →
    prototype_by_id
      (Importer.import_prototype canonical_interface_name user log_all_errors
         instantiate_components write_components state i).1 j
    = prototype_by_id state.1 j.
  Proof.
    intros Hj. destruct state as [w ml].
    destruct (prototype_by_id w i) as [selected|] eqn:E.
    - by apply (import_prototype_rows canonical_interface_name user log_all_errors
                  instantiate_components write_components
                  instantiate_components_prototypes write_components_prototypes
                  w ml i selected E).
    - unfold Importer.import_prototype. by rewrite E.
  Qed.

Lemma import_loop_others l state j :
    j ∉ l →
    prototype_by_id
      (foldl (Importer.import_prototype canonical_interface_name user log_all_errors
                instantiate_components write_components) state l).1 j
    = prototype_by_id state.1 j.
  Proof.
    revert state. induction l as [|i l IH]; intros state Hj; [done|].
    apply not_elem_of_cons in Hj as [Hne Hj]. simpl.
    by rewrite IH, import_prototype_others.
  Qed.

  (** The importer leaves the rows it did not select as they are, the
      [DELETED] ones among them. *)
Lemma import_keeps_deleted w prototype_id_list j p :
    NoDup (id <$> prototypes w) →
    prototype_by_id w j = Some p → sync_status p = DELETED →
    prototype_by_id
      (Importer.import_fetched_elements_in_netbox canonical_interface_name user
         log_all_errors instantiate_components write_components w prototype_id_list).1 j
    = Some p.
  Proof.
    intros Hnd Hp Hdel.
    pose proof (deleted_not_selected w prototype_id_list j p Hnd Hp Hdel) as Hsel.
    unfold Importer.import_fetched_elements_in_netbox.
    destruct (Importer.prototype_object_list w prototype_id_list) as [|i l] eqn:El.
    - done.
    - pose proof (import_loop_others (i :: l) (w, []) j Hsel) as Hloop.
      destruct (foldl _ (w, []) (i :: l)) as [w' ml'] eqn:Ef.
      simpl in Hloop. by rewrite <- Hp, <- Hloop.
  Qed.
End Selection.

(** ** The operator fields and the transitions of the status *)
(** C5: when a fetch pass processes a unit whose key is already stored,
    the stored row (the same primary key) keeps its values of
    [device_type], [primary_ip4], [site], [tenant] and [role], and each of
    its other fields has the value of the new candidate. *)
Theorem C5_refetch_keeps_operator_fields
    (controller : SdnController) (user : option Z)
    (net_contains : string → string → bool)
    (hostname_group : string → string → option string)
    (w w1 w2 : World) (prototype : Api.Device) (candidate existing saved : Prototype) (i : Z) :
  Fetch.build_candidate controller user net_contains hostname_group w prototype
  = Some (w1, candidate) →
  Fetch.find_existing w candidate = Some existing →
  id existing = Some i →
  Fetch.process_prototype controller user net_contains hostname_group w prototype
  = Some (w2, saved) →
  prototype_by_id w2 i = Some saved
  ∧ id saved = Some i
  ∧ (device_type saved = device_type existing
     ∧ primary_ip4 saved = primary_ip4 existing
     ∧ site saved = site existing
     ∧ tenant saved = tenant existing
     ∧ role saved = role existing)
  ∧ (serial saved = serial candidate
     ∧ sdn_hostname saved = sdn_hostname candidate
     ∧ sdn_management_ip saved = sdn_management_ip candidate
     ∧ matching_netbox_device saved = matching_netbox_device candidate
     ∧ related_netbox_device saved = related_netbox_device candidate
     ∧ sdn_device_type saved = sdn_device_type candidate
     ∧ sdn_role saved = sdn_role candidate
     ∧ stack_info saved = stack_info candidate
     ∧ stack_index saved = stack_index candidate
     ∧ raw_data saved = raw_data candidate
     ∧ sdn_controller saved = sdn_controller candidate
     ∧ instance_uuid saved = instance_uuid candidate
     ∧ family saved = family candidate
     ∧ score saved = score candidate
     ∧ sync_status saved = sync_status candidate).
Proof.
  intros Hc Hex Hid Hp.
  destruct (process_prototype_existing _ _ _ _ _ _ _ _ _ _ _ _ Hc Hex Hid Hp) as [-> Hrow].
  split; [done|]. by repeat split.
Qed.

Lemma C5_refetch_keeps_operator_fields_witness :
  ∃ w2 saved,
    Examples.process Examples.edited_world Examples.edge_unit = Some (w2, saved)
    ∧ (device_type saved, primary_ip4 saved, site saved, tenant saved, role saved)
      = (Some 99, Some 95, Some 98, Some 97, Some 96)
    ∧ (sdn_hostname saved, score saved, sync_status saved) = (Some "edge", 10, DISCOVERED).
Proof.
  destruct (Fetch.build_candidate Examples.catalyst_center None Examples.no_prefix
              Examples.no_group Examples.edited_world Examples.edge_unit)
    as [[w1 candidate]|] eqn:Hc; [|by vm_compute in Hc].
  destruct (Examples.process Examples.edited_world Examples.edge_unit)
    as [[w2 saved]|] eqn:Hp; [|by vm_compute in Hp].
  exists w2, saved. split; [done|].
  destruct (C5_refetch_keeps_operator_fields Examples.catalyst_center None
              Examples.no_prefix Examples.no_group Examples.edited_world w1 w2
              Examples.edge_unit candidate Examples.stored_prototype saved 1 Hc)
    as (_ & _ & (H1 & H2 & H3 & H4 & H5) & (_ & Hh & _ & _ & _ & _ & _ & _ & _ & _ & _ & _ & _ & Hs & Hst));
    [by (vm_compute in Hc; injection Hc as <- <-)|done|exact Hp|].
  rewrite H1, H2, H3, H4, H5, Hh, Hs, Hst.
  vm_compute in Hc. by injection Hc as <- <-.
Defined.

(** C1, as it is written, fails on the fetch pass: a stored prototype that
    is [IMPORTED] is [DISCOVERED] after the pass processed its unit again,
    and no validation ran (nothing was logged). *)
Lemma C1_counterexample :
  prototype_by_id Examples.edited_world 1 = Some Examples.stored_prototype
  ∧ sync_status Examples.stored_prototype = IMPORTED
  ∧ ∃ w2 saved,
      Examples.process Examples.edited_world Examples.edge_unit = Some (w2, saved)
      ∧ sync_status <$> prototype_by_id w2 1 = Some DISCOVERED
      ∧ log w2 = [].
Proof.
  split; [done|]. split; [done|].
  destruct (Examples.process Examples.edited_world Examples.edge_unit)
    as [[w2 saved]|] eqn:Hp; [|by vm_compute in Hp].
  exists w2, saved. split; [done|].
  vm_compute in Hp. by injection Hp as <- <-.
Qed.

(** C1: the transitions of [sync_status].  A fetch pass saves every
    prototype it processes as [DISCOVERED]; for a key that is already
    stored this resets the stored row to [DISCOVERED], whatever its status
    was.  The importer sets [IMPORTED] only after the validation passed,
    takes a prototype back to [DISCOVERED] only when the validation before
    the writes failed or the validation after them did, on the world the
    writes of this turn left and for the prototype as they saved it; it
    never sets [DELETED], leaves the other rows
    as they are and does not select the [DELETED] rows, which it leaves as
    they are.  The check for deleted devices sets [DELETED] on the
    controller's rows whose key is absent from the pass and changes no other
    status. *)
Theorem C1_status_transitions :
  (∀ (controller : SdnController) (user : option Z)
     (net_contains : string → string → bool)
     (hostname_group : string → string → option string)
     (w w2 : World) (prototype : Api.Device) (saved : Prototype),
     Fetch.process_prototype controller user net_contains hostname_group w prototype
     = Some (w2, saved) →
     sync_status saved = DISCOVERED ∧ saved ∈ prototypes w2)
  ∧ (∀ (controller : SdnController) (user : option Z)
       (net_contains : string → string → bool)
       (hostname_group : string → string → option string)
       (w w1 w2 : World) (prototype : Api.Device)
       (candidate existing saved : Prototype) (i : Z),
       Fetch.build_candidate controller user net_contains hostname_group w prototype
       = Some (w1, candidate) →
       Fetch.find_existing w candidate = Some existing →
       id existing = Some i →
       Fetch.process_prototype controller user net_contains hostname_group w prototype
       = Some (w2, saved) →
       sync_status <$> prototype_by_id w2 i = Some DISCOVERED)
  ∧ (∀ (canonical_interface_name : string → string) (user : option Z)
       (log_all_errors : bool)
       (instantiate_components : World → Device → option World)
       (write_components : World → Prototype → Device → bool → option World),
       (∀ w d w', instantiate_components w d = Some w' → prototypes w' = prototypes w) →
       (∀ w p d b w', write_components w p d b = Some w' → prototypes w' = prototypes w) →
       ∀ (w : World) (message_list : list Message) (i : Z) (selected : Prototype),
         prototype_by_id w i = Some selected →
         let checked :=
           Validator.validate_prototype canonical_interface_name
             (Validator.clean_prototype_interfaces canonical_interface_name w selected)
             selected message_list log_all_errors false in
         let result :=
           Importer.import_prototype canonical_interface_name user log_all_errors
             instantiate_components write_components (w, message_list) i in
         ∃ after,
           prototype_by_id result.1 i = Some after
           ∧ (checked.1.1 = false → sync_status after = DISCOVERED)
           ∧ (sync_status after = IMPORTED → sync_status selected ≠ IMPORTED →
              checked.1.1 = true)
           ∧ (sync_status after = DISCOVERED → sync_status selected ≠ DISCOVERED →
              checked.1.1 = false
              ∨ ∃ w3 saved,
                  Importer.written user instantiate_components write_components
                    checked.2 selected = Some (w3, saved)
                  ∧ prototype_by_id w3 i = Some saved
                  ∧ sync_status saved = IMPORTED
                  ∧ (Validator.validate_prototype canonical_interface_name w3 saved
                       checked.1.2 log_all_errors true).1.1 = false
                  ∧ result
                    = Importer.post_check canonical_interface_name user log_all_errors
                        w3 checked.1.2 i
                  ∧ after = set_sync_status DISCOVERED saved)
           ∧ (sync_status after = DELETED → sync_status selected = DELETED)
           ∧ ∀ j, j ≠ i → prototype_by_id result.1 j = prototype_by_id w j)
  ∧ (∀ (canonical_interface_name : string → string) (user : option Z)
       (log_all_errors : bool)
       (instantiate_components : World → Device → option World)
       (write_components : World → Prototype → Device → bool → option World),
       (∀ w d w', instantiate_components w d = Some w' → prototypes w' = prototypes w) →
       (∀ w p d b w', write_components w p d b = Some w' → prototypes w' = prototypes w) →
       ∀ (w : World) (prototype_id_list : list Z) (j : Z) (p : Prototype),
         NoDup (id <$> prototypes w) →
         prototype_by_id w j = Some p → sync_status p = DELETED →
         prototype_by_id
           (Importer.import_fetched_elements_in_netbox canonical_interface_name user
              log_all_errors instantiate_components write_components
              w prototype_id_list).1 j
         = Some p)
  ∧ (∀ (api : Api.Client) (controller : SdnController) (user : option Z)
       (uuids : option (list string)) (net_contains : string → string → bool)
       (hostname_group : string → string → option string)
       (w w0 : World) (prototype_list pass : list Prototype),
       Fetch.fresh_pass api controller user uuids net_contains hostname_group w
         prototype_list = Some (w0, pass) →
       NoDup (id <$> prototypes w0) →
       ∃ w',
         Fetch.check_for_deleted_devices api controller user uuids net_contains
           hostname_group w prototype_list = Some w'
         ∧ prototypes w'
           = Fetch.after_check controller (Fetch.key <$> pass) <$> prototypes w0).
Proof.
  split; [|split; [|split; [|split]]].
  - intros. by eapply process_prototype_discovered.
  - intros controller user net_contains hostname_group w w1 w2 prototype candidate
      existing saved i Hc Hex Hid Hp.
    destruct (process_prototype_existing _ _ _ _ _ _ _ _ _ _ _ _ Hc Hex Hid Hp) as [_ ->].
    simpl. f_equal. by eapply process_prototype_discovered.
  - intros canonical_interface_name user log_all_errors instantiate_components
      write_components Hinst Hwrite w message_list i selected Hsel checked result.
    destruct (import_prototype_rows canonical_interface_name user log_all_errors
                instantiate_components write_components Hinst Hwrite
                w message_list i selected Hsel) as (Hfalse & Htrue & Hothers).
    fold checked in Hfalse, Htrue. fold result in Hfalse, Htrue, Hothers.
    destruct (checked.1.1) eqn:Ev.
    + destruct (import_prototype_valid canonical_interface_name user log_all_errors
                  instantiate_components write_components w message_list i selected
                  Hsel Ev) as [Hres Hsel'].
      fold checked in Hres, Hsel'. fold result in Hres.
      pose proof (materialize_written canonical_interface_name user log_all_errors
                    instantiate_components write_components Hinst Hwrite
                    checked.2 checked.1.2 i selected Hsel') as Hw.
      rewrite <- Hres in Hw.
      destruct (Importer.written user instantiate_components write_components
                  checked.2 selected) as [[w3 saved]|] eqn:Ew.
      * destruct Hw as (Hpost & Hrow3 & Himp).
        destruct (post_check_row canonical_interface_name user log_all_errors
                    w3 checked.1.2 i saved Hrow3) as [Hrow _].
        rewrite <- Hpost in Hrow.
        destruct (Validator.validate_prototype canonical_interface_name w3 saved
                    checked.1.2 log_all_errors true).1.1 eqn:Ev3.
        -- exists saved. split; [done|].
           repeat split; try done; try (intros; congruence).
        -- exists (set_sync_status DISCOVERED saved). split; [done|].
           repeat split; try done.
           intros _ _. right. exists w3, saved. by repeat split.
      * destruct Hw as [Hrow|(d & Hrow)].
        -- exists selected. split; [done|].
           repeat split; try done; try (intros; congruence).
        -- eexists. split; [exact Hrow|].
           repeat split; try done; try (intros; simpl in *; congruence).
    + exists (set_sync_status DISCOVERED selected). split; [by apply Hfalse|].
      repeat split; try done; try (intros _ _; by left).
  - intros canonical_interface_name user log_all_errors instantiate_components
      write_components Hinst Hwrite w prototype_id_list j p Hnd Hp Hdel.
    by apply import_keeps_deleted.
  - intros. by eapply check_for_deleted_devices_rows.
Qed.

Lemma C1_status_transitions_witness :
  (Validator.validate_prototype Examples.same_name
     (Validator.clean_prototype_interfaces Examples.same_name
        (Examples.world_of (Examples.candidate_prototype (Some 7)))
        (Examples.candidate_prototype (Some 7)))
     (Examples.candidate_prototype (Some 7)) [] true false).1.1 = true.
Proof.
  destruct C1_status_transitions as (_ & _ & H & _).
  destruct (H Examples.same_name None true Examples.no_components Examples.no_writes)
    with (w := Examples.world_of (Examples.candidate_prototype (Some 7)))
         (message_list := @nil Message) (i := 1)
         (selected := Examples.candidate_prototype (Some 7))
    as (after & Hrow & _ & Himported & _).
  - intros w d w' [= <-]. reflexivity.
  - intros w p d b w' [= <-]. reflexivity.
  - reflexivity.
  - vm_compute in Hrow. injection Hrow as <-. by apply Himported.
Defined.

Import Interfaces.

(** ** The interface merge *)


Lemma getattr_setattr_same o attr v :
  attr ∈ merged_attributes → getattr (setattr o attr v) attr = v.
Proof.
  unfold merged_attributes. rewrite !elem_of_cons, elem_of_nil.
  intros [->|[->|[->|[]]]]; reflexivity.
Qed.

Lemma getattr_setattr_other o attr attr' v :
  attr ≠ attr' → getattr (setattr o attr v) attr' = getattr o attr'.
Proof.
  intros Hne. unfold getattr, setattr. simpl.
  repeat case_bool_decide; simplify_eq; done.
Qed.

(** One turn on another attribute leaves the attribute as it is and keeps
    the warnings. *)
Lemma merge_attr_other iface_name o ws attr' v' attr :
  attr' ≠ attr →
  getattr (merge_attr iface_name (o, ws) (attr', v')).1 attr = getattr o attr
  ∧ ∀ m, m ∈ ws → m ∈ (merge_attr iface_name (o, ws) (attr', v')).2.
Proof.
  intros Hne. unfold merge_attr.
  repeat case_match; simpl; rewrite ?getattr_setattr_other by done;
    (split; [done|]); intros m Hm; rewrite ?elem_of_app; auto.
Qed.

Lemma merge_attrs_other iface_name attrs o ws attr :
  attr ∉ attrs.*1 →
  getattr (foldl (merge_attr iface_name) (o, ws) attrs).1 attr = getattr o attr
  ∧ ∀ m, m ∈ ws → m ∈ (foldl (merge_attr iface_name) (o, ws) attrs).2.
Proof.
  revert o ws. induction attrs as [|[attr' v'] attrs IH]; intros o ws Hnot; [done|].
  rewrite fmap_cons in Hnot. cbn [fst foldl] in *.
  apply not_elem_of_cons in Hnot as [Hne Hnot].
  destruct (merge_attr_other iface_name o ws attr' v' attr) as [H1 H2]; [done|].
  destruct (merge_attr iface_name (o, ws) (attr', v')) as [o1 ws1].
  destruct (IH o1 ws1 Hnot) as [H3 H4]. split; [by rewrite H3|auto].
Qed.

(** The turn on the attribute itself. *)
Lemma merge_attr_same iface_name o ws attr v :
  attr ∈ merged_attributes →
  let result := merge_attr iface_name (o, ws) (attr, v) in
  (truthy (getattr o attr) = true → getattr o attr ≠ v →
     getattr result.1 attr = getattr o attr
     ∧ {| attribute := Py.capitalize attr; interface := iface_name |} ∈ result.2)
  ∧ (truthy (getattr o attr) = false → getattr result.1 attr = v).
Proof.
  intros Hin. unfold merge_attr. simpl. split.
  - intros Ht Hne. rewrite Ht, bool_decide_eq_false_2 by done. simpl.
    split; [done|]. apply elem_of_app. right. by left.
  - intros Hf. rewrite Hf. simpl. by apply getattr_setattr_same.
Qed.

Lemma merge_attrs_spec iface_name attrs o attr v :
  NoDup attrs.*1 →
  (attr, v) ∈ attrs →
  attr ∈ merged_attributes →
  let result := merge_attrs iface_name o attrs in
  (truthy (getattr o attr) = true → getattr o attr ≠ v →
     getattr result.1 attr = getattr o attr
     ∧ {| attribute := Py.capitalize attr; interface := iface_name |} ∈ result.2)
  ∧ (truthy (getattr o attr) = false → getattr result.1 attr = v).
Proof.
  unfold merge_attrs. generalize (@nil Mismatch). revert o.
  induction attrs as [|[attr' v'] attrs IH]; intros o ws Hnd Hin Hattr; [by inversion Hin|].
  rewrite fmap_cons in Hnd. cbn [fst] in Hnd. apply NoDup_cons in Hnd as [Hnot Hnd].
  apply elem_of_cons in Hin as [[= <- <-]|Hin].
  - cbn [foldl]. destruct (merge_attr_same iface_name o ws attr v Hattr) as [H1 H2].
    destruct (merge_attr iface_name (o, ws) (attr, v)) as [o1 ws1].
    destruct (merge_attrs_other iface_name attrs o1 ws1 attr Hnot) as [H3 H4].
    split.
    + intros Ht Hne. destruct (H1 Ht Hne) as [? ?]. split; [by rewrite H3|auto].
    + intros Hf. rewrite H3. auto.
  - assert (Hne : attr' ≠ attr).
    { intros ->. apply Hnot. apply list_elem_of_fmap. by exists (attr, v). }
    cbn [foldl]. destruct (merge_attr_other iface_name o ws attr' v' attr Hne) as [H1 _].
    destruct (merge_attr iface_name (o, ws) (attr', v')) as [o1 ws1].
    cbn [fst] in H1. rewrite <- H1. by apply IH.
Qed.

Lemma port_mode_getattr iface_data o attr :
  getattr (port_mode iface_data o) attr = getattr o attr.
Proof. unfold port_mode. by repeat case_match. Qed.

Lemma iface_attrs_keys iface_data attrs :
  iface_attrs iface_data = Some attrs →
  attrs.*1 = merged_attributes
  ∧ ∃ reported, Api.duplex iface_data = Some reported
      ∧ ("duplex", of_option (iface_duplex reported)) ∈ attrs.
Proof.
  unfold iface_attrs. intros H.
  destruct (Api.duplex iface_data) as [reported|]; [|done]. simpl in H.
  destruct (if Py.truthy (Api.speed iface_data) then _ else _) as [s|]; [|done].
  simpl in H. injection H as <-. split; [done|].
  exists reported. split; [done|]. set_solver.
Qed.

Lemma iface_duplex_spec reported :
  match iface_duplex reported with
  | Some choice =>
      choice ∈ duplex_choices ∧ Py.contains choice (Py.lower reported) = true
  | None => ∀ choice, choice ∈ duplex_choices →
                      Py.contains choice (Py.lower reported) = false
  end.
Proof.
  unfold iface_duplex. destruct (List.find _ duplex_choices) as [choice|] eqn:E.
  - apply List.find_some in E as [H1 H2]. split; [by apply list_elem_of_In|done].
  - intros choice Hin. apply list_elem_of_In in Hin.
    by apply (List.find_none _ _ E).
Qed.



(** * More of the code *)

(** ** Runs of characters and what the matcher does on them *)

Lemma str_app (a b : list ascii) : Py.str (a ++ b) = Py.str a +:+ Py.str b.
Proof.
  rewrite <- (str_chars (Py.str a +:+ Py.str b)). by rewrite chars_app, !chars_str.
Qed.

Lemma take_drop_while (p : ascii → bool) (l : list ascii) :
  Py.take_while p l ++ Chars.drop_while p l = l.
Proof. induction l as [|c l IH]; simpl; [done|]. destruct (p c); simpl; congruence. Qed.

Lemma take_while_all (p : ascii → bool) (l : list ascii) :
  forallb p (Py.take_while p l) = true.
Proof. induction l as [|c l IH]; simpl; [done|]. destruct (p c) eqn:E; simpl; [by rewrite E|done]. Qed.

Lemma drop_while_head (p : ascii → bool) (l : list ascii) :
  match Chars.drop_while p l with c :: _ => p c = false | [] => True end.
Proof. induction l as [|c l IH]; simpl; [done|]. destruct (p c) eqn:E; [done|by simpl]. Qed.

Lemma drop_while_length (p : ascii → bool) (l : list ascii) :
  (length (Chars.drop_while p l) ≤ length l)%nat.
Proof. induction l as [|c l IH]; simpl; [done|]. destruct (p c); simpl; lia. Qed.

Lemma take_length_drop_while (p : ascii → bool) (l : list ascii) :
  take (length l - length (Chars.drop_while p l)) l = Py.take_while p l.
Proof.
  rewrite <- (take_drop_while p l) at 1 3. rewrite length_app, Nat.add_sub.
  by rewrite take_app_length.
Qed.

Lemma take_while_app_stop (p : ascii → bool) (run rest : list ascii) :
  forallb p run = true →
  match rest with c :: _ => p c = false | [] => True end →
  Py.take_while p (run ++ rest) = run ∧ Chars.drop_while p (run ++ rest) = rest.
Proof.
  intros Hrun Hrest. induction run as [|c run IH]; simpl in *.
  - destruct rest as [|c rest]; simpl; [done|]. by rewrite Hrest.
  - apply andb_prop in Hrun as [-> Hrun]. destruct (IH Hrun) as [-> ->]. done.
Qed.

Lemma take_while_forall (p : ascii → bool) (l : list ascii) :
  forallb p l = true → Py.take_while p l = l.
Proof.
  intros H. destruct (take_while_app_stop p l [] H I) as [Ht _].
  by rewrite app_nil_r in Ht.
Qed.

(** A greedy repetition stops at the end of the longest run, when the
    continuation accepts there or refuses every place inside the run. *)
Lemma star_greedy_exact {A} (p : ascii → bool) (s : list ascii)
    (k : list ascii → option A) :
  is_Some (k (Chars.drop_while p s)) ∨ (∀ c s', p c = true → k (c :: s') = None) →
  Re.star true p s k = k (Chars.drop_while p s).
Proof.
  intros H. induction s as [|c s IH]; simpl; [done|].
  destruct (p c) eqn:E; [|done]. simpl in H. rewrite E in H.
  rewrite (IH H). destruct H as [[r Hr]|H].
  - by rewrite Hr.
  - rewrite (H c s E). by destruct (k _).
Qed.

Lemma plus_greedy_exact {A} ic (p : ascii → bool) (s : list ascii) cs
    (k : list ascii → Re.captures → option A) :
  is_Some (k (Chars.drop_while p s) cs) ∨ (∀ c s', p c = true → k (c :: s') cs = None) →
  Re.go ic (Re.Plus true p) s cs k
  = match s with
    | c :: _ => if p c then k (Chars.drop_while p s) cs else None
    | [] => None
    end.
Proof.
  intros H. destruct s as [|c s]; simpl; [done|].
  destruct (p c) eqn:E; [|done]. simpl in H. rewrite E in H.
  by apply (star_greedy_exact p s (λ s'', k s'' cs)).
Qed.

Lemma group_plus_greedy_exact {A} ic n (p : ascii → bool) (s : list ascii) cs
    (k : list ascii → Re.captures → option A) :
  is_Some (k (Chars.drop_while p s) ((n, Py.str (Py.take_while p s)) :: cs))
  ∨ (∀ c s' cs', p c = true → k (c :: s') cs' = None) →
  Re.go ic (Re.Group n (Re.Plus true p)) s cs k
  = match s with
    | c :: _ =>
        if p c then k (Chars.drop_while p s) ((n, Py.str (Py.take_while p s)) :: cs)
        else None
    | [] => None
    end.
Proof.
  intros H.
  change (Re.go ic (Re.Group n (Re.Plus true p)) s cs k)
    with (Re.go ic (Re.Plus true p) s cs
            (λ s' cs', k s' ((n, Py.str (take (length s - length s') s)) :: cs'))).
  rewrite plus_greedy_exact.
  - by rewrite take_length_drop_while.
  - rewrite take_length_drop_while. destruct H as [H|H]; [by left|right].
    intros c s' Hc. by apply H.
Qed.

(** The matcher calls its continuation on suffixes of the input only. *)
Lemma star_none {A} g (p : ascii → bool) (s : list ascii) (k : list ascii → option A) :
  (∀ s', s' `suffix_of` s → k s' = None) → Re.star g p s k = None.
Proof.
  induction s as [|c s IH]; intros H; simpl.
  - by apply H.
  - assert (Hs : Re.star g p s k = None).
    { apply IH. intros s' Hs'. apply H. by apply suffix_cons_r. }
    rewrite Hs, (H (c :: s)) by done. by destruct (p c), g.
Qed.

Lemma go_none {A} ic (r : Re.regex) :
  ∀ (s : list ascii) cs (k : list ascii → Re.captures → option A),
    (∀ s' cs', s' `suffix_of` s → k s' cs' = None) → Re.go ic r s cs k = None.
Proof.
  induction r as [|c|p|r1 IH1 r2 IH2|r1 IH1 r2 IH2|g p|g p|r IH|n r IH];
    intros s cs k H; simpl.
  - by apply H.
  - destruct s as [|x s]; [done|]. destruct (Re.lit_eq ic c x); [|done].
    apply H. by apply suffix_cons_r.
  - destruct s as [|x s]; [done|]. destruct (p x); [|done].
    apply H. by apply suffix_cons_r.
  - apply IH1. intros s' cs' Hs'. apply IH2. intros s'' cs'' Hs''.
    apply H. by etrans.
  - by rewrite IH1, IH2.
  - apply star_none. intros s' Hs'. by apply H.
  - destruct s as [|x s]; [done|]. destruct (p x); [|done].
    apply star_none. intros s' Hs'. apply H. by apply suffix_cons_r.
  - rewrite IH by done. by apply H.
  - apply IH. intros s' cs' Hs'. by apply H.
Qed.

Lemma search_chars_none ic (r : Re.regex) (s : list ascii) :
  (∀ s', s' `suffix_of` s → Re.match_chars ic r s' = None) →
  Re.search_chars ic r s = None.
Proof.
  induction s as [|c s IH]; intros H; simpl.
  - by rewrite H.
  - rewrite H by done. apply IH. intros s' Hs'. apply H. by apply suffix_cons_r.
Qed.

Lemma suffix_forallb (p : ascii → bool) (s' s : list ascii) :
  s' `suffix_of` s → forallb p s = true → forallb p s' = true.
Proof.
  intros [pre ->] H. rewrite forallb_app in H. by apply andb_prop in H as [_ ?].
Qed.

(** A run of digits is needed where the pattern asks for one. *)
Lemma go_digits_none {A} ic (s : list ascii) cs
    (k : list ascii → Re.captures → option A) :
  forallb Re.D s = true → Re.go ic (Re.Plus true Re.d) s cs k = None.
Proof.
  intros H. destruct s as [|c s]; simpl; [done|].
  simpl in H. apply andb_prop in H as [H _]. unfold Re.D in H.
  unfold Re.d. by destruct (Py.is_digit c).
Qed.

(** ** [utils.py]: names without digits or without a slash *)

Lemma chassis_pattern_none (s : list ascii) :
  forallb Re.D s = true → Re.search_chars true Utils.chassis_pattern s = None.
Proof.
  intros H. apply search_chars_none. intros s0 Hs0.
  unfold Re.match_chars, Utils.chassis_pattern. rewrite go_seq.
  apply go_none. intros s1 cs1 Hs1. rewrite go_seq.
  apply go_none. intros s2 cs2 Hs2.
  change (Re.go true (Re.Group 2 (Re.Plus true Re.d)) s2 cs2 ?k)
    with (Re.go true (Re.Plus true Re.d) s2 cs2
            (λ s' cs', k s' ((2%nat, Py.str (take (length s2 - length s') s2)) :: cs'))).
  apply go_digits_none.
  eapply suffix_forallb; [|exact H]. by repeat (etrans; [eassumption|]).
Qed.

Lemma slot_pattern_none (s : list ascii) :
  forallb Re.D s = true → Re.search_chars true Utils.slot_pattern s = None.
Proof.
  intros H. apply search_chars_none. intros s0 Hs0.
  unfold Re.match_chars, Utils.slot_pattern. rewrite go_seq.
  apply go_none. intros s1 cs1 Hs1. rewrite go_seq.
  apply go_none. intros s2 cs2 Hs2.
  change (Re.go true (Re.Group 2 (Re.Plus true Re.d)) s2 cs2 ?k)
    with (Re.go true (Re.Plus true Re.d) s2 cs2
            (λ s' cs', k s' ((2%nat, Py.str (take (length s2 - length s') s2)) :: cs'))).
  apply go_digits_none.
  eapply suffix_forallb; [|exact H]. by repeat (etrans; [eassumption|]).
Qed.

Lemma port_pattern_none (s : list ascii) :
  forallb Re.D s = true → Re.search_chars false Utils.port_pattern s = None.
Proof.
  intros H. apply search_chars_none. intros s0 Hs0.
  unfold Re.match_chars, Utils.port_pattern. rewrite go_seq.
  apply go_none. intros s1 cs1 Hs1. rewrite go_seq.
  apply go_digits_none.
  eapply suffix_forallb; [|exact H]. by etrans.
Qed.

Lemma interface_pattern_no_digit (s : list ascii) :
  forallb Re.D s = true → Re.search_chars false Utils.interface_pattern s = None.
Proof.
  intros H. apply search_chars_none. intros s0 Hs0.
  unfold Re.match_chars, Utils.interface_pattern. rewrite go_seq.
  apply go_none. intros s1 cs1 Hs1. rewrite go_seq.
  change (Re.go false (Re.Group 1 (Re.Plus true Re.d)) s1 cs1 ?k)
    with (Re.go false (Re.Plus true Re.d) s1 cs1
            (λ s' cs', k s' ((1%nat, Py.str (take (length s1 - length s') s1)) :: cs'))).
  apply go_digits_none.
  eapply suffix_forallb; [|exact H]. by etrans.
Qed.

Lemma interface_pattern_no_slash (s : list ascii) :
  "/"%char ∉ s → Re.search_chars false Utils.interface_pattern s = None.
Proof.
  intros H. apply search_chars_none. intros s0 Hs0.
  unfold Re.match_chars, Utils.interface_pattern. rewrite go_seq.
  apply go_none. intros s1 cs1 Hs1. rewrite go_seq.
  apply go_none. intros s2 cs2 Hs2. rewrite go_seq.
  destruct s2 as [|c s2]; [done|]. simpl. unfold Re.lit_eq.
  rewrite bool_decide_eq_false_2; [done|]. intros <-. apply H.
  assert (Hs : ("/"%char :: s2) `suffix_of` s) by (by repeat (etrans; [eassumption|])).
  destruct Hs as [pre ->]. apply elem_of_app. right. by left.
Qed.

(** X1: a name without any digit has no chassis number and no slot or
    module number, whatever the form asked for. *)
Theorem X1_no_digit_no_number (name : string) (display_as_string : bool) :
  Py.all Re.D name = true →
  Utils.extract_chassis_number name display_as_string = None
  ∧ Utils.extract_slot_or_module_number name display_as_string = None.
Proof.
  unfold Py.all. intros H.
  unfold Utils.extract_chassis_number, Utils.extract_slot_or_module_number, Re.search.
  by rewrite chassis_pattern_none, slot_pattern_none, port_pattern_none.
Qed.

Lemma X1_no_digit_no_number_witness :
  Utils.extract_chassis_number "Supervisor" true = None
  ∧ Utils.extract_slot_or_module_number "Supervisor" true = None.
Proof. apply (X1_no_digit_no_number "Supervisor" true). reflexivity. Defined.

(** X2: an interface name without a slash, or without a digit, is valid
    exactly when it does not contain "appgigabitethernet". *)
Theorem X2_plain_names_are_valid (interface_name : string) :
  "/"%char ∉ Py.chars interface_name ∨ Py.all Re.D interface_name = true →
  Utils.is_valid_interface interface_name
  = negb (Py.contains "appgigabitethernet" (Py.lower interface_name)).
Proof.
  intros H. unfold Utils.is_valid_interface, Re.search.
  destruct (Py.contains _ _); [done|].
  destruct H as [H|H].
  - by rewrite interface_pattern_no_slash.
  - by rewrite interface_pattern_no_digit.
Qed.

Lemma X2_plain_names_are_valid_witness :
  Utils.is_valid_interface "Vlan100" = true.
Proof.
  apply (X2_plain_names_are_valid "Vlan100"). left.
  apply (@bool_decide_unpack ("/"%char ∉ Py.chars "Vlan100") _). by vm_compute.
Defined.

(** ** The interface name rule on every name *)

Lemma take_while_nil_iff (p : ascii → bool) (s : list ascii) :
  Py.take_while p s = [] ↔ match s with c :: _ => p c = false | [] => True end.
Proof.
  destruct s as [|c s]; simpl; [done|]. destruct (p c); split; done.
Qed.

(** The match of [\D+(\d+)/(\d+)] at the start of a name. *)
Lemma interface_pattern_at (s : list ascii) :
  Re.match_chars false Utils.interface_pattern s
  = (λ numbers, [(2%nat, Py.str numbers.2); (1%nat, Py.str numbers.1)])
      <$> Validity.numbers_at s.
Proof.
  unfold Re.match_chars, Utils.interface_pattern, Validity.numbers_at.
  rewrite go_seq, plus_greedy_exact.
  2:{ right. intros c s' Hc. rewrite go_seq. simpl.
      unfold Re.D in Hc. unfold Re.d. by destruct (Py.is_digit c). }
  destruct s as [|c s]; [done|].
  destruct (Re.D c) eqn:Ec.
  2:{ simpl Py.take_while. rewrite Ec.
      rewrite (bool_decide_eq_false_2 (@nil ascii ≠ [])) by (intros H; by apply H).
      simpl. by repeat case_match. }
  assert (Hprefix : Py.take_while Re.D (c :: s) ≠ []).
  { simpl. by rewrite Ec. }
  rewrite (bool_decide_eq_true_2 _ Hprefix).
  set (s1 := Chars.drop_while Re.D (c :: s)). clearbody s1.
  rewrite go_seq, group_plus_greedy_exact.
  2:{ right. intros x s' cs' Hx. rewrite go_seq. simpl. unfold Re.lit_eq.
      rewrite bool_decide_eq_false_2; [done|]. intros <-. done. }
  destruct s1 as [|x s1]; [done|].
  destruct (Re.d x) eqn:Ex.
  2:{ simpl Py.take_while. rewrite Ex.
      rewrite (bool_decide_eq_false_2 (@nil ascii ≠ [])) by (intros H; by apply H).
      simpl. by repeat case_match. }
  assert (Hfirst : Py.take_while Re.d (x :: s1) ≠ []).
  { simpl. by rewrite Ex. }
  rewrite (bool_decide_eq_true_2 _ Hfirst).
  set (first := Py.take_while Re.d (x :: s1)). clearbody first.
  set (s2 := Chars.drop_while Re.d (x :: s1)). clearbody s2.
  rewrite go_seq.
  destruct s2 as [|y s2]; [done|].
  destruct (decide (y = "/"%char)) as [->|Hy].
  - rewrite go_lit_same, group_plus_greedy_exact.
    2:{ left. by eexists. }
    destruct s2 as [|z s2]; [done|]. simpl.
    destruct (Re.d z) eqn:Ez; [|done]. done.
  - simpl. unfold Re.lit_eq. rewrite bool_decide_eq_false_2 by done.
    by destruct y as [[] [] [] [] [] [] [] []].
Qed.

Lemma interface_pattern_search (s : list ascii) :
  Re.search_chars false Utils.interface_pattern s
  = (λ numbers, [(2%nat, Py.str numbers.2); (1%nat, Py.str numbers.1)])
      <$> Validity.first_numbers s.
Proof.
  induction s as [|c s IH]; cbn [Re.search_chars Validity.first_numbers];
    rewrite interface_pattern_at.
  - by destruct (Validity.numbers_at []).
  - destruct (Validity.numbers_at (c :: s)); [done|]. exact IH.
Qed.

Lemma is_valid_interface_numbers (interface_name : string) :
  Py.contains "appgigabitethernet" (Py.lower interface_name) = false →
  Utils.is_valid_interface interface_name
  = match Validity.first_numbers (Py.chars interface_name) with
    | Some (first, second) =>
        (Py.digits_value first =? 0) || (Py.digits_value second =? 0)
    | None => true
    end.
Proof.
  intros Happ. unfold Utils.is_valid_interface, Re.search. rewrite Happ.
  rewrite interface_pattern_search.
  destruct (Validity.first_numbers _) as [[first second]|]; [|done]. simpl.
  unfold Utils.int_group. simpl. rewrite !chars_str.
  by destruct (Py.digits_value first =? 0).
Qed.

(** What [numbers_at] finds is a place as the words say. *)
Lemma numbers_at_Some (s first second : list ascii) :
  Validity.numbers_at s = Some (first, second) →
  ∃ prefix rest,
    s = prefix ++ first ++ "/"%char :: second ++ rest
    ∧ prefix ≠ [] ∧ forallb Re.D prefix = true
    ∧ first ≠ [] ∧ forallb Re.d first = true
    ∧ second ≠ [] ∧ forallb Re.d second = true
    ∧ match rest with c :: _ => Re.d c = false | [] => True end.
Proof.
  unfold Validity.numbers_at.
  pose proof (take_drop_while Re.D s) as H1.
  pose proof (take_drop_while Re.d (Chars.drop_while Re.D s)) as H2.
  destruct (Chars.drop_while Re.d (Chars.drop_while Re.D s)) as [|x s2] eqn:E2; [done|].
  destruct (decide (x = "/"%char)) as [->|Hx]; [|by repeat case_match].
  pose proof (take_drop_while Re.d s2) as H3.
  destruct (bool_decide (Py.take_while Re.D s ≠ [])) eqn:Ep; [|done].
  destruct (bool_decide (Py.take_while Re.d (Chars.drop_while Re.D s) ≠ [])) eqn:Ef; [|done].
  destruct (bool_decide (Py.take_while Re.d s2 ≠ [])) eqn:Es; [|done].
  simpl. intros [= <- <-].
  apply bool_decide_eq_true in Ep, Ef, Es.
  exists (Py.take_while Re.D s), (Chars.drop_while Re.d s2).
  split; [by rewrite H3, H2, H1|].
  repeat split; try done; try apply take_while_all. apply drop_while_head.
Qed.

Lemma numbers_at_place (prefix first second rest : list ascii) :
  prefix ≠ [] → forallb Re.D prefix = true →
  first ≠ [] → forallb Re.d first = true →
  second ≠ [] → forallb Re.d second = true →
  is_Some (Validity.numbers_at (prefix ++ first ++ "/"%char :: second ++ rest)).
Proof.
  intros Hp HpD Hf Hfd Hs Hsd. unfold Validity.numbers_at.
  destruct first as [|f first]; [done|]. simpl in Hfd. apply andb_prop in Hfd as [Hf0 Hfd].
  cbn [app].
  destruct (take_while_app_stop Re.D prefix (f :: first ++ "/"%char :: second ++ rest) HpD)
    as [-> ->].
  { unfold Re.D. unfold Re.d in Hf0. by rewrite Hf0. }
  destruct (take_while_app_stop Re.d (f :: first) ("/"%char :: second ++ rest))
    as [Ht Hd]; [by simpl; rewrite Hf0|done|].
  simpl app in Ht, Hd. rewrite Ht, Hd.
  destruct second as [|c second]; [done|]. simpl in Hsd. apply andb_prop in Hsd as [Hc _].
  simpl. rewrite Hc.
  rewrite !bool_decide_eq_true_2 by done. by eexists.
Qed.

Lemma first_numbers_Some (s first second : list ascii) :
  Validity.first_numbers s = Some (first, second) →
  ∃ before prefix rest,
    s = before ++ prefix ++ first ++ "/"%char :: second ++ rest
    ∧ prefix ≠ [] ∧ forallb Re.D prefix = true
    ∧ first ≠ [] ∧ forallb Re.d first = true
    ∧ second ≠ [] ∧ forallb Re.d second = true
    ∧ match rest with c :: _ => Re.d c = false | [] => True end
    ∧ ∀ before1 before2, before = before1 ++ before2 → before2 ≠ [] →
        Validity.numbers_at (before2 ++ prefix ++ first ++ "/"%char :: second ++ rest)
        = None.
Proof.
  induction s as [|c s IH]; cbn [Validity.first_numbers].
  - destruct (Validity.numbers_at []) as [numbers|] eqn:E; [|done].
    intros [= ->]. apply numbers_at_Some in E as (prefix & rest & H).
    exists [], prefix, rest. simpl.
    destruct H as (H0 & H1 & H2 & H3 & H4 & H5 & H6 & H7).
    repeat split; try done.
    intros before1 before2 Hb Hne. by destruct before1, before2.
  - destruct (Validity.numbers_at (c :: s)) as [numbers|] eqn:E.
    + intros [= ->]. apply numbers_at_Some in E as (prefix & rest & H).
      exists [], prefix, rest. simpl.
      destruct H as (H0 & H1 & H2 & H3 & H4 & H5 & H6 & H7).
      repeat split; try done.
      intros before1 before2 Hb Hne. by destruct before1, before2.
    + intros H. apply IH in H
        as (before & prefix & rest & -> & H1 & H2 & H3 & H4 & H5 & H6 & H7 & H8).
      exists (c :: before), prefix, rest.
      repeat split; try done.
      intros before1 before2 Hb Hne.
      destruct before1 as [|c1 before1].
      * simpl in Hb. subst before2. exact E.
      * injection Hb as <- Hb. by eapply H8.
Qed.

Lemma first_numbers_place (before prefix first second rest : list ascii) :
  prefix ≠ [] → forallb Re.D prefix = true →
  first ≠ [] → forallb Re.d first = true →
  second ≠ [] → forallb Re.d second = true →
  is_Some (Validity.first_numbers (before ++ prefix ++ first ++ "/"%char :: second ++ rest)).
Proof.
  intros Hp HpD Hf Hfd Hs Hsd.
  destruct (numbers_at_place prefix first second rest Hp HpD Hf Hfd Hs Hsd)
    as [numbers Hat].
  induction before as [|c before IH].
  - simpl app at 1.
    destruct (prefix ++ first ++ "/"%char :: second ++ rest) as [|x l] eqn:E;
      cbn [Validity.first_numbers]; rewrite Hat; done.
  - simpl app. cbn [Validity.first_numbers].
    destruct (Validity.numbers_at (c :: _)); [done|exact IH].
Qed.
(** C8: [is_valid_interface] refuses every name that contains
    "appgigabitethernet", whatever the case of its letters.  Any other name
    is judged on the two numbers of the leftmost place where one or more
    characters that are no digits are followed by a number, a slash and a
    number: it is valid exactly when there is no such place, or the first of
    the two numbers is 0 or, failing that, the second is 0.  The place
    [first_numbers] finds is such a place and none begins before it; it
    finds one whenever there is one.  So on a name that is a prefix without
    digits, a number, a slash and a second number the answer is given by
    these two numbers.  "AppGigabitEthernet1/0/1" is refused,
    "GigabitEthernet0/1" and "TenGigabitEthernet1/0/3" are accepted and
    "TenGigabitEthernet2/1/4" is refused. *)
Theorem C8_is_valid_interface_rule :
  (∀ name : string,
     Py.contains "appgigabitethernet" (Py.lower name) = true →
     Utils.is_valid_interface name = false)
  ∧ (∀ name : string,
       Py.contains "appgigabitethernet" (Py.lower name) = false →
       Utils.is_valid_interface name
       = match Validity.first_numbers (Py.chars name) with
         | Some (first, second) =>
             (Py.digits_value first =? 0) || (Py.digits_value second =? 0)
         | None => true
         end)
  ∧ (∀ s first second : list ascii,
       Validity.first_numbers s = Some (first, second) →
       ∃ before prefix rest,
         s = before ++ prefix ++ first ++ "/"%char :: second ++ rest
         ∧ prefix ≠ [] ∧ forallb Re.D prefix = true
         ∧ first ≠ [] ∧ forallb Re.d first = true
         ∧ second ≠ [] ∧ forallb Re.d second = true
         ∧ match rest with c :: _ => Re.d c = false | [] => True end
         ∧ ∀ before1 before2, before = before1 ++ before2 → before2 ≠ [] →
             Validity.numbers_at
               (before2 ++ prefix ++ first ++ "/"%char :: second ++ rest)
             = None)
  ∧ (∀ before prefix first second rest : list ascii,
       prefix ≠ [] → forallb Re.D prefix = true →
       first ≠ [] → forallb Re.d first = true →
       second ≠ [] → forallb Re.d second = true →
       is_Some (Validity.numbers_at (prefix ++ first ++ "/"%char :: second ++ rest))
       ∧ is_Some (Validity.first_numbers
                    (before ++ prefix ++ first ++ "/"%char :: second ++ rest)))
  ∧ (∀ prefix first second rest : string,
       prefix ≠ "" → Py.all Re.D prefix = true →
       first ≠ "" → Py.all Re.d first = true →
       second ≠ "" → Py.all Re.d second = true →
       Py.head_in Re.d rest = false →
       Py.contains "appgigabitethernet"
         (Py.lower (prefix +:+ first +:+ "/" +:+ second +:+ rest)) = false →
       Utils.is_valid_interface (prefix +:+ first +:+ "/" +:+ second +:+ rest)
       = ((Py.digits_value (Py.chars first) =? 0)
          || (Py.digits_value (Py.chars second) =? 0)))
  ∧ Utils.is_valid_interface "AppGigabitEthernet1/0/1" = false
  ∧ Utils.is_valid_interface "GigabitEthernet0/1" = true
  ∧ Utils.is_valid_interface "TenGigabitEthernet1/0/3" = true
  ∧ Utils.is_valid_interface "TenGigabitEthernet2/1/4" = false.
Proof.
  split; [|split; [|split; [|split; [|split; [|by repeat split]]]]].
  - intros name H. unfold Utils.is_valid_interface. by rewrite H.
  - apply is_valid_interface_numbers.
  - apply first_numbers_Some.
  - intros before prefix first second rest Hp HpD Hf Hfd Hs Hsd. split.
    + by apply numbers_at_place.
    + by apply first_numbers_place.
  - intros prefix first second rest Hp HpD Hf Hfd Hs Hsd Hrest Happ.
    unfold Utils.is_valid_interface. rewrite Happ. unfold Re.search.
    rewrite !chars_app. change (Py.chars "/") with ["/"%char]. simpl app.
    destruct (chars_nonempty _ Hp) as (cp & lp & Ep).
    destruct (chars_nonempty _ Hf) as (cf & lf & Ef).
    destruct (chars_nonempty _ Hs) as (c2 & l2 & E2).
    unfold Py.all in *. unfold Py.head_in in Hrest.
    rewrite interface_pattern_match.
    + unfold Utils.int_group. simpl Re.group. simpl default.
      rewrite !chars_str. by destruct (_ =? 0).
    + by rewrite Ep.
    + done.
    + by rewrite Ef.
    + done.
    + by rewrite E2.
    + done.
    + destruct (Py.chars rest); [done|]. exact Hrest.
Qed.

Lemma C8_is_valid_interface_rule_witness :
  Utils.is_valid_interface "TenGigabitEthernet12/0/3" = true.
Proof.
  destruct C8_is_valid_interface_rule as (_ & _ & _ & _ & H & _).
  apply (H "TenGigabitEthernet" "12" "0" "/3"); by vm_compute.
Defined.

(** C8, as it is written, fails on names that do not begin with a
    character that is no digit.  "2/1" has the two components 2 and 1, none
    of them 0, and is valid: no character precedes the first number, so
    the rule finds no place to judge.  "0/1/4" has 0 as its first component
    and is not valid: the numbers judged are 1 and 4. *)
Lemma C8_counterexample :
  Py.split "/" "2/1" = ["2"; "1"]
  ∧ Py.int "2" = Some 2 ∧ Py.int "1" = Some 1
  ∧ Utils.is_valid_interface "2/1" = true
  ∧ Py.split "/" "0/1/4" = ["0"; "1"; "4"]
  ∧ Py.int "0" = Some 0
  ∧ Validity.first_numbers (Py.chars "0/1/4") = Some (Py.chars "1", Py.chars "4")
  ∧ Utils.is_valid_interface "0/1/4" = false.
Proof. by vm_compute. Qed.

(** ** [utils.py]: the type of an interface name and its intermediate form *)

Lemma head_in_str (p : ascii → bool) (l : list ascii) :
  Py.head_in p (Py.str l) = match l with c :: _ => p c | [] => false end.
Proof. unfold Py.head_in. by rewrite chars_str. Qed.

Lemma all_str (p : ascii → bool) (l : list ascii) :
  Py.all p (Py.str l) = forallb p l.
Proof. unfold Py.all. by rewrite chars_str. Qed.

Lemma extract_interface_type_run (name : string) :
  Validator.extract_interface_type name
  = Py.str (Py.take_while Chars.is_letter_or_hyphen (Py.chars name)).
Proof.
  unfold Validator.extract_interface_type, Re.rmatch, Re.match_chars,
    Validator.interface_type_pattern.
  change (λ c : ascii, Py.is_alpha c || bool_decide (c = "-"%char))
    with Chars.is_letter_or_hyphen.
  rewrite group_plus_greedy_exact by (by left).
  destruct (Py.chars name) as [|c l]; [done|]. simpl.
  by destruct (Chars.is_letter_or_hyphen c).
Qed.

(** X3: the type of an interface name is its longest prefix made of letters
    and hyphens: the name is the type followed by a rest that does not
    begin with a letter or a hyphen, and the type of a type is itself. *)
Theorem X3_extract_interface_type_is_leading_run (name : string) :
  ∃ rest : string,
    name = Validator.extract_interface_type name +:+ rest
    ∧ Py.all Chars.is_letter_or_hyphen (Validator.extract_interface_type name) = true
    ∧ Py.head_in Chars.is_letter_or_hyphen rest = false
    ∧ Validator.extract_interface_type (Validator.extract_interface_type name)
      = Validator.extract_interface_type name.
Proof.
  exists (Py.str (Chars.drop_while Chars.is_letter_or_hyphen (Py.chars name))).
  rewrite !extract_interface_type_run. repeat split.
  - by rewrite <- str_app, take_drop_while, str_chars.
  - rewrite all_str. apply take_while_all.
  - rewrite head_in_str.
    pose proof (drop_while_head Chars.is_letter_or_hyphen (Py.chars name)) as H.
    by destruct (Chars.drop_while _ _).
  - rewrite chars_str. f_equal. apply take_while_forall, take_while_all.
Qed.

(** A letter or a hyphen is no digit. *)
Lemma letter_or_hyphen_no_digit (c : ascii) :
  Chars.is_letter_or_hyphen c = true → Re.d c = false.
Proof. destruct c as [[] [] [] [] [] [] [] []]; by vm_compute. Qed.

(** What the pattern of the intermediate form captures. *)
Lemma intermediate_pattern_match (l : list ascii) :
  Re.match_chars false Naming.intermediate_pattern l
  = match Py.take_while Chars.is_letter_or_hyphen l,
          Chars.drop_while Chars.is_letter_or_hyphen l with
    | (_ :: _) as iface_type, x :: rest =>
        if Re.d x
        then Some [ (2%nat, Py.str (x :: Py.take_while Chars.is_not_newline rest));
                    (1%nat, Py.str iface_type) ]
        else None
    | _, _ => None
    end.
Proof.
  unfold Re.match_chars, Naming.intermediate_pattern. rewrite go_seq.
  rewrite group_plus_greedy_exact.
  2:{ right. intros c s' cs' Hc. simpl. by rewrite (letter_or_hyphen_no_digit c Hc). }
  destruct l as [|c l]; [done|]. simpl.
  destruct (Chars.is_letter_or_hyphen c) eqn:Ec; [|done]. simpl.
  destruct (Chars.drop_while Chars.is_letter_or_hyphen l) as [|x rest] eqn:Ed; [done|].
  simpl. destruct (Re.d x); [|done].
  rewrite (star_greedy_exact Chars.is_not_newline rest) by (by left).
  do 4 f_equal.
  pose proof (drop_while_length Chars.is_not_newline rest) as Hlen.
  replace (S (length rest) - length (Chars.drop_while Chars.is_not_newline rest))%nat
    with (S (length rest - length (Chars.drop_while Chars.is_not_newline rest))) by lia.
  simpl. by rewrite take_length_drop_while.
Qed.

Lemma abbreviations_lookup (iface_type abbrev_type : string) :
  Naming.INTERMEDIATE_ABBREVIATIONS !! iface_type = Some abbrev_type →
  (iface_type, abbrev_type)
  ∈ [ ("FastEthernet", "FastE"); ("GigabitEthernet", "GigE");
      ("FortyGigabitEthernet", "FortyGigE"); ("HundredGigabitEthernet", "HundredGigE");
      ("TwoHundredGigabitEthernet", "TwoHundredGigE");
      ("FourHundredGigabitEthernet", "FourHundredGigE") ].
Proof. apply elem_of_list_to_map_2. Qed.

(** An abbreviation is made of letters, is not empty and is no key of the
    dictionary. *)
Lemma abbreviation_facts (iface_type abbrev_type : string) :
  Naming.INTERMEDIATE_ABBREVIATIONS !! iface_type = Some abbrev_type →
  Py.all Chars.is_letter_or_hyphen iface_type = true
  ∧ Py.all Chars.is_letter_or_hyphen abbrev_type = true
  ∧ iface_type ≠ "" ∧ abbrev_type ≠ ""
  ∧ Naming.INTERMEDIATE_ABBREVIATIONS !! abbrev_type = None.
Proof.
  intros H. apply abbreviations_lookup in H.
  repeat (apply elem_of_cons in H as [[= -> ->]|H]; [by vm_compute|]).
  by apply elem_of_nil in H.
Qed.

Lemma cisco_intermediate_known (iface_type abbrev_type suffix : string) :
  Naming.INTERMEDIATE_ABBREVIATIONS !! iface_type = Some abbrev_type →
  Py.head_in Re.d suffix = true →
  Naming.cisco_intermediate_interface_name (iface_type +:+ suffix)
  = abbrev_type +:+ Py.str (Py.take_while Chars.is_not_newline (Py.chars suffix)).
Proof.
  intros Hk Hd. destruct (abbreviation_facts _ _ Hk) as (Ht & _ & Hne & Hane & _).
  unfold Naming.cisco_intermediate_interface_name, Re.rmatch.
  rewrite intermediate_pattern_match, chars_app.
  unfold Py.head_in in Hd. destruct (Py.chars suffix) as [|x rest] eqn:Es; [done|].
  destruct (take_while_app_stop Chars.is_letter_or_hyphen (Py.chars iface_type) (x :: rest))
    as [-> ->]; [done| |].
  { destruct (Chars.is_letter_or_hyphen x) eqn:Ex; [|done].
    by rewrite (letter_or_hyphen_no_digit x Ex) in Hd. }
  destruct (chars_nonempty _ Hne) as (c & l & El). rewrite El, <- El, Hd.
  simpl.
  rewrite str_chars, Hk, bool_decide_eq_false_2 by done.
  do 2 f_equal. simpl. destruct (Chars.is_not_newline x) eqn:En; [done|].
  exfalso. revert Hd En. clear. destruct x as [[] [] [] [] [] [] [] []]; by vm_compute.
Qed.

Lemma cisco_intermediate_unknown (interface : string) :
  Naming.INTERMEDIATE_ABBREVIATIONS !! Validator.extract_interface_type interface = None →
  Naming.cisco_intermediate_interface_name interface = interface.
Proof.
  rewrite extract_interface_type_run. intros Hk.
  unfold Naming.cisco_intermediate_interface_name, Re.rmatch.
  rewrite intermediate_pattern_match.
  destruct (Py.take_while _ _) as [|c l]; [done|].
  destruct (Chars.drop_while _ _) as [|x rest]; [done|].
  destruct (Re.d x); [|done]. simpl in *. by rewrite Hk.
Qed.

(** The function gives the name back or an abbreviation followed by a
    digit and a line. *)
Lemma cisco_intermediate_cases (interface : string) :
  Naming.cisco_intermediate_interface_name interface = interface
  ∨ ∃ iface_type abbrev_type x rest,
      Naming.INTERMEDIATE_ABBREVIATIONS !! iface_type = Some abbrev_type
      ∧ Re.d x = true
      ∧ forallb Chars.is_not_newline rest = true
      ∧ Naming.cisco_intermediate_interface_name interface
        = abbrev_type +:+ Py.str (x :: rest).
Proof.
  unfold Naming.cisco_intermediate_interface_name, Re.rmatch.
  rewrite intermediate_pattern_match.
  destruct (Py.take_while _ _) as [|c l]; [by left|].
  destruct (Chars.drop_while _ _) as [|x rest]; [by left|].
  destruct (Re.d x) eqn:Ex; [|by left]. simpl.
  destruct (Naming.INTERMEDIATE_ABBREVIATIONS !! _) as [a|] eqn:Ek; [|by left].
  destruct (bool_decide (a = "")); [by left|]. right.
  exists (Py.str (c :: l)), a, x, (Py.take_while Chars.is_not_newline rest).
  split; [done|]. split; [done|]. split; [apply take_while_all|done].
Qed.

(** X4: the intermediate form of an interface name.  A name made of a type
    of the dictionary and a suffix that begins with a digit and has no
    newline is the abbreviation of the type followed by the suffix; a name
    whose type is not in the dictionary is given back as it is; and the
    function applied to its own result changes nothing. *)
Theorem X4_cisco_intermediate_interface_name :
  (∀ iface_type abbrev_type suffix : string,
     Naming.INTERMEDIATE_ABBREVIATIONS !! iface_type = Some abbrev_type →
     Py.head_in Re.d suffix = true →
     Py.all Chars.is_not_newline suffix = true →
     Naming.cisco_intermediate_interface_name (iface_type +:+ suffix)
     = abbrev_type +:+ suffix)
  ∧ (∀ interface : string,
       Naming.INTERMEDIATE_ABBREVIATIONS !! Validator.extract_interface_type interface
       = None →
       Naming.cisco_intermediate_interface_name interface = interface)
  ∧ (∀ interface : string,
       Naming.cisco_intermediate_interface_name
         (Naming.cisco_intermediate_interface_name interface)
       = Naming.cisco_intermediate_interface_name interface).
Proof.
  split; [|split].
  - intros iface_type abbrev_type suffix Hk Hd Hn.
    rewrite (cisco_intermediate_known _ _ _ Hk Hd).
    unfold Py.all in Hn. by rewrite (take_while_forall _ _ Hn), str_chars.
  - apply cisco_intermediate_unknown.
  - intros interface.
    destruct (cisco_intermediate_cases interface)
      as [H|(t & a & x & rest & Hk & Hx & Hrest & ->)]; [by rewrite !H|].
    destruct (abbreviation_facts _ _ Hk) as (_ & Ha & _ & Hane & Hnone).
    apply cisco_intermediate_unknown.
    rewrite extract_interface_type_run, chars_app, chars_str.
    destruct (take_while_app_stop Chars.is_letter_or_hyphen (Py.chars a) (x :: rest))
      as [-> _]; [done| |by rewrite str_chars].
    destruct (Chars.is_letter_or_hyphen x) eqn:Ex; [|done].
    by rewrite (letter_or_hyphen_no_digit x Ex) in Hx.
Qed.

Lemma X4_cisco_intermediate_interface_name_witness :
  Naming.cisco_intermediate_interface_name "HundredGigabitEthernet1/1/1"
  = "HundredGigE1/1/1".
Proof.
  destruct X4_cisco_intermediate_interface_name as [H _].
  apply (H "HundredGigabitEthernet" "HundredGigE" "1/1/1"); reflexivity.
Defined.

(** ** [utils.py]: the position of a module bay *)

Lemma forallb_reverse (p : ascii → bool) (l : list ascii) :
  forallb p (reverse l) = forallb p l.
Proof.
  induction l as [|c l IH]; [done|].
  rewrite reverse_cons, forallb_app, IH. simpl. by rewrite andb_true_r, andb_comm.
Qed.

(** X5: the position of a module bay is the run of digits its name ends
    with: the name is a prefix that does not end with a digit, followed by
    the position; the position is made of digits, and it is its own
    position. *)
Theorem X5_extract_position_is_trailing_digits (module_bay_name : string) :
  ∃ prefix : string,
    module_bay_name = prefix +:+ Utils.extract_position module_bay_name
    ∧ Py.all Py.is_digit (Utils.extract_position module_bay_name) = true
    ∧ Py.head_in Py.is_digit (Py.str (reverse (Py.chars prefix))) = false
    ∧ Utils.extract_position (Utils.extract_position module_bay_name)
      = Utils.extract_position module_bay_name.
Proof.
  unfold Utils.extract_position.
  set (r := reverse (Py.chars module_bay_name)).
  exists (Py.str (reverse (Chars.drop_while Py.is_digit r))).
  repeat split.
  - rewrite <- str_app, <- reverse_app, take_drop_while. subst r.
    by rewrite reverse_involutive, str_chars.
  - rewrite all_str, forallb_reverse. apply take_while_all.
  - rewrite chars_str, reverse_involutive, head_in_str.
    pose proof (drop_while_head Py.is_digit r) as H.
    by destruct (Chars.drop_while _ _).
  - rewrite chars_str, reverse_involutive. do 2 f_equal.
    apply take_while_forall, take_while_all.
Qed.

(** ** [utils.py]: the dictionary of a list *)

Lemma element_list_to_dict_snoc {A} (l : list A) (x : A) (selected_key : A → string) :
  Utils.element_list_to_dict (l ++ [x]) selected_key
  = <[selected_key x := x]> (Utils.element_list_to_dict l selected_key).
Proof. unfold Utils.element_list_to_dict. by rewrite foldl_app. Qed.

(** X6: the dictionary made of a list holds, under a key, the last element
    of the list that has this key, and nothing under a key that no element
    has. *)
Theorem X6_element_list_to_dict_lookup {A} (list_to_transform : list A)
    (selected_key : A → string) (k : string) :
  Utils.element_list_to_dict list_to_transform selected_key !! k
  = last (filter (λ list_element, selected_key list_element = k) list_to_transform).
Proof.
  induction list_to_transform as [|x l IH] using rev_ind; [done|].
  rewrite element_list_to_dict_snoc, filter_app.
  destruct (decide (selected_key x = k)) as [<-|Hne].
  - rewrite lookup_insert_eq, filter_cons_True by done.
    by rewrite filter_nil, last_snoc.
  - rewrite lookup_insert_ne, filter_cons_False by done.
    by rewrite filter_nil, app_nil_r.
Qed.

(** ** The pages of the controller *)

Section PagingFacts.
  Context {A : Type}.
  Variable fetch_function : Z → option (list string) → option string → list A.
  Variable family : option (list string).
  Variable prototype_device_id : option string.

  (** The loop after [k] full pages of an honest controller. *)
Lemma offset_loop_serve (items : list A) (fuel k : nat) :
    (∀ offset, Paging.request fetch_function family prototype_device_id offset
               = Paging.serve items offset) →
    (500 * k ≤ length items)%nat →
    (length items < 500 * (k + fuel))%nat →
    Paging.offset_loop fetch_function family prototype_device_id fuel
      (take (500 * k) items) (Z.of_nat (500 * k) + 1) = Some items.
  Proof.
    intros Hserve. revert k. induction fuel as [|fuel IH]; intros k Hk Hfuel; [lia|].
    cbn [Paging.offset_loop]. rewrite Hserve. unfold Paging.serve.
    replace (Z.to_nat (Z.of_nat (500 * k) + 1 - 1)) with (500 * k)%nat by lia.
    destruct (take 500 (drop (500 * k) items)) as [|x page] eqn:Epage.
    - f_equal. apply take_ge.
      assert (Hlen : length (take 500 (drop (500 * k) items)) = 0%nat) by by rewrite Epage.
      rewrite length_take, length_drop in Hlen. lia.
    - rewrite <- Epage.
      assert (Hlen : length (take 500 (drop (500 * k) items))
                     = (500 `min` (length items - 500 * k))%nat).
      { by rewrite length_take, length_drop. }
      rewrite take_take_drop.
      destruct (bool_decide _) eqn:Eshort.
      + apply bool_decide_eq_true in Eshort. f_equal. apply take_ge. lia.
      + apply bool_decide_eq_false in Eshort.
        replace (500 * k + 500)%nat with (500 * S k)%nat by lia.
        replace (Z.of_nat (500 * k) + 1 + 500) with (Z.of_nat (500 * S k) + 1) by lia.
        apply IH; lia.
  Qed.

Lemma offset_loop_full_pages (fuel : nat) (data : list A) (offset : Z) :
    (∀ offset, (500 ≤ length (Paging.request fetch_function family prototype_device_id
                               offset))%nat) →
    Paging.offset_loop fetch_function family prototype_device_id fuel data offset = None.
  Proof.
    intros Hfull. revert data offset. induction fuel as [|fuel IH]; intros data offset; [done|].
    cbn [Paging.offset_loop]. specialize (Hfull offset).
    destruct (Paging.request _ _ _ offset) as [|x page] eqn:E.
    - simpl in Hfull. lia.
    - rewrite bool_decide_eq_false_2 by lia. apply IH.
  Qed.
End PagingFacts.

(** X7: the paging loop gathers all the records of a controller that serves
    them 500 at a time from the offset asked for, in their order, whatever
    their number (none, fewer than 500, a multiple of 500), as soon as it is
    allowed one request more than there are full pages.  Against a
    controller whose every page is full, it does not end. *)
Theorem X7_offset_handler_gathers_all_pages {A : Type}
    (fetch_function : Z → option (list string) → option string → list A)
    (family : option (list string)) (prototype_device_id : option string) :
  (∀ (items : list A) (fuel : nat),
     (∀ offset, Paging.request fetch_function family prototype_device_id offset
                = Paging.serve items offset) →
     (length items < 500 * fuel)%nat →
     Paging.offset_handler fetch_function family prototype_device_id fuel = Some items)
  ∧ ((∀ offset, (500 ≤ length (Paging.request fetch_function family prototype_device_id
                                  offset))%nat) →
     ∀ fuel, Paging.offset_handler fetch_function family prototype_device_id fuel = None).
Proof.
  split.
  - intros items fuel Hserve Hfuel.
    pose proof (offset_loop_serve fetch_function family prototype_device_id
                  items fuel 0 Hserve) as H.
    rewrite Nat.mul_0_r in H. apply H; lia.
  - intros Hfull fuel. by apply offset_loop_full_pages.
Qed.

Lemma X7_offset_handler_gathers_all_pages_witness :
  Paging.offset_handler (λ offset _ _, Paging.serve (seq 0 1000) offset) None (Some "d1") 3
  = Some (seq 0 1000).
Proof.
  destruct (X7_offset_handler_gathers_all_pages
              (λ offset _ _, Paging.serve (seq 0 1000) offset) None (Some "d1")) as [H _].
  apply H.
  - reflexivity.
  - rewrite length_seq. lia.
Defined.

(** ** The interfaces and the units of a stack *)

(** X8: in a stack, an interface whose name contains "appgigabitethernet"
    belongs to no unit; any other interface belongs to the unit of exactly
    one rank: rank 1 when its name has no number before a slash or a number
    below 2, else the rank that is this number. *)
Theorem X8_interface_belongs_to_one_unit (rank : Z) (interface : Api.Interface) :
  0 ≤ rank →
  Fetch.should_include_interface rank interface
  = if Py.contains "appgigabitethernet" (Py.lower (Api.portName interface)) then false
    else
      bool_decide
        (rank = match Fetch.extract_interface_number (Api.portName interface) with
                | Some n => if n <? 2 then 1 else n
                | None => 1
                end).
Proof.
  intros Hrank. unfold Fetch.should_include_interface.
  destruct (Py.contains _ _); [done|].
  destruct (Fetch.extract_interface_number _) as [n|].
  - destruct (rank =? 1) eqn:E1.
    + apply Z.eqb_eq in E1 as ->.
      destruct (n <? 2) eqn:E2; [by rewrite bool_decide_eq_true_2|].
      apply Z.ltb_ge in E2. rewrite bool_decide_eq_false_2; [done|lia].
    + apply Z.eqb_neq in E1.
      destruct (n =? 0) eqn:E0.
      * apply Z.eqb_eq in E0 as ->. simpl. by rewrite bool_decide_eq_false_2.
      * apply Z.eqb_neq in E0. destruct (n <? 2) eqn:E2.
        -- apply Z.ltb_lt in E2. rewrite bool_decide_eq_false_2 by done.
           apply Z.eqb_neq. lia.
        -- destruct (n =? rank) eqn:En.
           ++ apply Z.eqb_eq in En. by rewrite bool_decide_eq_true_2.
           ++ apply Z.eqb_neq in En. by rewrite bool_decide_eq_false_2.
  - destruct (rank =? 1) eqn:E1.
    + apply Z.eqb_eq in E1. by rewrite bool_decide_eq_true_2.
    + apply Z.eqb_neq in E1. by rewrite bool_decide_eq_false_2.
Qed.

Lemma X8_interface_belongs_to_one_unit_witness :
  Fetch.should_include_interface 2
    {| Api.portName := "GigabitEthernet2/0/1"; Api.interfaceType := Some "Physical";
       Api.ipv4Address := None; Api.ipv4Mask := None; Api.vlanId := None;
       Api.vlan := None; Api.speed := None; Api.description := None;
       Api.duplex := None; Api.macAddress := None; Api.portMode := None |}
  = true.
Proof. rewrite X8_interface_belongs_to_one_unit by lia. reflexivity. Defined.

(** ** The splitter: the units of one record *)

Lemma unit_of_serial_inv parent serials platform_ids index i s u :
  Splitter.unit_of_serial parent serials platform_ids index i s = Some u →
  Api.id u = Api.id parent ∧ Api.instanceUuid u = Api.instanceUuid parent
  ∧ Api.type u = Api.type parent
  ∧ Api.total_serial u = length serials
  ∧ Api.is_multiple u = Api.is_multiple parent
  ∧ Api.hostname u
    = (if decide (1 < length serials)%nat
       then Api.hostname parent +:+ "-" +:+ Py.str_of_Z (Api.rank u)
       else Api.hostname parent)
  ∧ Api.managementIpAddress u
    = (if decide (1 < Api.rank u) then None else Api.managementIpAddress parent).
Proof.
  unfold Splitter.unit_of_serial. intros H.
  destruct (index !! Py.strip s); [|done]. destruct (platform_ids !! i); [|done].
  simpl in H. by injection H as <-.
Qed.

Lemma no_serial_indexes_spec api prototype_id switch_indexes :
  Splitter.no_serial_indexes api prototype_id = Some switch_indexes →
  (1 ≤ length switch_indexes)%nat
  ∧ ∀ i, (i < length switch_indexes)%nat → switch_indexes !! i = Some (Z.of_nat (S i)).
Proof.
  unfold Splitter.no_serial_indexes. intros H.
  destruct (Api.get_stack_details_for_device api prototype_id) as [sd|]; [|done].
  simpl in H. injection H as <-. rewrite length_fmap, length_seq. split; [lia|].
  intros i Hi. rewrite list_lookup_fmap, lookup_seq_lt by done. done.
Qed.

(** X9: the units of a record on a fetch without filter.  Each unit has the
    id, the instance uuid and the type of the record; it knows the number
    of units of its group and whether they are several; its hostname is the
    first label of the record's hostname, followed by "-" and its rank when
    the units are several; and it keeps the management address unless its
    rank is above 1.  This holds for a record with serials and for one
    without. *)
Theorem X9_units_of_a_record (api : Api.Client) (d : Api.Device)
    (units : list Api.Device) :
  Splitter.split_device api None d = Some units →
  ∀ u, u ∈ units →
    Api.id u = Api.id d ∧ Api.instanceUuid u = Api.instanceUuid d
    ∧ Api.type u = Api.type d
    ∧ Api.total_serial u = length units
    ∧ Api.is_multiple u = bool_decide (1 < length units)%nat
    ∧ Api.hostname u
      = (if decide (1 < length units)%nat
         then default "" (head (Py.split "." (Api.hostname d))) +:+ "-"
              +:+ Py.str_of_Z (Api.rank u)
         else default "" (head (Py.split "." (Api.hostname d))))
    ∧ Api.managementIpAddress u
      = (if decide (1 < Api.rank u) then None else Api.managementIpAddress d).
Proof.
  unfold Splitter.split_device. intros H u Hu.
  destruct (Splitter.skipped None d).
  { injection H as <-. by apply elem_of_nil in Hu. }
  destruct (Py.truthy (Api.serialNumber d)).
  - set (serials := Py.split "," (default "" (Api.serialNumber d))) in *.
    destruct (Splitter.enumeration api d serials) as [index|]; [|done]. simpl in H.
    apply mapM_Some in H.
    assert (Hlen : length units = length serials).
    { apply Forall2_length in H. by rewrite length_imap in H. }
    apply list_elem_of_lookup in Hu as [i Hi].
    destruct (Forall2_lookup_r _ _ _ _ _ H Hi) as ([j s] & _ & Hf).
    simpl in Hf. apply unit_of_serial_inv in Hf as (H1 & H2 & H3 & H4 & H5 & H6 & H7).
    rewrite Hlen. simpl in *. by repeat split.
  - destruct (Splitter.no_serial_indexes api _) as [switch_indexes|] eqn:Ei; [|done].
    simpl in H. injection H as <-.
    apply no_serial_indexes_spec in Ei as [Hpos Hidx].
    apply list_elem_of_fmap in Hu as (switch_index & -> & Hin).
    rewrite length_fmap. unfold Splitter.unit_of_index. simpl.
    destruct (decide (1 < length switch_indexes)%nat) as [Hs|Hs].
    + rewrite !(bool_decide_eq_true_2 _ Hs). by repeat split.
    + rewrite !(bool_decide_eq_false_2 _ Hs).
      assert (Hone : length switch_indexes = 1%nat) by lia.
      apply list_elem_of_lookup in Hin as [i Hi].
      assert (i = 0%nat) as -> by (apply lookup_lt_Some in Hi; lia).
      rewrite Hidx in Hi by lia. injection Hi as <-.
      by repeat split.
Qed.

Lemma X9_units_of_a_record_witness :
  Api.total_serial Examples.stack_unit = 2%nat
  ∧ Api.is_multiple Examples.stack_unit = true.
Proof.
  destruct (X9_units_of_a_record (Examples.stack_api []) Examples.stacked_device
              (default [] (Splitter.split_device (Examples.stack_api []) None
                             Examples.stacked_device)) eq_refl Examples.stack_unit)
    as (_ & _ & _ & H1 & H2 & _).
  { vm_compute. by left. }
  split; [exact H1|exact H2].
Defined.

(** X10: a record without serial that the splitter does not skip.  When the
    controller has no stack details object for it, the split raises; else
    there are as many units as the longer of the stack and the chassis
    lists has entries, one at least, ranked 1, 2, ... in this order, and
    every unit is without serial as the record is. *)
Theorem X10_record_without_serial (api : Api.Client) (d : Api.Device) :
  Py.contains "nexus" (Py.lower (Api.type d)) = false →
  Py.truthy (Api.serialNumber d) = false →
  match Api.get_stack_details_for_device api (Api.id d) with
  | None => Splitter.split_device api None d = None
  | Some all_stack =>
      ∃ units,
        Splitter.split_device api None d = Some units
        ∧ length units
          = Nat.max (Nat.max (length (Api.stackSwitchInfo all_stack))
                       (length (Api.get_chassis_details_for_device api (Api.id d)))) 1
        ∧ ∀ i u, units !! i = Some u →
            Api.rank u = Z.of_nat (S i) ∧ Api.serialNumber u = Api.serialNumber d
  end.
Proof.
  intros Hnexus Hserial. unfold Splitter.split_device, Splitter.skipped.
  rewrite Hnexus, Hserial. unfold Splitter.no_serial_indexes. simpl.
  destruct (Api.get_stack_details_for_device api (Api.id d)) as [all_stack|]; [|done].
  simpl. eexists. split; [done|]. split; [by rewrite !length_fmap, length_seq|].
  intros i u Hi. rewrite list_lookup_fmap in Hi.
  destruct (_ !! i) as [switch_index|] eqn:Es; [|done]. simpl in Hi. injection Hi as <-.
  rewrite list_lookup_fmap in Es.
  destruct (seq _ _ !! i) as [j|] eqn:Ej; [|done]. simpl in Es. injection Es as <-.
  apply lookup_seq in Ej as [-> Hlt]. simpl. split; [|done].
  rewrite length_fmap, length_seq.
  destruct (bool_decide _) eqn:E; [done|].
  apply bool_decide_eq_false in E.
  assert (i = 0%nat) as -> by lia. done.
Qed.

Lemma X10_record_without_serial_witness :
  Splitter.split_device (Examples.api_reporting []) None
    (Examples.reported "U1" "")
  = None.
Proof.
  apply (X10_record_without_serial (Examples.api_reporting [])
           (Examples.reported "U1" "")); reflexivity.
Defined.

(** ** The fetch job and the keys of the prototype table *)

Lemma NoDup_fmap_elem_inj {A B} (f : A → B) (l : list A) (x y : A) :
  NoDup (f <$> l) → x ∈ l → y ∈ l → f x = f y → x = y.
Proof.
  intros Hnd Hx Hy Hf.
  apply list_elem_of_lookup in Hx as [a Ha].
  apply list_elem_of_lookup in Hy as [b Hb].
  assert (a = b) as ->.
  { eapply NoDup_lookup; [exact Hnd| |].
    - by rewrite list_lookup_fmap, Ha.
    - by rewrite list_lookup_fmap, Hb; simpl; rewrite Hf. }
  congruence.
Qed.

Lemma foldr_max_ge (ids : list Z) (x : Z) : x ∈ ids → x ≤ foldr Z.max 0 ids.
Proof.
  induction ids as [|y ids IH]; intros Hx; [by apply elem_of_nil in Hx|].
  simpl. apply elem_of_cons in Hx as [->|Hx]; [lia|]. specialize (IH Hx). lia.
Qed.

Lemma fresh_id_fresh (ids : list Z) : fresh_id ids ∉ ids.
Proof. unfold fresh_id. intros H. apply foldr_max_ge in H. lia. Qed.

Section Keys.
  Variable api : Api.Client.
  Variable controller : SdnController.
  Variable user : option Z.
  Variable net_contains : string → string → bool.
  Variable hostname_group : string → string → option string.

Lemma build_candidate_controller w prototype w1 c :
    Fetch.build_candidate controller user net_contains hostname_group w prototype
    = Some (w1, c) →
    sdn_controller c = sc_id controller.
  Proof.
    unfold Fetch.build_candidate. intros H.
    destruct (Fetch.management_ip prototype) as [sdn_ip|]; [|done]. simpl in H.
    destruct (match Api.serialNumber prototype ≫= _ with Some m => _ | None => _ end)
      as [wa matching1].
    destruct (if Py.truthy sdn_ip then _ else _) as [[wb ip] site0].
    destruct (Fetch.adopt_serial user wb _ matching1 _) as [[wc matching] related].
    match type of H with
    | context [mbind _ ?r] => destruct r as [role0|]; [|done]
    end.
    simpl in H. by injection H as <- <-.
  Qed.

  (** What the upsert does to the table: the row of the key is replaced by
      the saved prototype, or the saved prototype is a new last row. *)
Lemma process_prototype_rows w prototype w2 saved :
    Fetch.process_prototype controller user net_contains hostname_group w prototype
    = Some (w2, saved) →
    sync_status saved = DISCOVERED
    ∧ sdn_controller saved = sc_id controller
    ∧ ((∃ existing,
          existing ∈ prototypes w
          ∧ Fetch.key existing = Fetch.key saved
          ∧ id saved = id existing
          ∧ prototypes w2
            = (λ q, if decide (id q = id existing) then saved else q) <$> prototypes w)
       ∨ ((Fetch.key saved ∉ Fetch.key <$> prototypes w)
          ∧ (id saved ∉ id <$> prototypes w)
          ∧ prototypes w2 = prototypes w ++ [saved])).
  Proof.
    intros Hp.
    apply process_prototype_unfold in Hp as (w1 & c & w1' & Hc & Hu & _ & Hps).
    pose proof (build_candidate_controller _ _ _ _ Hc) as Hctl.
    apply build_candidate_prototypes in Hc as (Hp1 & _ & Hst & _).
    unfold Fetch.upsert in Hu. rewrite (find_existing_frame _ _ _ Hp1) in Hu.
    destruct (Fetch.find_existing w c) as [existing|] eqn:Ex.
    - injection Hu as <- <-. split; [done|]. split; [done|]. left.
      unfold Fetch.find_existing in Ex.
      pose proof Ex as Ex'. apply first_elem_of in Ex' as [Hin Hkey].
      apply andb_prop in Hkey as [Hk1 Hk2].
      apply bool_decide_eq_true in Hk1. apply bool_decide_eq_true in Hk2.
      exists existing. split; [done|]. split; [by unfold Fetch.key; simpl; f_equal|].
      split; [done|].
      rewrite Hps, object_changelog_prototypes. unfold update_prototype. simpl.
      by rewrite Hp1.
    - injection Hu as <- <-. split; [done|]. split; [done|]. right.
      unfold Fetch.find_existing, first in Ex.
      split; [|split].
      + intros Hin. apply list_elem_of_fmap in Hin as (q & Hq & Hqin).
        apply list_elem_of_In in Hqin.
        pose proof (List.find_none _ _ Ex q Hqin) as Hf. simpl in Hf.
        unfold Fetch.key in Hq. simpl in Hq. injection Hq as Hq1 Hq2.
        by rewrite !bool_decide_eq_true_2 in Hf.
      + simpl. intros Hin. apply list_elem_of_fmap in Hin as (q & Hq & Hqin).
        apply (fresh_id_fresh (omap id (prototypes w1))).
        apply list_elem_of_omap. exists q. split; [by rewrite Hp1|done].
      + rewrite Hps, object_changelog_prototypes. simpl. by rewrite Hp1.
  Qed.

  (** One unit processed: the table keeps its two kinds of keys distinct. *)
Lemma process_prototype_unique_keys w prototype w2 saved :
    Fetch.process_prototype controller user net_contains hostname_group w prototype
    = Some (w2, saved) →
    Frame.unique_keys w → Frame.unique_keys w2.
  Proof.
    intros Hp [Hids Hkeys]. unfold Frame.unique_keys.
    change (λ p : Prototype, (instance_uuid p, serial p)) with Fetch.key in *.
    destruct (process_prototype_rows _ _ _ _ Hp)
      as (_ & _ & [(e & Hin & Hkey & Hid & ->)|(Hnew & Hfresh & ->)]).
    - split.
      + rewrite <- list_fmap_compose.
        erewrite list_fmap_ext; [exact Hids|]. intros i q _. simpl.
        case_decide; congruence.
      + rewrite <- list_fmap_compose.
        erewrite list_fmap_ext; [exact Hkeys|]. intros i q Hq. simpl.
        case_decide as Hqe; [|done].
        assert (q = e) as ->.
        { eapply (NoDup_fmap_elem_inj id); [exact Hids| |done..].
          by eapply list_elem_of_lookup_2. }
        symmetry. exact Hkey.
    - split.
      + rewrite fmap_app. apply NoDup_app. split; [done|]. split.
        * intros x Hx Hx'. apply list_elem_of_singleton in Hx'. by subst.
        * apply NoDup_singleton.
      + rewrite fmap_app. apply NoDup_app. split; [done|]. split.
        * intros x Hx Hx'. apply list_elem_of_singleton in Hx'. by subst.
        * apply NoDup_singleton.
  Qed.

Lemma process_prototype_fetched w prototype w2 saved pass :
    Fetch.process_prototype controller user net_contains hostname_group w prototype
    = Some (w2, saved) →
    Frame.unique_keys w → Frame.fetched controller w pass →
    Frame.fetched controller w2 (pass ++ [saved]).
  Proof.
    intros Hp [Hids Hkeys] Hq p Hin Hk.
    destruct (process_prototype_rows _ _ _ _ Hp)
      as (Hst & Hctl & [(e & He & Hkey & Hid & Hrows)|(Hnew & Hfresh & Hrows)]);
      rewrite Hrows in Hin.
    - apply list_elem_of_fmap in Hin as (q & -> & Hqin).
      case_decide as Hqe; [done|].
      rewrite fmap_app in Hk. apply elem_of_app in Hk as [Hk|Hk]; [by apply Hq|].
      apply list_elem_of_singleton in Hk.
      exfalso. apply Hqe. f_equal.
      eapply (NoDup_fmap_elem_inj Fetch.key); [exact Hkeys|done..|congruence].
    - apply elem_of_app in Hin as [Hin|Hin].
      + rewrite fmap_app in Hk. apply elem_of_app in Hk as [Hk|Hk]; [by apply Hq|].
        apply list_elem_of_singleton in Hk.
        exfalso. apply Hnew. rewrite <- Hk. apply list_elem_of_fmap. by exists p.
      + apply list_elem_of_singleton in Hin. by subst.
  Qed.

Lemma sync_units_snoc w units u :
    Fetch.sync_units api controller user net_contains hostname_group w (units ++ [u])
    = '(w1, prototype_list) ←
        Fetch.sync_units api controller user net_contains hostname_group w units;
      enriched ← Fetch.enrich api u;
      '(w2, processed_prototype) ←
        Fetch.process_prototype controller user net_contains hostname_group w1 enriched;
      Some (w2, prototype_list ++ [processed_prototype]).
  Proof.
    unfold Fetch.sync_units. rewrite foldl_app. simpl.
    by destruct (foldl _ _ units) as [[w1 l]|].
  Qed.

Lemma sync_units_invariants w units w' pass :
    Fetch.sync_units api controller user net_contains hostname_group w units
    = Some (w', pass) →
    Frame.unique_keys w →
    Frame.unique_keys w' ∧ Frame.fetched controller w' pass
    ∧ length pass = length units.
  Proof.
    revert w' pass. induction units as [|u units IH] using rev_ind; intros w' pass H Hw.
    - injection H as <- <-. split; [done|]. split; [|done].
      intros p _ Hk. by apply elem_of_nil in Hk.
    - rewrite sync_units_snoc in H.
      destruct (Fetch.sync_units _ _ _ _ _ w units) as [[w1 l]|]; [|done]. simpl in H.
      destruct (IH w1 l eq_refl Hw) as (Hu1 & Hf1 & Hl1).
      destruct (Fetch.enrich api u) as [enriched|]; [|done]. simpl in H.
      destruct (Fetch.process_prototype _ _ _ _ w1 enriched) as [[w2 p]|] eqn:Ep; [|done].
      simpl in H. injection H as <- <-.
      split; [by eapply process_prototype_unique_keys|].
      split; [by eapply process_prototype_fetched|].
      rewrite !length_app. simpl. lia.
  Qed.

Lemma sync_device_list_invariants uuids w device_list w' pass :
    Fetch.sync_device_list api controller user uuids net_contains hostname_group
      w device_list = Some (w', pass) →
    Frame.unique_keys w →
    Frame.unique_keys w' ∧ Frame.fetched controller w' pass ∧ (pass = [] → w' = w).
  Proof.
    unfold Fetch.sync_device_list. intros H Hw.
    destruct (bool_decide _).
    - destruct (Splitter.split_device_list _ _ _) as [units|]; [|done]. simpl in H.
      destruct (sync_units_invariants _ _ _ _ H Hw) as (H1 & H2 & H3).
      split; [done|]. split; [done|]. intros ->.
      destruct units; [|done]. by injection H as <-.
    - injection H as <- <-. split; [done|]. split; [|done].
      intros p _ Hk. by apply elem_of_nil in Hk.
  Qed.

Lemma after_check_keys keys (l : list Prototype) :
    id <$> (Fetch.after_check controller keys <$> l) = id <$> l
    ∧ Fetch.key <$> (Fetch.after_check controller keys <$> l) = Fetch.key <$> l.
  Proof.
    split; rewrite <- list_fmap_compose; apply list_fmap_ext; intros i q _; simpl;
      unfold Fetch.after_check; by case_match.
  Qed.
End Keys.

(** X11: the fetch pass and the check for deleted devices keep the primary
    keys of the prototype table distinct, and its (instance_uuid, serial)
    keys too: the pass never stores a second prototype under a key that is
    already there. *)
Theorem X11_fetch_keeps_keys_unique
    (api : Api.Client) (controller : SdnController) (user : option Z)
    (net_contains : string → string → bool)
    (hostname_group : string → string → option string) (w : World) :
  Frame.unique_keys w →
  (∀ device_list w' pass,
     Fetch.sync_device_list api controller user None net_contains hostname_group
       w device_list = Some (w', pass) →
     Frame.unique_keys w')
  ∧ (∀ prototype_list w',
       Fetch.check_for_deleted_devices api controller user None net_contains
         hostname_group w prototype_list = Some w' →
       Frame.unique_keys w').
Proof.
  intros Hw. split.
  - intros device_list w' pass H.
    by destruct (sync_device_list_invariants _ _ _ _ _ _ _ _ _ _ H Hw) as [? _].
  - intros prototype_list w' H.
    destruct (Fetch.fresh_pass api controller user None net_contains hostname_group
                w prototype_list) as [[w0 pass]|] eqn:Ef.
    2:{ unfold Fetch.check_for_deleted_devices in H. by rewrite Ef in H. }
    assert (Hw0 : Frame.unique_keys w0).
    { unfold Fetch.fresh_pass in Ef. destruct prototype_list.
      - by destruct (sync_device_list_invariants _ _ _ _ _ _ _ _ _ _ Ef Hw) as [? _].
      - by injection Ef as <- <-. }
    destruct (check_for_deleted_devices_rows _ _ _ _ _ _ _ _ _ _ Ef (proj1 Hw0))
      as (w'' & Hw'' & Hrows).
    rewrite Hw'' in H. injection H as <-.
    destruct (after_check_keys controller (Fetch.key <$> pass) (prototypes w0))
      as [Hi Hk].
    destruct Hw0 as [H1 H2]. split.
    + by rewrite Hrows, Hi.
    + rewrite Hrows. change (λ p : Prototype, (instance_uuid p, serial p)) with Fetch.key.
      by rewrite Hk.
Qed.

Lemma X11_fetch_keeps_keys_unique_witness :
  Frame.unique_keys Examples.two_devices_fetched.
Proof.
  destruct (X11_fetch_keeps_keys_unique
              (Examples.api_reporting [Examples.reported "U1" "S1";
                                       Examples.reported "U2" "S2"])
              Examples.catalyst_center None
              Examples.no_prefix Examples.no_group Examples.empty_world) as [_ H].
  { split; apply NoDup_nil_2. }
  apply (H [] Examples.two_devices_fetched).
  by vm_compute.
Defined.

(** X12: the fetch job, on a table with distinct keys: after the pass and
    the check for deleted devices, every stored prototype whose key was
    reported in the pass is a [DISCOVERED] prototype of the controller, and
    every other prototype of the controller is [DELETED]. *)
Theorem X12_fetch_job_statuses
    (api : Api.Client) (controller : SdnController) (user : option Z)
    (net_contains : string → string → bool)
    (hostname_group : string → string → option string)
    (w w1 : World) (pass : list Prototype) :
  Frame.unique_keys w →
  Fetch.sync_sdn_controller_devices api controller user None net_contains hostname_group w
  = Some (w1, pass) →
  ∃ w',
    Fetch.fetch_and_check api controller user None net_contains hostname_group w = Some w'
    ∧ ∀ p, p ∈ prototypes w' →
        (Fetch.key p ∈ Fetch.key <$> pass →
           sync_status p = DISCOVERED ∧ sdn_controller p = sc_id controller)
        ∧ (sdn_controller p = sc_id controller → Fetch.key p ∉ (Fetch.key <$> pass) →
           sync_status p = DELETED).
Proof.
  intros Hw Hs. unfold Fetch.fetch_and_check. rewrite Hs. simpl.
  unfold Fetch.sync_sdn_controller_devices in Hs.
  destruct (sync_device_list_invariants _ _ _ _ _ _ _ _ _ _ Hs Hw) as (Hw1 & Hf & Hempty).
  assert (Ef : Fetch.fresh_pass api controller user None net_contains hostname_group
                 w1 pass = Some (w1, pass)).
  { unfold Fetch.fresh_pass. destruct pass as [|p0 pass]; [|done].
    pose proof (Hempty eq_refl) as ->. exact Hs. }
  destruct (check_for_deleted_devices_rows _ _ _ _ _ _ _ _ _ _ Ef (proj1 Hw1))
    as (w' & Hw' & Hrows).
  exists w'. split; [done|]. intros p Hp. rewrite Hrows in Hp.
  apply list_elem_of_fmap in Hp as (q & -> & Hq).
  unfold Fetch.after_check.
  destruct (bool_decide (sdn_controller q = sc_id controller)) eqn:Ec;
    destruct (bool_decide (Fetch.key q ∈ Fetch.key <$> pass)) eqn:Ek; simpl.
  - apply bool_decide_eq_true in Ek. split; [intros _; by apply Hf|done].
  - apply bool_decide_eq_false in Ek. split; [done|]. done.
  - apply bool_decide_eq_true in Ek. split; [intros _; by apply Hf|done].
  - apply bool_decide_eq_false in Ek. apply bool_decide_eq_false in Ec. done.
Qed.

Lemma X12_fetch_job_statuses_witness :
  ∃ w',
    Examples.fetch [Examples.reported "U1" "S1"] Examples.two_devices_fetched = Some w'
    ∧ Examples.statuses w'
      = [("U1", Some "S1", DISCOVERED); ("U2", Some "S2", DELETED)].
Proof.
  destruct (Fetch.sync_sdn_controller_devices
              (Examples.api_reporting [Examples.reported "U1" "S1"])
              Examples.catalyst_center None None Examples.no_prefix Examples.no_group
              Examples.two_devices_fetched) as [[w1 pass]|] eqn:Es;
    [|by vm_compute in Es].
  destruct (X12_fetch_job_statuses
              (Examples.api_reporting [Examples.reported "U1" "S1"])
              Examples.catalyst_center None Examples.no_prefix Examples.no_group
              Examples.two_devices_fetched w1 pass) as (w' & Hw' & _).
  - split.
    + apply (@bool_decide_unpack
               (NoDup (id <$> prototypes Examples.two_devices_fetched)) _).
      by vm_compute.
    + apply (@bool_decide_unpack
               (NoDup (Fetch.key <$> prototypes Examples.two_devices_fetched)) _).
      by vm_compute.
  - exact Es.
  - exists w'. split; [exact Hw'|].
    vm_compute in Hw'. by injection Hw' as <-.
Defined.

(** ** The fetch pass and the inventory devices *)

Lemma same_columns_refl (d : Device) : Frame.same_columns d d.
Proof. by repeat split. Qed.

Lemma same_columns_trans (d1 d2 d3 : Device) :
  Frame.same_columns d1 d2 → Frame.same_columns d2 d3 → Frame.same_columns d1 d3.
Proof.
  intros (?&?&?&?&?&?) (?&?&?&?&?&?). repeat split; congruence.
Qed.

Lemma Forall2_same_columns_ids (l k : list Device) :
  Forall2 Frame.same_columns l k → d_id <$> k = d_id <$> l.
Proof.
  induction 1 as [|d d' l k [Hid _] _ IH]; [done|]. rewrite !fmap_cons. congruence.
Qed.

(** [device.save()] of a row that differs from the stored one in a way [R]
    allows. *)
Lemma update_device_Forall2 (R : Device → Device → Prop) (d0 d : Device) (w : World) :
  (∀ x, R x x) →
  NoDup (d_id <$> devices w) → d0 ∈ devices w → d_id d = d_id d0 → R d0 d →
  Forall2 R (devices w) (devices (update_device d w)).
Proof.
  intros Hrefl Hnd Hin Hid HR. unfold update_device. simpl.
  apply Forall2_fmap_r. apply Forall_Forall2_diag. apply Forall_forall.
  intros x Hx. simpl. case_decide as Hxd; [|done].
  by rewrite (NoDup_fmap_elem_inj d_id (devices w) x d0 Hnd Hx Hin) by congruence.
Qed.

Section DeviceFrame.
  Variable api : Api.Client.
  Variable controller : SdnController.
  Variable user : option Z.
  Variable net_contains : string → string → bool.
  Variable hostname_group : string → string → option string.

Lemma renamed_refl d : Frame.renamed d d.
  Proof. split; [apply same_columns_refl|]. split; [done|by left]. Qed.

Lemma adopted_refl d : Frame.adopted d d.
  Proof. split; [apply same_columns_refl|]. split; [done|by left]. Qed.

Lemma Forall2_refl_on (R : Device → Device → Prop) (l : list Device) :
    (∀ x, R x x) → Forall2 R l l.
  Proof. intros H. apply Forall_Forall2_diag, Forall_forall. auto. Qed.

Lemma rename_matching_devices w hostname m w' m' :
    NoDup (d_id <$> devices w) → m ∈ devices w →
    Fetch.rename_matching user w hostname m = (w', m') →
    Forall2 Frame.renamed (devices w) (devices w').
  Proof.
    intros Hnd Hin. unfold Fetch.rename_matching.
    repeat case_match; intros [= <- <-];
      try (apply Forall2_refl_on, renamed_refl).
    rewrite object_changelog_devices.
    apply (update_device_Forall2 Frame.renamed m); [apply renamed_refl|done..|].
    split; [by repeat split|]. split; [done|by right].
  Qed.

Lemma adopt_serial_devices w serial matching related w' matching' related' :
    NoDup (d_id <$> devices w) → (∀ r, related = Some r → r ∈ devices w) →
    Fetch.adopt_serial user w serial matching related = (w', matching', related') →
    Forall2 Frame.adopted (devices w) (devices w').
  Proof.
    intros Hnd Hin. unfold Fetch.adopt_serial.
    repeat case_match; intros [= <- <- <-];
      try (apply Forall2_refl_on, adopted_refl).
    rewrite object_changelog_devices.
    match goal with
    | H : _ && bool_decide (d_serial ?r = "") = true |- _ =>
        apply andb_prop in H as [_ H]; apply bool_decide_eq_true in H;
        apply (update_device_Forall2 Frame.adopted r);
          [apply adopted_refl|done|by apply Hin|done|];
        split; [by repeat split|]; split; [done|by right]
    end.
  Qed.

Lemma build_candidate_devices w prototype w1 c :
    NoDup (d_id <$> devices w) →
    Fetch.build_candidate controller user net_contains hostname_group w prototype
    = Some (w1, c) →
    Forall2 Frame.device_kept (devices w) (devices w1).
  Proof.
    intros Hnd. unfold Fetch.build_candidate. intros H.
    destruct (Fetch.management_ip prototype) as [sdn_ip|]; [|done]. simpl in H.
    set (hostname := default "" (head (Py.split "." (Api.hostname prototype)))) in *.
    set (matching0 := Api.serialNumber prototype ≫= _) in *.
    assert (H0 : ∀ m, matching0 = Some m → m ∈ devices w).
    { intros m Hm. subst matching0. destruct (Api.serialNumber prototype); [|done].
      simpl in Hm. by apply first_elem_of in Hm as [? _]. }
    destruct (match matching0 with Some m => _ | None => _ end) as [wa matching1] eqn:E1.
    assert (H1 : Forall2 Frame.renamed (devices w) (devices wa)).
    { destruct matching0 as [m0|]; [|simplify_eq; apply Forall2_refl_on, renamed_refl].
      destruct (Fetch.rename_matching user w hostname m0) as [w1' m1'] eqn:Er.
      simplify_eq. eapply rename_matching_devices; eauto. }
    clearbody matching0. clear H0 E1.
    set (device_type0 := match first _ (device_types wa) with Some t => Some t | None => _ end) in *.
    destruct (if Py.truthy sdn_ip then _ else _) as [[wb ip] site0] eqn:E2.
    assert (H2 : devices wb = devices wa).
    { destruct (Py.truthy sdn_ip); [|by simplify_eq].
      destruct (Fetch.resolve_primary_ip4 user wa _ _) as [w2' ip'] eqn:Er.
      simplify_eq. by eapply resolve_primary_ip4_devices. }
    clear E2.
    set (related0 := Fetch.find_related wb hostname matching1 ip) in *.
    destruct (Fetch.adopt_serial user wb _ matching1 related0) as [[wc matching] related] eqn:E3.
    assert (H3 : Forall2 Frame.adopted (devices wb) (devices wc)).
    { eapply adopt_serial_devices; [| |exact E3].
      - rewrite H2.
        assert (Hids : d_id <$> devices wa = d_id <$> devices w).
        { apply Forall2_same_columns_ids. eapply Forall2_impl; [exact H1|].
          by intros ?? [? _]. }
        by rewrite Hids.
      - intros r Hr. by eapply find_related_elem_of. }
    clear E3.
    match type of H with
    | context [mbind _ ?r] => destruct r as [role0|]; [|done]
    end.
    simpl in H. injection H as <- <-.
    rewrite H2 in H3. eapply Forall2_trans; [|exact H1|exact H3].
    intros d1 d2 d3 (Hc1 & Hs1 & Hn1) (Hc2 & Hn2 & Hs2).
    split; [by eapply same_columns_trans|]. split.
    - rewrite Hn2. exact Hn1.
    - rewrite <- Hs1. destruct Hs2 as [->|?]; [by left|by right].
  Qed.

Lemma process_prototype_devices w prototype w2 saved :
    NoDup (d_id <$> devices w) →
    Fetch.process_prototype controller user net_contains hostname_group w prototype
    = Some (w2, saved) →
    Forall2 Frame.device_kept (devices w) (devices w2).
  Proof.
    intros Hnd Hp.
    apply process_prototype_unfold in Hp as (w1 & c & w1' & Hc & Hu & Hd & _).
    apply upsert_devices in Hu as (Hd' & _).
    rewrite Hd, Hd'. by eapply build_candidate_devices.
  Qed.

Lemma sync_units_devices w units w' pass :
    NoDup (d_id <$> devices w) →
    Fetch.sync_units api controller user net_contains hostname_group w units
    = Some (w', pass) →
    Forall2 Frame.same_columns (devices w) (devices w').
  Proof.
    intros Hnd. revert w' pass.
    induction units as [|u units IH] using rev_ind; intros w' pass H.
    - injection H as <- <-. apply Forall2_refl_on, same_columns_refl.
    - rewrite sync_units_snoc in H.
      destruct (Fetch.sync_units _ _ _ _ _ w units) as [[w1 l]|]; [|done]. simpl in H.
      specialize (IH w1 l eq_refl).
      destruct (Fetch.enrich api u) as [enriched|]; [|done]. simpl in H.
      destruct (Fetch.process_prototype _ _ _ _ w1 enriched) as [[w2 p]|] eqn:Ep; [|done].
      simpl in H. injection H as <- <-.
      eapply Forall2_trans; [apply same_columns_trans|exact IH|].
      eapply Forall2_impl; [eapply process_prototype_devices; [|exact Ep]|].
      + by rewrite (Forall2_same_columns_ids _ _ IH).
      + by intros ?? [? _].
  Qed.
End DeviceFrame.

(** X13: a fetch pass creates no inventory device and deletes none.  The
    processing of one unit leaves every device as it is, but that it may
    append "-1" to the name of a device and may give a serial to a device
    that has none; over a whole pass every device keeps its id, site,
    tenant, role, device type and primary address.  The ids of the devices
    are taken to be distinct. *)
Theorem X13_fetch_keeps_the_devices
    (api : Api.Client) (controller : SdnController) (user : option Z)
    (net_contains : string → string → bool)
    (hostname_group : string → string → option string) (w : World) :
  NoDup (d_id <$> devices w) →
  (∀ prototype w2 saved,
     Fetch.process_prototype controller user net_contains hostname_group w prototype
     = Some (w2, saved) →
     Forall2 Frame.device_kept (devices w) (devices w2))
  ∧ (∀ device_list w' pass,
       Fetch.sync_device_list api controller user None net_contains hostname_group
         w device_list = Some (w', pass) →
       Forall2 Frame.same_columns (devices w) (devices w')
       ∧ length (devices w') = length (devices w)).
Proof.
  intros Hnd. split.
  - intros prototype w2 saved Hp. by eapply process_prototype_devices.
  - intros device_list w' pass H. unfold Fetch.sync_device_list in H.
    assert (Hall : Forall2 Frame.same_columns (devices w) (devices w')).
    { destruct (bool_decide _).
      - destruct (Splitter.split_device_list _ _ _) as [units|]; [|done]. simpl in H.
        by eapply sync_units_devices.
      - injection H as <- <-. apply Forall2_refl_on, same_columns_refl. }
    split; [done|]. symmetry. by eapply Forall2_length.
Qed.

Lemma X13_fetch_keeps_the_devices_witness :
  Forall2 Frame.device_kept (devices Examples.edge_world)
    (devices (default Examples.edge_world
                (fst <$> Examples.process Examples.edge_world Examples.edge_unit))).
Proof.
  destruct (Examples.process Examples.edge_world Examples.edge_unit)
    as [[w2 saved]|] eqn:E; [|by vm_compute in E].
  destruct (X13_fetch_keeps_the_devices (Examples.stack_api []) Examples.catalyst_center
              None Examples.no_prefix Examples.no_group Examples.edge_world) as [H _].
  - apply (@bool_decide_unpack (NoDup (d_id <$> devices Examples.edge_world)) _).
    by vm_compute.
  - exact (H Examples.edge_unit w2 saved E).
Defined.

(** ** The messages of a validation *)

Lemma with_log_same (w : World) : with_log (log w ++ []) w = w.
Proof. destruct w. unfold with_log. simpl. by rewrite app_nil_r. Qed.

Lemma extended_refl with_logs v : Frame.extended with_logs v v.
Proof.
  exists []. rewrite app_nil_r. destruct with_logs; simpl; rewrite with_log_same; by repeat split.
Qed.

Lemma extended_trans with_logs v1 v2 v3 :
  Frame.extended with_logs v1 v2 → Frame.extended with_logs v2 v3 →
  Frame.extended with_logs v1 v3.
Proof.
  intros (a1 & Hm1 & Hw1 & Hf1 & Hn1) (a2 & Hm2 & Hw2 & Hf2 & Hn2).
  exists (a1 ++ a2). split; [|split; [|split]].
  - by rewrite Hm2, Hm1, app_assoc.
  - rewrite Hw2, Hw1. unfold with_log. simpl. destruct with_logs.
    + by rewrite fmap_app, !app_assoc.
    + by rewrite !app_nil_r.
  - intros H3. destruct (Hf2 H3) as [H2 ->]. destruct (Hf1 H2) as [H1 ->]. done.
  - auto.
Qed.

Lemma fail_extended with_logs message v :
  Frame.extended with_logs v (Validator.fail with_logs message v).
Proof.
  destruct v as [[ok ml] w]. unfold Validator.fail.
  destruct (bool_decide (message ∈ ml)) eqn:E.
  - exists []. simpl. rewrite app_nil_r.
    destruct with_logs; simpl; rewrite with_log_same; by repeat split.
  - apply bool_decide_eq_false in E. exists [message]. simpl.
    split; [done|]. split; [|split; [done|]].
    + destruct with_logs; [done|]. by rewrite with_log_same.
    + intros Hnd. apply NoDup_app. split; [done|]. split; [|apply NoDup_singleton].
      intros m Hm Hm'. apply list_elem_of_singleton in Hm' as ->. done.
Qed.

Section ValidatorRel.
  Variable canonical_interface_name : string → string.
  Variable with_logs : bool.
  Variable R : Validator.validation → Validator.validation → Prop.
  Hypothesis R_refl : ∀ v, R v v.
  Hypothesis R_trans : ∀ v1 v2 v3, R v1 v2 → R v2 v3 → R v1 v3.
  Hypothesis R_fail : ∀ message v, R v (Validator.fail with_logs message v).

Ltac rel_step :=
    first [ apply R_refl | apply R_fail | eapply R_trans; apply R_fail ].

Lemma foldl_rel {A} (f : Validator.validation → A → Validator.validation) l v :
    (∀ v x, R v (f v x)) → R v (foldl f v l).
  Proof.
    intros Hf. revert v. induction l as [|x l IH]; intros v; simpl.
    - apply R_refl.
    - eapply R_trans; [apply Hf|apply IH].
  Qed.

Lemma validate_one_rel after_modules w0 v p :
    R v (Validator.validate_one canonical_interface_name with_logs after_modules w0 v p).
  Proof.
    assert (H1 : ∀ v, R v (Validator.check_related with_logs w0 p v)).
    { intros v'. unfold Validator.check_related. repeat case_match; rel_step. }
    assert (H2 : ∀ v, R v (Validator.check_required with_logs p v)).
    { intros v'. unfold Validator.check_required. apply foldl_rel.
      intros v'' f. case_match; rel_step. }
    assert (H3 : ∀ v, R v (Validator.check_stack_index with_logs w0 p v)).
    { intros v'. unfold Validator.check_stack_index. repeat case_match; rel_step. }
    assert (H4 : ∀ v, R v (Validator.check_primary_ip with_logs w0 p v)).
    { intros v'. unfold Validator.check_primary_ip. repeat case_match; rel_step. }
    assert (H5 : ∀ v, R v (Validator.check_interfaces canonical_interface_name
                             with_logs w0 p v)).
    { intros v'. unfold Validator.check_interfaces. case_match; [|apply R_refl].
      apply foldl_rel. intros v'' i. repeat case_match; rel_step. }
    assert (H6 : ∀ v, R v (Validator.check_module_bays with_logs w0 p v)).
    { intros v'. unfold Validator.check_module_bays. case_match; [|apply R_refl].
      apply foldl_rel. intros v'' b. case_match; rel_step. }
    unfold Validator.validate_one.
    assert (H : R v (Validator.check_primary_ip with_logs w0 p
                       (Validator.check_stack_index with_logs w0 p
                          (Validator.check_required with_logs p
                             (Validator.check_related with_logs w0 p v))))).
    { eapply R_trans; [apply H1|]. eapply R_trans; [apply H2|].
      eapply R_trans; [apply H3|apply H4]. }
    destruct after_modules; [|done].
    eapply R_trans; [exact H|]. eapply R_trans; [apply H5|apply H6].
  Qed.

Lemma validate_prototype_rel w p ml after_modules :
    R (true, ml, w)
      (Validator.validate_prototype canonical_interface_name w p ml with_logs
         after_modules).
  Proof.
    unfold Validator.validate_prototype. apply foldl_rel.
    intros v q. apply validate_one_rel.
  Qed.
End ValidatorRel.

Lemma validate_prototype_extended canonical_interface_name w p ml with_logs after_modules :
  Frame.extended with_logs (true, ml, w)
    (Validator.validate_prototype canonical_interface_name w p ml with_logs after_modules).
Proof.
  apply validate_prototype_rel.
  - apply extended_refl.
  - apply extended_trans.
  - apply fail_extended.
Qed.

(** X14: what a validation does to the message list and to the log.  The
    returned list is the given one with the new messages appended, and has
    no duplicate when the given one has none; the world is left as it is but
    for the log, which gets the new messages as failures, in this order,
    when the validation logs, and nothing when it does not: a message that
    was already in the list is not logged again.  When the validation
    passes, no message was added. *)
Theorem X14_validation_messages
    (canonical_interface_name : string → string) (w : World) (p : Prototype)
    (message_list : list Message) (with_logs after_modules : bool) :
  let v := Validator.validate_prototype canonical_interface_name w p message_list
             with_logs after_modules in
  ∃ added,
    v.1.2 = message_list ++ added
    ∧ (NoDup message_list → NoDup (message_list ++ added))
    ∧ v.2 = (if with_logs
             then with_log (log w ++ ((λ m, (Failure, m)) <$> added)) w
             else w)
    ∧ (v.1.1 = true → added = []).
Proof.
  intros v.
  destruct (validate_prototype_extended canonical_interface_name w p message_list
              with_logs after_modules) as (added & Hm & Hw & Hf & Hn).
  fold v in Hm, Hw, Hf, Hn. simpl in *. exists added.
  split; [done|]. split; [by rewrite <- Hm|]. split.
  - rewrite Hw. destruct with_logs; [done|apply with_log_same].
  - intros H. by destruct (Hf H).
Qed.

(** ** The importer on a selection that cannot be imported *)

Lemma first_exists {A} (f : A → bool) (l : list A) (x : A) :
  x ∈ l → f x = true → ∃ y, first f l = Some y.
Proof.
  unfold first. induction l as [|a l IH]; intros Hin Hx; [by inversion Hin|].
  simpl. destruct (f a) eqn:Ea; [by eexists|].
  apply elem_of_cons in Hin as [->|Hin]; [congruence|by apply IH].
Qed.

Lemma prototype_object_list_elem_of w ids i :
  i ∈ Importer.prototype_object_list w ids →
  ∃ q, q ∈ prototypes w ∧ id q = Some i ∧ i ∈ ids ∧ sync_status q ≠ DELETED.
Proof.
  unfold Importer.prototype_object_list. intros Hi.
  apply list_elem_of_omap in Hi as (q & Hq & Hid).
  apply list_elem_of_In, List.filter_In in Hq as [Hq Hsel].
  apply andb_prop in Hsel as [Hsel Hdel].
  apply bool_decide_eq_true in Hsel. apply negb_true_iff, bool_decide_eq_false in Hdel.
  apply list_elem_of_In in Hq. exists q. rewrite Hid in Hsel. by simpl in Hsel.
Qed.

Lemma failed_log_info m w : Importer.failed (log_message Info m w) = Importer.failed w.
Proof.
  unfold Importer.failed, log_message. simpl.
  by rewrite existsb_app, orb_false_r.
Qed.

Section InvalidBatch.
  Variable canonical_interface_name : string → string.
  Variable user : option Z.
  Variable instantiate_components : World → Device → option World.
  Variable write_components : World → Prototype → Device → bool → option World.

  Abbreviation import_silent :=
    (Importer.import_prototype canonical_interface_name user false
       instantiate_components write_components).

Lemma clean_prototype_interfaces_log w p :
    log (Validator.clean_prototype_interfaces canonical_interface_name w p) = log w.
  Proof.
    unfold Validator.clean_prototype_interfaces.
    apply foldl_frame. intros w0 q. by destruct (matching_netbox_device q).
  Qed.

Lemma mark_discovered_failed w p :
    Importer.failed (Importer.mark_discovered user w p) = Importer.failed w.
  Proof.
    unfold Importer.mark_discovered. rewrite failed_log_info.
    unfold Importer.failed, Importer.object_changelog, Fetch.object_changelog.
    by destruct user.
  Qed.

  (** A turn of the loop on a prototype that lacks a required field, when
      the validation does not log. *)
Lemma import_turn_invalid w ml i p field :
    prototype_by_id w i = Some p →
    field ∈ Validator.required_fields → Validator.has_field p field = false →
    let r := import_silent (w, ml) i in
    prototype_by_id r.1 i = Some (set_sync_status DISCOVERED p)
    ∧ (∀ j, j ≠ i → prototype_by_id r.1 j = prototype_by_id w j)
    ∧ devices r.1 = devices w
    ∧ Importer.failed r.1 = Importer.failed w.
  Proof.
    intros Hsel Hfield Hmiss r.
    destruct (clean_prototype_interfaces_tables canonical_interface_name w p) as [Hcp Hcd].
    pose proof (clean_prototype_interfaces_log w p) as Hcl.
    set (wc := Validator.clean_prototype_interfaces canonical_interface_name w p) in *.
    set (checked := Validator.validate_prototype canonical_interface_name wc p ml
                      false false).
    destruct (prototype_by_id_elem_of w i p Hsel) as [Hin Hid].
    destruct (validate_prototype_missing canonical_interface_name wc p ml false false
                p field) as [Hflag _]; [by rewrite Hcp|done..|].
    fold checked in Hflag.
    assert (Hr : r = (Importer.mark_discovered user checked.2 p, checked.1.2)).
    { by apply import_prototype_invalid. }
    assert (Hw : checked.2 = wc).
    { destruct (validate_prototype_extended canonical_interface_name wc p ml false false)
        as (added & _ & Hw & _).
      fold checked in Hw. rewrite Hw. simpl. apply with_log_same. }
    rewrite Hr, Hw. cbn [fst].
    destruct (mark_discovered_row user wc p i) as (Hrow & Hdev & Hothers);
      [by rewrite Hcp|done|].
    split; [done|]. split; [|split].
    - intros j Hj. rewrite (Hothers j Hj). by apply prototype_by_id_frame.
    - by rewrite Hdev.
    - rewrite mark_discovered_failed. unfold Importer.failed. by rewrite Hcl.
  Qed.

Lemma import_loop_invalid (selected l : list Z) (w : World) (ml : list Message) :
    (∀ i, i ∈ l → i ∈ selected) →
    (∀ i, i ∈ selected →
       ∃ p field, prototype_by_id w i = Some p ∧ field ∈ Validator.required_fields
                  ∧ Validator.has_field p field = false) →
    let r := foldl import_silent (w, ml) l in
    (∀ i, i ∈ selected →
       ∃ p field, prototype_by_id r.1 i = Some p ∧ field ∈ Validator.required_fields
                  ∧ Validator.has_field p field = false)
    ∧ devices r.1 = devices w
    ∧ Importer.failed r.1 = Importer.failed w
    ∧ ∀ i, i ∈ l → sync_status <$> prototype_by_id r.1 i = Some DISCOVERED.
  Proof.
    intros Hsub Hlack. induction l as [|j l IH] using rev_ind.
    - simpl. repeat split; [done|]. intros i Hi. by apply elem_of_nil in Hi.
    - rewrite foldl_app. cbn [foldl].
      destruct IH as (Hinv & Hdev & Hfail & Hst).
      { intros i Hi. apply Hsub, elem_of_app. by left. }
      destruct (foldl import_silent (w, ml) l) as [w1 ml1]. cbn [fst] in *.
      destruct (Hinv j) as (p & field & Hp & Hfield & Hmiss).
      { apply Hsub, elem_of_app. right. by left. }
      destruct (import_turn_invalid w1 ml1 j p field Hp Hfield Hmiss)
        as (Hrow & Hothers & Hdev' & Hfail').
      split; [|split; [congruence|split; [congruence|]]].
      + intros i Hi. destruct (decide (i = j)) as [->|Hne].
        * exists (set_sync_status DISCOVERED p), field. by rewrite Hrow.
        * rewrite (Hothers i Hne). by apply Hinv.
      + intros i Hi. destruct (decide (i = j)) as [->|Hne].
        * by rewrite Hrow.
        * rewrite (Hothers i Hne). apply Hst.
          apply elem_of_app in Hi as [Hi|Hi]; [done|].
          by apply list_elem_of_singleton in Hi.
  Qed.
End InvalidBatch.

(** X15: an import whose selection holds no stored prototype that is not
    [DELETED] (nothing selected, unknown ids, deleted prototypes only) logs
    the failure "No item was selected", does nothing else and fails. *)
Theorem X15_import_of_nothing
    (canonical_interface_name : string → string) (user : option Z) (log_all_errors : bool)
    (instantiate_components : World → Device → option World)
    (write_components : World → Prototype → Device → bool → option World)
    (w : World) (prototype_id_list : list Z) :
  (∀ p, p ∈ prototypes w → default 0 (id p) ∈ prototype_id_list →
        sync_status p = DELETED) →
  Importer.import_fetched_elements_in_netbox canonical_interface_name user log_all_errors
    instantiate_components write_components w prototype_id_list
  = (log_message Failure NoItemSelected w, false).
Proof.
  intros Hdel. unfold Importer.import_fetched_elements_in_netbox.
  destruct (Importer.prototype_object_list w prototype_id_list) as [|i l] eqn:E; [done|].
  destruct (prototype_object_list_elem_of w prototype_id_list i)
    as (q & Hq & Hid & Hi & Hnot).
  { rewrite E. by left. }
  destruct Hnot. apply Hdel; [done|]. by rewrite Hid.
Qed.

Lemma X15_import_of_nothing_witness :
  Importer.import_fetched_elements_in_netbox Examples.same_name None true
    Examples.no_components Examples.no_writes
    (Examples.world_of (set_sync_status DELETED (Examples.candidate_prototype (Some 4))))
    [1]
  = (log_message Failure NoItemSelected
       (Examples.world_of
          (set_sync_status DELETED (Examples.candidate_prototype (Some 4)))), false).
Proof.
  apply X15_import_of_nothing. intros p Hp _.
  apply list_elem_of_singleton in Hp as ->. reflexivity.
Defined.

(** X16: an import that does not log the validation errors
    ([log_all_errors] off), over a selection in which every stored prototype
    lacks a required field.  No inventory device is created or changed,
    every selected prototype is saved as [DISCOVERED], and the import
    reports success when the script had not failed before, although nothing
    was imported. *)
Theorem X16_invalid_batch_reports_success
    (canonical_interface_name : string → string) (user : option Z)
    (instantiate_components : World → Device → option World)
    (write_components : World → Prototype → Device → bool → option World)
    (w : World) (prototype_id_list : list Z) :
  Importer.prototype_object_list w prototype_id_list ≠ [] →
  Importer.failed w = false →
  (∀ p, p ∈ prototypes w → default 0 (id p) ∈ prototype_id_list →
        ∃ field, field ∈ Validator.required_fields
                 ∧ Validator.has_field p field = false) →
  let result :=
    Importer.import_fetched_elements_in_netbox canonical_interface_name user false
      instantiate_components write_components w prototype_id_list in
  result.2 = true
  ∧ devices result.1 = devices w
  ∧ ∀ i, i ∈ Importer.prototype_object_list w prototype_id_list →
         sync_status <$> prototype_by_id result.1 i = Some DISCOVERED.
Proof.
  intros Hsome Hfailed Hlack result.
  set (selected := Importer.prototype_object_list w prototype_id_list) in *.
  destruct (import_loop_invalid canonical_interface_name user instantiate_components
              write_components selected selected w [])
    as (_ & Hdev & Hfail & Hst); [done| |].
  { intros i Hi.
    destruct (prototype_object_list_elem_of w prototype_id_list i Hi)
      as (q & Hq & Hid & Hsel & _).
    destruct (first_exists (λ p, bool_decide (id p = Some i)) (prototypes w) q)
      as [p Hp]; [done|by apply bool_decide_eq_true|].
    destruct (prototype_by_id_elem_of w i p Hp) as [Hin Hpid].
    destruct (Hlack p Hin) as (field & Hfield & Hmiss); [by rewrite Hpid|].
    by exists p, field. }
  subst result. unfold Importer.import_fetched_elements_in_netbox. fold selected.
  destruct selected as [|i0 l0] eqn:E; [done|].
  destruct (foldl _ (w, []) (i0 :: l0)) as [w' ml'].
  cbn [fst snd] in *. rewrite Hfail, Hfailed. by repeat split.
Qed.

Lemma X16_invalid_batch_reports_success_witness :
  (Importer.import_fetched_elements_in_netbox Examples.same_name None false
     Examples.no_components Examples.no_writes
     (Examples.world_of (Examples.candidate_prototype None)) [1]).2
  = true.
Proof.
  apply (X16_invalid_batch_reports_success Examples.same_name None
           Examples.no_components Examples.no_writes
           (Examples.world_of (Examples.candidate_prototype None)) [1]).
  - by vm_compute.
  - reflexivity.
  - intros p Hp _. apply list_elem_of_singleton in Hp as ->.
    exists "site". split; [|reflexivity].
    unfold Validator.required_fields. set_solver.
Defined.

(** ** The interfaces the import writes *)

Lemma merge_attr_name iface_name state item :
  name (merge_attr iface_name state item).1 = name state.1
  ∧ type (merge_attr iface_name state item).1 = type state.1.
Proof.
  destruct state as [o ws], item as [attr v]. unfold merge_attr.
  by repeat case_match.
Qed.

Lemma merge_attrs_name iface_name o attrs :
  name (merge_attrs iface_name o attrs).1 = name o
  ∧ type (merge_attrs iface_name o attrs).1 = type o.
Proof.
  unfold merge_attrs. generalize (@nil Mismatch). revert o.
  induction attrs as [|item attrs IH]; intros o ws; [done|].
  cbn [foldl].
  destruct (merge_attr_name iface_name (o, ws) item) as [H1 H2].
  destruct (merge_attr iface_name (o, ws) item) as [o1 ws1].
  destruct (IH o1 ws1) as [H3 H4]. simpl in *. split; congruence.
Qed.

Lemma port_mode_name iface_data o :
  name (port_mode iface_data o) = name o ∧ type (port_mode iface_data o) = type o.
Proof. unfold port_mode. by repeat case_match. Qed.

Lemma find_none_elem_of {A} (f : A → bool) (l : list A) :
  List.find f l = None → ∀ x, x ∈ l → f x = false.
Proof.
  intros H x Hx. apply list_elem_of_In in Hx. by apply (List.find_none f l H).
Qed.

(** ** [process_interfaces] *)

(** One turn of the loop body that writes: the interface found under the
    name, with its name and type, or a new one of a valid name that was
    not found. *)
Lemma process_interface_written
    (get_most_common_interface_type : string → option string)
    (interfaces : list InterfaceObject) (iface_name : string) (iface_data : Api.Interface)
    (action : Action) (interface_object : InterfaceObject) (warnings : list Mismatch) :
  process_interface get_most_common_interface_type interfaces iface_name iface_data
  = Written action interface_object warnings →
  (action = ACTION_UPDATE
   ∧ ∃ existing,
       List.find (λ o, bool_decide (Py.lower (name o) = Py.lower iface_name)) interfaces
       = Some existing
       ∧ name interface_object = name existing
       ∧ type interface_object = type existing)
  ∨ (action = ACTION_CREATE
     ∧ List.find (λ o, bool_decide (Py.lower (name o) = Py.lower iface_name)) interfaces
       = None
     ∧ Utils.is_valid_interface iface_name = true
     ∧ name interface_object = iface_name).
Proof.
  unfold process_interface.
  destruct (iface_attrs iface_data) as [attrs|]; [|done].
  unfold interface_object_for.
  destruct (List.find _ interfaces) as [existing|] eqn:Efind.
  - destruct (merge_attrs_name iface_name existing attrs) as [Hn Ht].
    destruct (merge_attrs iface_name existing attrs) as [o ws].
    destruct (port_mode_name iface_data o) as [Hn' Ht']. simpl in *.
    intros [= <- <- <-]. left. split; [done|]. exists existing.
    split; [done|]. split; congruence.
  - destruct (Utils.is_valid_interface iface_name) eqn:Evalid; [|done].
    destruct (Api.interfaceType iface_data) as [interface_type|]; [|done]. simpl.
    set (created := {| name := iface_name |}).
    destruct (merge_attrs_name iface_name created attrs) as [Hn Ht].
    destruct (merge_attrs iface_name created attrs) as [o ws].
    destruct (port_mode_name iface_data o) as [Hn' Ht']. simpl in *.
    intros [= <- <- <-]. right. split; [done|]. split; [done|]. split; [done|]. congruence.
Qed.

Lemma same_name_and_type_refl o : ProcessInterfaces.same_name_and_type o o.
Proof. by split. Qed.

Lemma same_name_and_type_trans o1 o2 o3 :
  ProcessInterfaces.same_name_and_type o1 o2 → ProcessInterfaces.same_name_and_type o2 o3 →
  ProcessInterfaces.same_name_and_type o1 o3.
Proof. intros [? ?] [? ?]. split; congruence. Qed.

Lemma Forall2_same_refl (l : list InterfaceObject) :
  Forall2 ProcessInterfaces.same_name_and_type l l.
Proof. apply Forall_Forall2_diag, Forall_forall. intros o _. apply same_name_and_type_refl. Qed.

Lemma Forall2_same_names (l l' : list InterfaceObject) :
  Forall2 ProcessInterfaces.same_name_and_type l l' → name <$> l' = name <$> l.
Proof.
  induction 1 as [|o o' l l' [Hn _] _ IH]; [done|]. rewrite !fmap_cons. congruence.
Qed.

(** The row that [save] replaces keeps its name and type. *)
Lemma update_first_same (p : InterfaceObject → bool) (x existing : InterfaceObject)
    (l : list InterfaceObject) :
  List.find p l = Some existing →
  name x = name existing → type x = type existing →
  Forall2 ProcessInterfaces.same_name_and_type l (ProcessInterfaces.update_first p x l).
Proof.
  intros Hfind Hn Ht. induction l as [|y l IH]; [done|].
  simpl in *. destruct (p y).
  - injection Hfind as ->. constructor; [by split|apply Forall2_same_refl].
  - constructor; [apply same_name_and_type_refl|by apply IH].
Qed.

Section LoopFacts.
  Variable get_most_common_interface_type : string → option string.
  Variable existing : list InterfaceObject.
  Variable items : list (string * Api.Interface).

  (** The device after some turns: the interfaces it had, with their names
      and types, then the created ones, which have reported names that are
      valid, that no interface of the device had in any letter case, and
      that differ from one another even without the case. *)
Lemma process_item_invariant (kept created : list InterfaceObject)
      (entries : list ProcessInterfaces.Entry) (item : string * Api.Interface) :
    item ∈ items →
    Forall2 ProcessInterfaces.same_name_and_type existing kept →
    Forall (λ o', (∃ iface_data, (name o', iface_data) ∈ items)
                  ∧ Utils.is_valid_interface (name o') = true
                  ∧ ∀ o, o ∈ existing → Py.lower (name o) ≠ Py.lower (name o')) created →
    NoDup ((λ o, Py.lower (name o)) <$> created) →
    ∃ kept' created',
      (ProcessInterfaces.process_item get_most_common_interface_type
         (kept ++ created, entries) item).1 = kept' ++ created'
      ∧ Forall2 ProcessInterfaces.same_name_and_type existing kept'
      ∧ Forall (λ o', (∃ iface_data, (name o', iface_data) ∈ items)
                      ∧ Utils.is_valid_interface (name o') = true
                      ∧ ∀ o, o ∈ existing → Py.lower (name o) ≠ Py.lower (name o'))
          created'
      ∧ NoDup ((λ o, Py.lower (name o)) <$> created').
  Proof.
    intros Hitem Hkept Hcreated Hnd. destruct item as [iface_name iface_data].
    unfold ProcessInterfaces.process_item.
    destruct (process_interface _ (kept ++ created) iface_name iface_data)
      as [| |action o ws] eqn:E.
    - by exists kept, created.
    - by exists kept, created.
    - apply process_interface_written in E
        as [(-> & e & Hfind & Hn & Ht)|(-> & Hfind & Hvalid & Hn)]; simpl.
      + pose proof (update_first_same _ o e _ Hfind Hn Ht) as Hsame.
        apply Forall2_app_inv_l in Hsame as (kept' & created' & Hk & Hc & ->).
        exists kept', created'. split; [done|]. split; [|split].
        * eapply Forall2_trans; [|exact Hkept|exact Hk].
          intros ???. apply same_name_and_type_trans.
        * apply Forall_forall. intros o' Ho'.
          apply list_elem_of_lookup in Ho' as [k Hk'].
          destruct (Forall2_lookup_r _ _ _ _ _ Hc Hk') as (o0 & Ho0 & [Hname _]).
          rewrite Forall_forall in Hcreated.
          rewrite Hname. apply Hcreated. by eapply list_elem_of_lookup_2.
        * assert (Hnames : name <$> created' = name <$> created)
            by by apply Forall2_same_names.
          rewrite (list_fmap_compose name Py.lower) in Hnd |- *. by rewrite Hnames.
      + exists kept, (created ++ [o]). split; [by rewrite app_assoc|]. split; [done|].
        assert (Hnone : ∀ x, x ∈ kept ++ created →
                          Py.lower (name x) ≠ Py.lower iface_name).
        { intros x Hx. pose proof (find_none_elem_of _ _ Hfind x Hx) as H. simpl in H.
          by apply bool_decide_eq_false in H. }
        split.
        * apply Forall_app. split; [done|]. apply Forall_singleton. rewrite Hn.
          split; [by exists iface_data|]. split; [done|].
          intros x Hx. apply list_elem_of_lookup in Hx as [k Hk].
          destruct (Forall2_lookup_l _ _ _ _ _ Hkept Hk) as (x' & Hx' & [Hname _]).
          rewrite <- Hname. apply Hnone, elem_of_app. left.
          by eapply list_elem_of_lookup_2.
        * rewrite fmap_app. apply NoDup_app. split; [done|]. split; [|apply NoDup_singleton].
          intros y Hy Hy'. apply list_elem_of_singleton in Hy'. subst y.
          apply list_elem_of_fmap in Hy as (x & Hx & Hin). rewrite Hn in Hx.
          apply (Hnone x); [apply elem_of_app; by right|done].
  Qed.

Lemma process_items_invariant (l : list (string * Api.Interface)) :
    ∀ (kept created : list InterfaceObject) (entries : list ProcessInterfaces.Entry),
      (∀ item, item ∈ l → item ∈ items) →
      Forall2 ProcessInterfaces.same_name_and_type existing kept →
      Forall (λ o', (∃ iface_data, (name o', iface_data) ∈ items)
                    ∧ Utils.is_valid_interface (name o') = true
                    ∧ ∀ o, o ∈ existing → Py.lower (name o) ≠ Py.lower (name o'))
        created →
      NoDup ((λ o, Py.lower (name o)) <$> created) →
      ∃ kept' created',
        (foldl (ProcessInterfaces.process_item get_most_common_interface_type)
           (kept ++ created, entries) l).1 = kept' ++ created'
        ∧ Forall2 ProcessInterfaces.same_name_and_type existing kept'
        ∧ Forall (λ o', (∃ iface_data, (name o', iface_data) ∈ items)
                        ∧ Utils.is_valid_interface (name o') = true
                        ∧ ∀ o, o ∈ existing → Py.lower (name o) ≠ Py.lower (name o'))
            created'
        ∧ NoDup ((λ o, Py.lower (name o)) <$> created').
  Proof.
    induction l as [|item l IH]; intros kept created entries Hsub Hkept Hcreated Hnd.
    - by exists kept, created.
    - cbn [foldl].
      destruct (process_item_invariant kept created entries item)
        as (kept1 & created1 & H1 & Hkept1 & Hcreated1 & Hnd1); [apply Hsub; by left|done..|].
      destruct (ProcessInterfaces.process_item _ (kept ++ created, entries) item)
        as [interfaces1 entries1].
      simpl in H1. subst interfaces1.
      apply IH; [|done..]. intros x Hx. apply Hsub. by right.
  Qed.
End LoopFacts.



(** ** The clean-up before an import *)

Section CleanUp.
  Variable canonical_interface_name : string → string.

Lemma is_device_type_template_frame (w w' : World) (i : Interface) :
    devices w' = devices w → interface_templates w' = interface_templates w →
    Validator.is_device_type_template canonical_interface_name w' i
    = Validator.is_device_type_template canonical_interface_name w i.
  Proof.
    intros Hd Ht. unfold Validator.is_device_type_template, device_by_id.
    by rewrite Hd, Ht.
  Qed.

Lemma clean_loop_interfaces (w : World) (i : Interface) (l : list Prototype) (w0 : World) :
    devices w0 = devices w → interface_templates w0 = interface_templates w →
    i ∈ interfaces
          (foldl (λ w same_stack_prototype,
                    match matching_netbox_device same_stack_prototype with
                    | Some device =>
                        with_interfaces
                          (List.filter
                             (λ actual_interface,
                                negb (bool_decide (if_device actual_interface = device)
                                      && negb (bool_decide (is_Some (if_cable actual_interface)))
                                      && negb (bool_decide (is_Some (if_module actual_interface)))
                                      && negb (Utils.is_valid_interface (if_name actual_interface))
                                      && negb (Validator.is_device_type_template
                                                 canonical_interface_name w actual_interface)))
                             (interfaces w)) w
                    | None => w
                    end) w0 l)
    ↔ i ∈ interfaces w0
      ∧ ¬ (Frame.unused canonical_interface_name w i = true
           ∧ ∃ q, q ∈ l ∧ matching_netbox_device q = Some (if_device i)).
  Proof.
    revert w0. induction l as [|q l IH]; intros w0 Hd Ht.
    - simpl. split; [|by intros [? _]].
      intros Hi. split; [done|]. intros (_ & q & Hq & _). by apply elem_of_nil in Hq.
    - cbn [foldl]. destruct (matching_netbox_device q) as [device|] eqn:Eq.
      + rewrite IH by done. simpl. rewrite list_elem_of_In, List.filter_In, <- list_elem_of_In.
        rewrite (is_device_type_template_frame w w0 i Hd Ht).
        unfold Frame.unused. split.
        * intros [[Hi Hkeep] Hrest]. split; [done|].
          intros (Hun & q' & Hq' & Hm). apply elem_of_cons in Hq' as [->|Hq'].
          -- rewrite Eq in Hm. injection Hm as ->.
             rewrite bool_decide_eq_true_2 in Hkeep by done.
             simpl in Hkeep. rewrite <- !andb_assoc in Hkeep. rewrite !andb_assoc in Hkeep.
             rewrite Hun in Hkeep. done.
          -- apply Hrest. split; [done|]. by exists q'.
        * intros [Hi Hnot]. split; [split; [done|]|].
          -- destruct (bool_decide (if_device i = device)) eqn:Edev; [|done].
             apply bool_decide_eq_true in Edev. simpl.
             apply negb_true_iff. apply not_true_is_false. intros Hun.
             apply Hnot. split; [done|]. exists q. split; [by left|congruence].
          -- intros (Hun & q' & Hq' & Hm). apply Hnot. split; [done|].
             exists q'. split; [by right|done].
      + rewrite IH by done. split.
        * intros [Hi Hnot]. split; [done|]. intros (Hun & q' & Hq' & Hm).
          apply elem_of_cons in Hq' as [->|Hq']; [congruence|].
          apply Hnot. split; [done|]. by exists q'.
        * intros [Hi Hnot]. split; [done|]. intros (Hun & q' & Hq' & Hm).
          apply Hnot. split; [done|]. exists q'. split; [by right|done].
  Qed.
End CleanUp.

(** X18: the clean-up before the import of a prototype deletes interfaces
    and nothing else.  An interface is deleted exactly when it is on the
    matching device of a stored prototype with the instance uuid of the
    selected one and it has no cable, no module, a name that is not a valid
    one and no template of that type; every other interface stays, and so
    do the prototypes and the devices. *)
Theorem X18_clean_up_deletes_unused_interfaces
    (canonical_interface_name : string → string) (w : World) (sdn_prototype : Prototype) :
  let cleaned := Validator.clean_prototype_interfaces canonical_interface_name w
                   sdn_prototype in
  (∀ actual_interface,
     actual_interface ∈ interfaces cleaned
     ↔ actual_interface ∈ interfaces w
       ∧ ¬ (Frame.unused canonical_interface_name w actual_interface = true
            ∧ ∃ same_stack_prototype,
                same_stack_prototype ∈ prototypes w
                ∧ instance_uuid same_stack_prototype = instance_uuid sdn_prototype
                ∧ matching_netbox_device same_stack_prototype
                  = Some (if_device actual_interface)))
  ∧ prototypes cleaned = prototypes w
  ∧ devices cleaned = devices w.
Proof.
  intros cleaned. split; [|apply clean_prototype_interfaces_tables].
  intros i. subst cleaned. unfold Validator.clean_prototype_interfaces.
  rewrite clean_loop_interfaces by done.
  split; intros [Hi Hnot]; (split; [done|]); intros (Hun & q & Hq); apply Hnot;
    (split; [done|]); exists q.
  - destruct Hq as (Hq & Hu & Hm). split; [|done].
    apply list_elem_of_In, List.filter_In. split; [by apply list_elem_of_In|].
    by apply bool_decide_eq_true.
  - destruct Hq as (Hq & Hm).
    apply list_elem_of_In, List.filter_In in Hq as [Hq Hu].
    apply list_elem_of_In in Hq. apply bool_decide_eq_true in Hu. done.
Qed.

(** ** What a match has consumed *)

(** A repetition that succeeds has passed a run of the class to its
    continuation. *)
Lemma star_some {A} g (p : ascii → bool) (s : list ascii) (k : list ascii → option A) res :
  Re.star g p s k = Some res →
  ∃ run s', s = run ++ s' ∧ forallb p run = true ∧ k s' = Some res.
Proof.
  induction s as [|c s IH]; simpl; intros H.
  - by exists [], [].
  - destruct (p c) eqn:Ec; [|by exists [], (c :: s)].
    assert (Hcases : Re.star g p s k = Some res ∨ k (c :: s) = Some res).
    { destruct g.
      - destruct (Re.star true p s k); [by left|by right].
      - destruct (k (c :: s)); [by right|by left]. }
    destruct Hcases as [Hs|Hk]; [|by exists [], (c :: s)].
    destruct (IH Hs) as (run & s' & -> & Hrun & Hk).
    exists (c :: run), s'. simpl. by rewrite Ec.
Qed.

Lemma plus_some {A} ic g (p : ascii → bool) (s : list ascii) cs
    (k : list ascii → Re.captures → option A) res :
  Re.go ic (Re.Plus g p) s cs k = Some res →
  ∃ run s', run ≠ [] ∧ s = run ++ s' ∧ forallb p run = true ∧ k s' cs = Some res.
Proof.
  simpl. destruct s as [|c s]; [done|]. destruct (p c) eqn:Ec; [|done].
  intros H. apply star_some in H as (run & s' & -> & Hrun & Hk).
  exists (c :: run), s'. simpl. by rewrite Ec.
Qed.

Lemma take_run (run s' : list ascii) :
  take (length (run ++ s') - length s') (run ++ s') = run.
Proof.
  rewrite length_app. replace (length run + length s' - length s')%nat
    with (length run) by lia.
  by rewrite take_app_length.
Qed.

Lemma group_plus_some {A} ic n g (p : ascii → bool) (s : list ascii) cs
    (k : list ascii → Re.captures → option A) res :
  Re.go ic (Re.Group n (Re.Plus g p)) s cs k = Some res →
  ∃ run s', run ≠ [] ∧ forallb p run = true
            ∧ k s' ((n, Py.str run) :: cs) = Some res.
Proof.
  change (Re.go ic (Re.Group n (Re.Plus g p)) s cs k)
    with (Re.go ic (Re.Plus g p) s cs
            (λ s' cs', k s' ((n, Py.str (take (length s - length s') s)) :: cs'))).
  intros H. apply plus_some in H as (run & s' & Hne & -> & Hrun & Hk).
  rewrite take_run in Hk. by exists run, s'.
Qed.

Lemma lit_some {A} ic c (s : list ascii) cs (k : list ascii → Re.captures → option A) res :
  Re.go ic (Re.Lit c) s cs k = Some res → ∃ x s', s = x :: s' ∧ k s' cs = Some res.
Proof.
  simpl. destruct s as [|x s]; [done|]. destruct (Re.lit_eq ic c x); [|done].
  intros H. by exists x, s.
Qed.

Lemma literal_some {A} ic (l : list ascii) :
  ∀ (s : list ascii) cs (k : list ascii → Re.captures → option A) res,
    Re.go ic (foldr (λ c r, Re.Seq (Re.Lit c) r) Re.Eps l) s cs k = Some res →
    ∃ s', k s' cs = Some res.
Proof.
  induction l as [|c l IH]; intros s cs k res H; simpl in H.
  - by exists s.
  - destruct s as [|x s]; [done|]. destruct (Re.lit_eq ic c x); [|done].
    by apply IH in H.
Qed.

Lemma alt_some {A} ic r1 r2 (s : list ascii) cs
    (k : list ascii → Re.captures → option A) res :
  Re.go ic (Re.Alt r1 r2) s cs k = Some res →
  Re.go ic r1 s cs k = Some res ∨ Re.go ic r2 s cs k = Some res.
Proof. simpl. destruct (Re.go ic r1 s cs k); [by left|by right]. Qed.

Lemma opt_some {A} ic r (s : list ascii) cs
    (k : list ascii → Re.captures → option A) res :
  Re.go ic (Re.Opt r) s cs k = Some res →
  Re.go ic r s cs k = Some res ∨ k s cs = Some res.
Proof. simpl. destruct (Re.go ic r s cs k); [by left|by right]. Qed.

Lemma search_chars_some ic r (s : list ascii) m :
  Re.search_chars ic r s = Some m → ∃ s', Re.match_chars ic r s' = Some m.
Proof.
  induction s as [|c s IH]; simpl.
  - destruct (Re.match_chars ic r []) eqn:E; [|done]. intros [= <-]. by exists [].
  - destruct (Re.match_chars ic r (c :: s)) eqn:E; [|exact IH].
    intros [= <-]. by exists (c :: s).
Qed.

(** The patterns "(a|b) (\d+)" of the two extractors: group 2 is a run of
    digits. *)
Lemma word_number_group ic (a b : string) (s : list ascii) m :
  Re.search_chars ic
    (Re.Seq (Re.Group 1 (Re.Alt (Re.Str a) (Re.Str b)))
       (Re.Seq (Re.Lit " ") (Re.Group 2 (Re.Plus true Re.d)))) s = Some m →
  ∃ run, run ≠ [] ∧ forallb Re.d run = true ∧ Re.group 2 m = Some (Py.str run).
Proof.
  intros H. apply search_chars_some in H as [s0 H].
  unfold Re.match_chars in H. rewrite go_seq in H.
  change (Re.go ic (Re.Group 1 ?r) s0 [] ?k)
    with (Re.go ic r s0 []
            (λ s' cs', k s' ((1%nat, Py.str (take (length s0 - length s') s0)) :: cs')))
    in H.
  assert (Hrest : ∃ s1 cs1,
            Re.go ic (Re.Seq (Re.Lit " ") (Re.Group 2 (Re.Plus true Re.d))) s1 cs1
              (λ _ cs, Some cs) = Some m).
  { apply alt_some in H as [H|H]; apply literal_some in H as [s1 H]; eauto. }
  destruct Hrest as (s1 & cs1 & Hrest). rewrite go_seq in Hrest.
  apply lit_some in Hrest as (x & s2 & _ & Hrest).
  apply group_plus_some in Hrest as (run & s3 & Hne & Hrun & Hm).
  injection Hm as <-. by exists run.
Qed.

(** Group 1 of the port pattern is a run of digits. *)
Lemma port_pattern_group (s : list ascii) m :
  Re.search_chars false Utils.port_pattern s = Some m →
  ∃ run, run ≠ [] ∧ forallb Re.d run = true ∧ Re.group 1 m = Some (Py.str run).
Proof.
  intros H. apply search_chars_some in H as [s0 H].
  unfold Re.match_chars, Utils.port_pattern in H. rewrite go_seq in H.
  apply plus_some in H as (_ & s1 & _ & _ & _ & H). rewrite go_seq in H.
  apply plus_some in H as (_ & s2 & _ & _ & _ & H). rewrite go_seq in H.
  apply lit_some in H as (_ & s3 & _ & H). rewrite go_seq in H.
  apply group_plus_some in H as (run & s4 & Hne & Hrun & H). rewrite go_seq in H.
  apply lit_some in H as (_ & s5 & _ & H). rewrite go_seq in H.
  apply plus_some in H as (_ & s6 & _ & _ & _ & H).
  assert (Hm : m = [(1%nat, Py.str run)]).
  { apply opt_some in H as [H|H]; [|by injection H].
    rewrite go_seq in H. apply lit_some in H as (_ & s7 & _ & H).
    apply plus_some in H as (_ & s8 & _ & _ & _ & H). by injection H. }
  exists run. by rewrite Hm.
Qed.

(** The two groups of the pattern of the SPA names are runs of digits. *)
Lemma spa_pattern_groups (s : list ascii) m :
  Re.search_chars false Resolver.spa_pattern s = Some m →
  ∃ run1 run2, run1 ≠ [] ∧ forallb Py.is_digit run1 = true
               ∧ run2 ≠ [] ∧ forallb Py.is_digit run2 = true
               ∧ Re.group 1 m = Some (Py.str run1)
               ∧ Re.group 2 m = Some (Py.str run2).
Proof.
  intros H. apply search_chars_some in H as [s0 H].
  unfold Re.match_chars, Resolver.spa_pattern in H. rewrite go_seq in H.
  apply literal_some in H as [s1 H]. rewrite go_seq in H.
  apply group_plus_some in H as (run1 & s2 & Hne1 & Hrun1 & H). rewrite go_seq in H.
  apply lit_some in H as (_ & s3 & _ & H).
  change (Re.go false (Re.Group 2 ?r) s3 ?cs ?k)
    with (Re.go false r s3 cs
            (λ s' cs', k s' ((2%nat, Py.str (take (length s3 - length s') s3)) :: cs')))
    in H.
  rewrite go_seq in H. simpl in H.
  destruct s3 as [|x s3]; [done|].
  destruct (Py.is_digit x && negb (bool_decide (x = "0"%char))) eqn:Ex; [|done].
  apply andb_prop in Ex as [Ex _].
  apply star_some in H as (run2 & s4 & -> & Hrun2 & H).
  injection H as <-.
  exists run1, (x :: run2). split; [done|]. split; [done|]. split; [done|].
  split; [by simpl; rewrite Ex|]. split; [done|].
  pose proof (take_run (x :: run2) s4) as Ht. simpl in Ht |- *. by rewrite Ht.
Qed.

(** ** The numbers of the extractors *)

Lemma as_number_digits display_as_string m n run :
  Re.group n m = Some (Py.str run) →
  Utils.as_number display_as_string m n
  = if display_as_string then Utils.AsStr (Py.str run)
    else Utils.AsInt (Py.digits_value run).
Proof.
  intros H. unfold Utils.as_number, Utils.int_group. rewrite H. simpl.
  by rewrite chars_str.
Qed.

Lemma matched_number_digits display_as_string m k :
  (∃ run, run ≠ [] ∧ forallb Re.d run = true ∧ Re.group k m = Some (Py.str run)) →
  ∃ digits, digits ≠ "" ∧ Py.all Py.is_digit digits = true
    ∧ Utils.as_number display_as_string m k
      = if display_as_string then Utils.AsStr digits
        else Utils.AsInt (Py.digits_value (Py.chars digits)).
Proof.
  intros (run & Hne & Hrun & Hg). exists (Py.str run). split; [|split].
  - intros Hs. apply Hne. by rewrite <- (chars_str run), Hs.
  - by rewrite all_str.
  - rewrite chars_str. by apply as_number_digits.
Qed.

Lemma extract_chassis_number_digits name display_as_string n :
  Utils.extract_chassis_number name display_as_string = Some n →
  ∃ digits, digits ≠ "" ∧ Py.all Py.is_digit digits = true
    ∧ n = if display_as_string then Utils.AsStr digits
          else Utils.AsInt (Py.digits_value (Py.chars digits)).
Proof.
  unfold Utils.extract_chassis_number, Re.search. intros H.
  destruct (Re.search_chars true Utils.chassis_pattern _) as [m|] eqn:E; [|done].
  injection H as <-. apply matched_number_digits. by eapply word_number_group.
Qed.

Lemma extract_slot_or_module_number_digits name display_as_string n :
  Utils.extract_slot_or_module_number name display_as_string = Some n →
  ∃ digits, digits ≠ "" ∧ Py.all Py.is_digit digits = true
    ∧ n = if display_as_string then Utils.AsStr digits
          else Utils.AsInt (Py.digits_value (Py.chars digits)).
Proof.
  unfold Utils.extract_slot_or_module_number, Re.search. intros H.
  destruct (Re.search_chars true Utils.slot_pattern _) as [m|] eqn:E.
  - injection H as <-. apply matched_number_digits. by eapply word_number_group.
  - destruct (Re.search_chars false Utils.port_pattern _) as [m|] eqn:E'; [|done].
    injection H as <-. apply matched_number_digits. by eapply port_pattern_group.
Qed.

(** X19: the two extractors return numbers that are written in the name:
    what they return is a non-empty run of decimal digits, as a string when
    [display_as_string] is set and as its value when it is not. *)
Theorem X19_extracted_numbers_are_digit_runs
    (name : string) (display_as_string : bool) (n : Utils.number) :
  Utils.extract_chassis_number name display_as_string = Some n
  ∨ Utils.extract_slot_or_module_number name display_as_string = Some n →
  ∃ digits,
    digits ≠ "" ∧ Py.all Py.is_digit digits = true
    ∧ n = if display_as_string then Utils.AsStr digits
          else Utils.AsInt (Py.digits_value (Py.chars digits)).
Proof.
  intros [H|H].
  - by eapply extract_chassis_number_digits.
  - by eapply extract_slot_or_module_number_digits.
Qed.

Lemma X19_extracted_numbers_are_digit_runs_witness :
  ∃ digits,
    digits ≠ "" ∧ Py.all Py.is_digit digits = true ∧ Utils.AsStr "2" = Utils.AsStr digits.
Proof.
  apply (X19_extracted_numbers_are_digit_runs "Switch 2 Slot 1" true (Utils.AsStr "2")).
  left. reflexivity.
Defined.

(** ** The numbers of the module positions *)

Lemma is_number_digits (run : list ascii) :
  run ≠ [] → forallb Py.is_digit run = true → Resolver.is_number (Some (Py.str run)) = true.
Proof.
  intros Hne Hrun. unfold Resolver.is_number. rewrite all_str, Hrun.
  rewrite bool_decide_eq_false_2; [done|].
  intros Hs. apply Hne. by rewrite <- (chars_str run), Hs.
Qed.

Lemma is_number_truthy s : Resolver.is_number s = true → Py.truthy s = true.
Proof.
  unfold Resolver.is_number, Py.truthy. destruct s; [|done].
  intros H. by apply andb_prop in H as [? _].
Qed.

Lemma number_text_is_number n digits :
  digits ≠ "" → Py.all Py.is_digit digits = true → n = Utils.AsStr digits →
  Resolver.is_number (Resolver.number_text (Some n)) = true.
Proof.
  intros Hne Hall ->. simpl. rewrite Hall. by rewrite bool_decide_eq_false_2.
Qed.

(** A number the resolver works out is a number. *)
Lemma module_position_numbers prototype_device allcardsdict modules dnacmodule
    switchnumber slotnumber :
  Resolver.module_position prototype_device allcardsdict modules dnacmodule
  = (switchnumber, slotnumber) →
  (Py.truthy switchnumber = true → Resolver.is_number switchnumber = true)
  ∧ (Py.truthy slotnumber = true → Resolver.is_number slotnumber = true).
Proof.
  unfold Resolver.module_position.
  destruct (allcardsdict !! _) as [card|].
  - assert (Hsw : Resolver.is_number
                    (if Resolver.is_number (Api.switchno card) then Api.switchno card
                     else Some "1") = true).
    { by destruct (Resolver.is_number (Api.switchno card)) eqn:E. }
    destruct (Resolver.is_number (Api.slotno card)) eqn:Eslot.
    { intros [= <- <-]. by split. }
    destruct (Py.contains "SPA subslot " _).
    + unfold Re.search.
      destruct (Re.search_chars false Resolver.spa_pattern _) as [m|] eqn:Em.
      * apply spa_pattern_groups in Em
          as (run1 & run2 & Hne1 & Hrun1 & Hne2 & Hrun2 & Hg1 & Hg2).
        intros [= <- <-]. rewrite Hg1, Hg2.
        split; intros _; by apply is_number_digits.
      * intros [= <- <-]. by split.
    + intros [= <- <-]. by split.
  - set (sw := if negb (Api.is_multiple prototype_device) then Some "1"
               else Resolver.number_text
                      (Utils.extract_chassis_number (Api.module_name dnacmodule) true)).
    set (sl := Resolver.number_text
                 (Utils.extract_slot_or_module_number (Api.module_name dnacmodule) true)).
    assert (Hsw : Py.truthy sw = true → Resolver.is_number sw = true).
    { subst sw. destruct (negb _); [done|].
      destruct (Utils.extract_chassis_number _ true) as [n|] eqn:E; [|done].
      apply extract_chassis_number_digits in E as (digits & Hne & Hall & Hn).
      intros _. by eapply number_text_is_number. }
    assert (Hsl : Py.truthy sl = true → Resolver.is_number sl = true).
    { subst sl.
      destruct (Utils.extract_slot_or_module_number _ true) as [n|] eqn:E; [|done].
      apply extract_slot_or_module_number_digits in E as (digits & Hne & Hall & Hn).
      intros _. by eapply number_text_is_number. }
    destruct (Py.truthy sw && negb (Py.truthy sl)); [destruct (decide _)|];
      intros [= <- <-]; by split.
Qed.

Lemma positioned_numbers dnacmodule switchnumber slotnumber :
  (Py.truthy switchnumber = true → Resolver.is_number switchnumber = true) →
  (Py.truthy slotnumber = true → Resolver.is_number slotnumber = true) →
  let m := Resolver.positioned dnacmodule switchnumber slotnumber in
  Api.module_serialNumber m = Api.module_serialNumber dnacmodule
  ∧ Api.dnac_name m = Some (Api.module_name dnacmodule)
  ∧ (Api.switchnumber m = Api.switchnumber dnacmodule
     ∨ Resolver.is_number (Api.switchnumber m) = true)
  ∧ (Api.slotnumber m = Api.slotnumber dnacmodule
     ∨ Resolver.is_number (Api.slotnumber m) = true)
  ∧ (Api.module_name m = Api.module_name dnacmodule
     ∨ (Resolver.is_number (Api.switchnumber m) = true
        ∧ Resolver.is_number (Api.slotnumber m) = true
        ∧ Api.module_name m
          = "Switch " +:+ default "" (Api.switchnumber m) +:+ " Module "
            +:+ default "" (Api.slotnumber m))).
Proof.
  intros Hsw Hsl. unfold Resolver.positioned. simpl.
  destruct (Py.truthy switchnumber) eqn:Esw, (Py.truthy slotnumber) eqn:Esl; simpl;
    repeat split; auto.
Qed.

Lemma module_positions_lookup
    (api : Api.Client) (prototype_device : Api.Device) (i : nat) (m : Api.Module) :
  Resolver.extract_module_positions api prototype_device !! i = Some m →
  ∃ dnacmodule,
    Resolver.kept_modules api prototype_device !! i = Some dnacmodule
    ∧ Api.module_serialNumber m = Api.module_serialNumber dnacmodule
    ∧ Api.dnac_name m = Some (Api.module_name dnacmodule)
    ∧ (Api.switchnumber m = Api.switchnumber dnacmodule
       ∨ Resolver.is_number (Api.switchnumber m) = true)
    ∧ (Api.slotnumber m = Api.slotnumber dnacmodule
       ∨ Resolver.is_number (Api.slotnumber m) = true)
    ∧ (Api.module_name m = Api.module_name dnacmodule
       ∨ (Resolver.is_number (Api.switchnumber m) = true
          ∧ Resolver.is_number (Api.slotnumber m) = true
          ∧ Api.module_name m
            = "Switch " +:+ default "" (Api.switchnumber m) +:+ " Module "
              +:+ default "" (Api.slotnumber m))).
Proof.
  unfold Resolver.extract_module_positions. rewrite list_lookup_fmap. intros H.
  destruct (Resolver.kept_modules api prototype_device !! i) as [dnacmodule|]; [|done].
  simpl in H. exists dnacmodule. split; [done|].
  destruct (Resolver.module_position _ _ _ dnacmodule) as [switchnumber slotnumber] eqn:E.
  apply module_position_numbers in E as [Hsw Hsl].
  injection H as <-. by apply positioned_numbers.
Qed.

(** X20: the modules the resolver returns are the controller's modules with
    a serial of more than three characters, all of them, one for one and in
    their order.  Each keeps its serial and has its reported name in
    [dnac_name]; its switch number and its slot number are the ones the
    controller reported or non-empty strings of decimal digits; and its
    name is the reported one, or "Switch s Module m" with s its switch
    number and m its slot number, which are then both numbers. *)
Theorem X20_module_positions_are_numbers
    (api : Api.Client) (prototype_device : Api.Device) :
  Forall2
    (λ dnacmodule m,
       Api.module_serialNumber m = Api.module_serialNumber dnacmodule
       ∧ Api.dnac_name m = Some (Api.module_name dnacmodule)
       ∧ (Api.switchnumber m = Api.switchnumber dnacmodule
          ∨ Resolver.is_number (Api.switchnumber m) = true)
       ∧ (Api.slotnumber m = Api.slotnumber dnacmodule
          ∨ Resolver.is_number (Api.slotnumber m) = true)
       ∧ (Api.module_name m = Api.module_name dnacmodule
          ∨ (Resolver.is_number (Api.switchnumber m) = true
             ∧ Resolver.is_number (Api.slotnumber m) = true
             ∧ Api.module_name m
               = "Switch " +:+ default "" (Api.switchnumber m) +:+ " Module "
                 +:+ default "" (Api.slotnumber m))))
    (filter (λ apimodule, (3 < length (Py.chars (Api.module_serialNumber apimodule)))%nat)
       (Api.get_modules api (Api.id prototype_device)))
    (Resolver.extract_module_positions api prototype_device).
Proof.
  unfold Resolver.extract_module_positions.
  change (filter _ (Api.get_modules api (Api.id prototype_device)))
    with (Resolver.kept_modules api prototype_device).
  apply Forall2_fmap_r, Forall_Forall2_diag, Forall_forall.
  intros dnacmodule _. simpl.
  destruct (Resolver.module_position prototype_device _ _ dnacmodule)
    as [switchnumber slotnumber] eqn:E.
  apply module_position_numbers in E as [Hsw Hsl].
  by apply positioned_numbers.
Qed.

(** ** The unit handed to [process_prototype] *)

Lemma digit_not_space (c : ascii) : Py.is_digit c = true → Py.is_space c = false.
Proof. by destruct c as [[] [] [] [] [] [] [] []]. Qed.

Lemma lstrip_chars_digits (l : list ascii) :
  forallb Py.is_digit l = true → Py.lstrip_chars l = l.
Proof.
  destruct l as [|c l]; [done|]. simpl. intros H.
  apply andb_prop in H as [H _]. by rewrite (digit_not_space c H).
Qed.

Lemma strip_digits (l : list ascii) :
  forallb Py.is_digit l = true → Py.strip (Py.str l) = Py.str l.
Proof.
  intros H. unfold Py.strip. rewrite chars_str, (lstrip_chars_digits l H).
  rewrite lstrip_chars_digits by by rewrite forallb_reverse.
  by rewrite reverse_involutive.
Qed.

Lemma literal_digits_run (l : list ascii) :
  forallb Py.is_digit l = true → Py.literal_digits true l = Some l.
Proof.
  induction l as [|c l IH]; [done|]. simpl. intros H.
  apply andb_prop in H as [-> H]. by rewrite (IH H).
Qed.

Lemma int_digits (l : list ascii) :
  l ≠ [] → forallb Py.is_digit l = true → Py.int (Py.str l) = Some (Py.digits_value l).
Proof.
  intros Hne H. unfold Py.int. rewrite (strip_digits l H), chars_str.
  destruct l as [|c l]; [done|]. simpl in H. apply andb_prop in H as [Hc H].
  assert (Hl : Py.literal_digits false (c :: l) = Some (c :: l)).
  { simpl. by rewrite Hc, (literal_digits_run l H). }
  destruct c as [[] [] [] [] [] [] [] []]; try discriminate Hc; by rewrite Hl.
Qed.

Lemma is_number_int s :
  Resolver.is_number s = true → is_Some (Py.int (default "" s)).
Proof.
  unfold Resolver.is_number. destruct s as [s|]; [|done]. intros H.
  apply andb_prop in H as [Hne Hall]. apply negb_true_iff, bool_decide_eq_false in Hne.
  simpl. rewrite <- (str_chars s). rewrite int_digits; [by eexists| |done].
  intros Hs. apply Hne. by rewrite <- (str_chars s), Hs.
Qed.


